(** * Event Storyboard API: store adapter, share links, export and login

    A shallow embedding of [database.py], [schemas.py] and the handlers of
    [main.py] that read and write the document store, followed by the
    properties of the design document settled against it.

    Conventions.
    - A Python [Dict[str, Any]] at the top level (a payload, a record handed
      back by the adapter) is a [gmap string value].
    - A dictionary nested inside a record (a slide) keeps its entries in
      order, as the storage format does.
    - State is passed explicitly: an operation that writes takes the store
      and returns the new one.
    - What a handler can end in is an [outcome]: the value it returns, the
      [HTTPException] it raises, or another exception it lets escape.
    - Clock readings and random tokens are arguments of the handler that
      draws them.
    - The libraries outside the repository (credentials, tokens, schema
      constructors, imaging and slide decks) are arguments of the handlers
      that call them; for the rendering libraries the argument says which
      exception a call raises, if any. *)

From stdpp Require Import gmap strings list fin_maps pretty.
From Stdlib Require Import ZArith.

#[local] Open Scope string_scope.
#[local] Open Scope list_scope.
#[local] Set Warnings "-register-all".

(** ** Python values *)

(** The values a record holds: [None], [str], the store's [ObjectId],
    [datetime] (milliseconds since the epoch, the precision the store
    keeps), [list] and nested [dict]. *)
Inductive value : Type :=
  | VNone
  | VStr (s : string)
  | VOid (oid : N)
  | VDate (t : Z)
  | VList (l : list value)
  | VDict (d : list (string * value)).

Abbreviation document := (gmap string value).

(** [bool(v)]. *)
Definition truthy (v : value) : bool :=
  match v with
  | VNone => false
  | VStr s => negb (bool_decide (s = ""))
  | VOid _ => true
  | VDate _ => true
  | VList l => negb (bool_decide (length l = 0%nat))
  | VDict d => negb (bool_decide (length d = 0%nat))
  end.

(** [a or b]. *)
Definition py_or (a b : value) : value := if truthy a then a else b.

(** [v == w] on values; nested dictionaries compare entry by entry. *)
Fixpoint value_eqb (v w : value) {struct v} : bool :=
  match v, w with
  | VNone, VNone => true
  | VStr s, VStr t => bool_decide (s = t)
  | VOid n, VOid m => bool_decide (n = m)
  | VDate s, VDate t => bool_decide (s = t)
  | VList l, VList k =>
      (fix go (l k : list value) {struct l} : bool :=
         match l, k with
         | [], [] => true
         | x :: l', y :: k' => value_eqb x y && go l' k'
         | _, _ => false
         end) l k
  | VDict l, VDict k =>
      (fix go (l k : list (string * value)) {struct l} : bool :=
         match l, k with
         | [], [] => true
         | (a, x) :: l', (b, y) :: k' =>
             bool_decide (a = b) && value_eqb x y && go l' k'
         | _, _ => false
         end) l k
  | _, _ => false
  end.

(** [d.get(k, dflt)] on a nested dictionary. *)
Fixpoint dict_get (d : list (string * value)) (k : string) (dflt : value) : value :=
  match d with
  | [] => dflt
  | (k', v) :: d' => if bool_decide (k' = k) then v else dict_get d' k dflt
  end.

(** [k in d] on a nested dictionary. *)
Definition dict_has (d : list (string * value)) (k : string) : bool :=
  existsb (λ p, bool_decide (p.1 = k)) d.

(** [s.get(k, dflt)] on an arbitrary value: only a dictionary has the
    method, anything else raises [AttributeError]. *)
Definition py_get (s : value) (k : string) (dflt : value) : option value :=
  match s with
  | VDict d => Some (dict_get d k dflt)
  | _ => None
  end.

(** What a handler ends in. *)
Inductive outcome (A : Type) : Type :=
  | Return (a : A)
  | HTTPException (status_code : Z) (detail : string)
  | Raised (exn : string).
Arguments Return {A} a.
Arguments HTTPException {A} status_code detail.
Arguments Raised {A} exn.

(** ** The storage collaborator

    The document database behind [database.py], reduced to the calls the
    adapter makes: [insert_one], [find] with [limit], [find_one],
    [update_one] with [$set] and [delete_one], each on a named collection.
    A collection is the list of its documents in insertion order, which is
    the order a query without a sort returns them in. *)
Module Mongo.

(** A stored document: the identifier the store assigned and the fields
    of the payload. Every payload of this code base is the [.dict()] of a
    schema class, none of which declares [_id], so the identifier is
    always the store's own. *)
Record stored : Type := { _id : N; body : document }.

(** The dictionary the driver hands back for a stored document. *)
Definition as_dict (d : stored) : document := <["_id" := VOid (_id d)]> (body d).

(** A query is a dictionary of field/operand pairs, all of which must
    hold. The operands of this code base are plain values (no [$]
    operators, no dotted paths). *)
Abbreviation query := (gmap string value).

(** One field against one operand: equal values match, an array field
    matches when it has the operand among its elements, and the operand
    [None] also matches a field that is missing. *)
Definition field_matches (operand : value) (field : option value) : bool :=
  match field with
  | None => value_eqb operand VNone
  | Some v =>
      value_eqb v operand
      || match v with
         | VList l => existsb (λ x, value_eqb x operand) l
         | _ => false
         end
  end.

Definition matches (q : query) (d : document) : bool :=
  forallb (λ kv, field_matches kv.2 (d !! kv.1)) (map_to_list q).

Record db : Type := { collections : gmap string (list stored); next_oid : N }.

Definition empty : db := {| collections := ∅; next_oid := 0 |}.

(** [db[name]]: a collection that was never written to is empty. *)
Definition collection (s : db) (name : string) : list stored :=
  default [] (collections s !! name).

Definition with_collection (s : db) (name : string) (l : list stored) : db :=
  {| collections := <[name := l]> (collections s); next_oid := next_oid s |}.

(** [insert_one(data)]: a fresh identifier, the document appended; the
    result carries [inserted_id]. *)
Definition insert_one (s : db) (name : string) (data : document) : db * N :=
  let oid := next_oid s in
  ({| collections :=
        <[name := collection s name ++ [{| _id := oid; body := data |}]]>
          (collections s);
      next_oid := N.succ oid |},
   oid).

(** [find(q)]: the matching documents, in order. *)
Definition find (s : db) (name : string) (q : query) : list stored :=
  List.filter (λ d, matches q (as_dict d)) (collection s name).

(** [cursor.limit(n)]: [0] means no limit, a negative limit counts as
    its absolute value. *)
Definition limit {A : Type} (n : Z) (l : list A) : list A :=
  if bool_decide (n = 0%Z) then l else take (Z.abs_nat n) l.

(** [find_one(q)]: the first match, or [None]. *)
Definition find_one (s : db) (name : string) (q : query) : option stored :=
  head (find s name q).

(** [$set] on the first match: the given fields replace or extend the
    document's, every other field stays. As with payloads, no partial
    record of this code base names [_id]. *)
Fixpoint set_first (q : query) (data : document) (l : list stored) : list stored :=
  match l with
  | [] => []
  | d :: l' =>
      if matches q (as_dict d)
      then {| _id := _id d; body := data ∪ body d |} :: l'
      else d :: set_first q data l'
  end.

Definition update_one (s : db) (name : string) (q : query) (data : document) : db :=
  with_collection s name (set_first q data (collection s name)).

(** Removal of the first match, with the number of documents removed. *)
Fixpoint remove_first (q : query) (l : list stored) : list stored * Z :=
  match l with
  | [] => ([], 0%Z)
  | d :: l' =>
      if matches q (as_dict d) then (l', 1%Z)
      else let '(r, n) := remove_first q l' in (d :: r, n)
  end.

Definition delete_one (s : db) (name : string) (q : query) : db * Z :=
  let '(l, n) := remove_first q (collection s name) in
  (with_collection s name l, n).

(** [str(ObjectId)]: twenty-four lowercase hexadecimal digits. *)
Definition hex_digit (n : N) : string :=
  String.substring (N.to_nat n) 1 "0123456789abcdef".

Fixpoint hex_fixed (width : nat) (n : N) : string :=
  match width with
  | O => ""
  | S w => hex_fixed w (n / 16) +:+ hex_digit (n mod 16)
  end.

Definition ObjectId_str (oid : N) : string := hex_fixed 24 oid.

End Mongo.

(** ** database.py *)

(** [doc["id"] = str(doc.pop("_id"))] on a document handed back by the
    driver. *)
Definition normalize (d : Mongo.stored) : document :=
  <["id" := VStr (Mongo.ObjectId_str (Mongo._id d))]> (delete "_id" (Mongo.as_dict d)).

Definition create_document (s : Mongo.db) (collection_name : string) (data : document)
  : Mongo.db * document :=
  let '(s', inserted_id) := Mongo.insert_one s collection_name data in
  let doc := Mongo.find_one s' collection_name {["_id" := VOid inserted_id]} in
  (s', match doc with
       | Some d => normalize d
       | None => ∅
       end).

Definition get_documents (s : Mongo.db) (collection_name : string)
    (filter_dict : option Mongo.query) (limit : Z) : list document :=
  normalize <$> Mongo.limit limit (Mongo.find s collection_name (default ∅ filter_dict)).

(** The default of the [limit] argument. *)
Definition default_limit : Z := 100.

Definition get_document (s : Mongo.db) (collection_name : string)
    (filter_dict : Mongo.query) : option document :=
  match Mongo.find_one s collection_name filter_dict with
  | None => None
  | Some d => Some (normalize d)
  end.

Definition update_document (s : Mongo.db) (collection_name : string)
    (filter_dict : Mongo.query) (data : document) : Mongo.db * option document :=
  let s' := Mongo.update_one s collection_name filter_dict data in
  (s', get_document s' collection_name filter_dict).

Definition delete_document (s : Mongo.db) (collection_name : string)
    (filter_dict : Mongo.query) : Mongo.db * bool :=
  let '(s', deleted_count) := Mongo.delete_one s collection_name filter_dict in
  (s', bool_decide (deleted_count = 1%Z)).

(** ** schemas.py *)

Module SlideExportRequest.

Record t : Type := { project_id : string; format : string }.

(** The body of a request as it arrives, before the schema has seen it. *)
Record body : Type := { body_project_id : option string; body_format : option string }.

(** [Literal['images', 'video', 'pptx']]. *)
Definition formats : list string := ["images"; "video"; "pptx"].

(** Validation against the schema: [project_id] is required, [format]
    defaults to ['images'] and must be one of the three literals. [None]
    is a validation error: the request is turned away and the handler is
    never entered. *)
Definition validate (b : body) : option t :=
  match body_project_id b with
  | None => None
  | Some pid =>
      match body_format b with
      | None => Some {| project_id := pid; format := "images" |}
      | Some f =>
          if bool_decide (f ∈ formats)
          then Some {| project_id := pid; format := f |}
          else None
      end
  end.

End SlideExportRequest.

Module ShareLink.

Record t : Type := {
  id : option string;
  project_id : string;
  token : string;
  role : string;
  created_at : Z;
  expires_at : option Z
}.

(** [Literal['viewer', 'editor']]. *)
Definition roles : list string := ["viewer"; "editor"].

Definition opt_str (o : option string) : value :=
  match o with Some x => VStr x | None => VNone end.

Definition opt_date (o : option Z) : value :=
  match o with Some x => VDate x | None => VNone end.

(** [link.dict()]. *)
Definition dict (l : t) : document :=
  <["id" := opt_str (id l)]>
  (<["project_id" := VStr (project_id l)]>
  (<["token" := VStr (token l)]>
  (<["role" := VStr (role l)]>
  (<["created_at" := VDate (created_at l)]>
  (<["expires_at" := opt_date (expires_at l)]> ∅))))).

End ShareLink.

Module AuthPayload.
Record t : Type := { email : string; password : option string; name : option string }.
End AuthPayload.

(** ** main.py *)

Record Token : Type := { access_token : string; token_type : string }.

Definition ACCESS_TOKEN_EXPIRE_MINUTES : Z := 60 * 24.

(** [timedelta(minutes=m)] and [timedelta(days=d)], in milliseconds. *)
Definition minutes (m : Z) : Z := m * 60000.
Definition days (d : Z) : Z := d * 86400000.

(** *** What an export hands to the imaging, archive and slide-deck
    libraries: each artifact is the record of the calls that built it. *)

(** [draw.text(xy, text, fill=fill)]. *)
Record text_call : Type := { xy : Z * Z; text : value; fill : value }.

(** [Image.new(mode, size, color=color)] and what was drawn on it. *)
Record Image : Type := {
  mode : string;
  size : Z * Z;
  color : value;
  drawn : list text_call
}.

(** A slide added with [slide_layouts[layout]] and one text box, its
    position and size in inches. *)
Record deck_slide : Type := {
  layout : nat;
  textbox : Z * Z * Z * Z;
  text_frame : value
}.

Inductive artifact : Type :=
  | ZipFile (entries : list (string * Image))
  | Presentation (slides : list deck_slide).

Record StreamingResponse : Type := {
  content : artifact;
  media_type : string;
  headers : list (string * string)
}.

(** The imaging library (PIL) and the slide-deck library (pptx) are not
    part of the repository. Three of the calls the handler makes receive
    values read from a stored slide, and the libraries raise on values
    they cannot use: a colour that is no colour, a text that is no
    string. For each of these calls the record says which exception the
    call raises on its arguments, [None] when it returns. The remaining
    calls ([ImageDraw.Draw], [img.save], [zipf.writestr], [Presentation],
    [add_slide], [add_textbox], [prs.save]) get arguments fixed by the
    handler and return. *)
Record rendering : Type := {
  (** [Image.new('RGB', (1080, 1920), color=c)] *)
  Image_new : value → option string;
  (** [draw.text((50, 50), text, fill=f)] *)
  ImageDraw_text : value → value → option string;
  (** [tf.text = v] *)
  text_frame_set : value → option string
}.

Definition dquote : string := String (Ascii.ascii_of_nat 34) "".

(** [for x in v]: a list yields its elements, a string its characters, a
    dictionary its keys; nothing else is iterable. *)
Definition py_iter (v : value) : string + list value :=
  match v with
  | VList l => inr l
  | VStr s => inr ((λ c, VStr (String c "")) <$> String.list_ascii_of_string s)
  | VDict d => inr ((λ kv, VStr kv.1) <$> d)
  | _ => inl "TypeError"
  end.

(** The body of the images loop for the slide [s] at position [idx], in
    the order of evaluation: [s.get('bg', ...)], [Image.new],
    [s.get('text', ...)], [s.get('color', ...)], [draw.text]. The first
    exception ends it. *)
Definition slide_image (lib : rendering) (idx : nat) (s : value)
  : string + (string * Image) :=
  match py_get s "bg" (VStr "#111827") with
  | None => inl "AttributeError"
  | Some bg =>
      match Image_new lib bg with
      | Some exn => inl exn
      | None =>
          match py_get s "text" (VStr ("Slide " +:+ pretty idx)) with
          | None => inl "AttributeError"
          | Some txt =>
              match py_get s "color" (VStr "#ffffff") with
              | None => inl "AttributeError"
              | Some fg =>
                  match ImageDraw_text lib txt fg with
                  | Some exn => inl exn
                  | None =>
                      inr ("slide_" +:+ pretty idx +:+ ".png",
                           {| mode := "RGB"; size := (1080, 1920)%Z; color := bg;
                              drawn := [{| xy := (50, 50)%Z; text := txt;
                                           fill := fg |}] |})
                  end
              end
          end
      end
  end.

(** [for idx, s in enumerate(l, start=idx)]: an exception in one
    iteration ends the loop and nothing is produced. *)
Fixpoint images_loop (lib : rendering) (idx : nat) (l : list value)
  : string + list (string * Image) :=
  match l with
  | [] => inr []
  | s :: l' =>
      match slide_image lib idx s with
      | inl exn => inl exn
      | inr e =>
          match images_loop lib (S idx) l' with
          | inl exn => inl exn
          | inr es => inr (e :: es)
          end
      end
  end.

(** The body of the slide-deck loop: [s.get('text', ...)], then the
    assignment to [tf.text]. *)
Definition slide_page (lib : rendering) (idx : nat) (s : value) : string + deck_slide :=
  match py_get s "text" (VStr ("Slide " +:+ pretty idx)) with
  | None => inl "AttributeError"
  | Some txt =>
      match text_frame_set lib txt with
      | Some exn => inl exn
      | None => inr {| layout := 5; textbox := (1, 1, 8, 5)%Z; text_frame := txt |}
      end
  end.

Fixpoint pages_loop (lib : rendering) (idx : nat) (l : list value)
  : string + list deck_slide :=
  match l with
  | [] => inr []
  | s :: l' =>
      match slide_page lib idx s with
      | inl exn => inl exn
      | inr p =>
          match pages_loop lib (S idx) l' with
          | inl exn => inl exn
          | inr ps => inr (p :: ps)
          end
      end
  end.

Definition zip_response (entries : list (string * Image)) : StreamingResponse :=
  {| content := ZipFile entries;
     media_type := "application/zip";
     headers := [("Content-Disposition",
                  "attachment; filename=" +:+ dquote +:+ "slides.zip" +:+ dquote)] |}.

Definition pptx_response (pages : list deck_slide) : StreamingResponse :=
  {| content := Presentation pages;
     media_type :=
       "application/vnd.openxmlformats-officedocument.presentationml.presentation";
     headers := [("Content-Disposition",
                  "attachment; filename=" +:+ dquote +:+ "storyboard.pptx" +:+ dquote)] |}.

Definition export_storyboard (lib : rendering) (s : Mongo.db) (req : SlideExportRequest.t)
  : outcome StreamingResponse :=
  match get_document s "project" {["id" := VStr (SlideExportRequest.project_id req)]} with
  | None => HTTPException 404 "Project not found"
  | Some proj =>
      let slides := default (VList []) (proj !! "slides") in
      if bool_decide (SlideExportRequest.format req = "images") then
        match py_iter (py_or slides (VList [VDict []])) with
        | inl exn => Raised exn
        | inr l =>
            match images_loop lib 1 l with
            | inl exn => Raised exn
            | inr entries => Return (zip_response entries)
            end
        end
      else if bool_decide (SlideExportRequest.format req = "pptx") then
        match py_iter (py_or slides (VList [VDict []])) with
        | inl exn => Raised exn
        | inr l =>
            match pages_loop lib 1 l with
            | inl exn => Raised exn
            | inr pages => Return (pptx_response pages)
            end
        end
      else if bool_decide (SlideExportRequest.format req = "video") then
        HTTPException 501 "Video export not implemented in demo"
      else HTTPException 400 "Invalid format"
  end.

(** What the caller of [POST /export] gets: the request is validated
    against [SlideExportRequest] first, and only a valid one reaches the
    handler. *)
Inductive reply (A : Type) : Type :=
  | RequestValidationError
  | Handled (o : outcome A).
Arguments RequestValidationError {A}.
Arguments Handled {A} o.

Definition post_export (lib : rendering) (s : Mongo.db) (b : SlideExportRequest.body)
  : reply StreamingResponse :=
  match SlideExportRequest.validate b with
  | None => RequestValidationError
  | Some req => Handled (export_storyboard lib s req)
  end.

Section Handlers.

(** The credential collaborator: [pwd_context.verify], which answers or
    raises, and [jwt.encode] under the module's key and algorithm. *)
Variable pwd_verify : string → value → string + bool.
Variable jwt_encode : document → string.

(** The schema constructors applied to the fields of a stored record
    (a [Project] or a [ShareLink] built from a dictionary): [None] is a
    validation error. *)
Variable Project : Type.
Variable Project_of : document → option Project.
Variable ShareLink_of : document → option ShareLink.t.

Definition create_access_token (now : Z) (data : document) (expires_delta : option Z)
  : string :=
  let delta :=
    match expires_delta with
    | Some d => if bool_decide (d = 0%Z) then minutes ACCESS_TOKEN_EXPIRE_MINUTES else d
    | None => minutes ACCESS_TOKEN_EXPIRE_MINUTES
    end in
  jwt_encode (<["exp" := VDate (now + delta)]> data).

Definition login (s : Mongo.db) (now : Z) (payload : AuthPayload.t) : outcome Token :=
  match get_documents s "user" (Some {["email" := VStr (AuthPayload.email payload)]}) 1 with
  | [] => HTTPException 400 "Invalid credentials"
  | user :: _ =>
      let checked :=
        match AuthPayload.password payload with
        | None => inr false
        | Some pw =>
            if bool_decide (pw = "") then inr false
            else pwd_verify pw (default (VStr "") (user !! "hashed_password"))
        end in
      match checked with
      | inl exn => Raised exn
      | inr false => HTTPException 400 "Invalid credentials"
      | inr true =>
          match user !! "id", user !! "email" with
          | Some i, Some e =>
              Return {| access_token :=
                          create_access_token now
                            (<["sub" := i]> (<["email" := e]> ∅)) None;
                        token_type := "bearer" |}
          | _, _ => Raised "KeyError"
          end
      end
  end.

Definition get_project (s : Mongo.db) (project_id : string) : outcome Project :=
  match get_document s "project" {["id" := VStr project_id]} with
  | None => HTTPException 404 "Project not found"
  | Some proj =>
      match Project_of proj with
      | Some p => Return p
      | None => Raised "ValidationError"
      end
  end.

(** [token] is the draw of [secrets.token_urlsafe(16)], [t_created] and
    [t_now] the two clock readings, in the order they are taken. *)
Definition create_share_link (s : Mongo.db) (project_id role token : string)
    (t_created t_now : Z) : Mongo.db * outcome ShareLink.t :=
  if bool_decide (role ∈ ShareLink.roles) then
    let link :=
      {| ShareLink.id := None; ShareLink.project_id := project_id;
         ShareLink.token := token; ShareLink.role := role;
         ShareLink.created_at := t_created;
         ShareLink.expires_at := Some (t_now + days 14)%Z |} in
    let '(s', doc) := create_document s "sharelink" (ShareLink.dict link) in
    (s', match ShareLink_of doc with
         | Some l => Return l
         | None => Raised "ValidationError"
         end)
  else (s, Raised "ValidationError").

Definition get_shared_project (s : Mongo.db) (token : string) : outcome Project :=
  match get_documents s "sharelink" (Some {["token" := VStr token]}) 1 with
  | [] => HTTPException 404 "Link not found"
  | link :: _ =>
      match link !! "project_id" with
      | None => Raised "KeyError"
      | Some pid =>
          match get_document s "project" {["id" := pid]} with
          | None => HTTPException 404 "Project not found"
          | Some proj =>
              match Project_of proj with
              | Some p => Return p
              | None => Raised "ValidationError"
              end
          end
      end
  end.

(** What [get_shared_project] answers once the link is found: the
    project the link's [project_id] resolves to, through the schema. *)
Definition shared_project_answer (s : Mongo.db) (pid : value) : outcome Project :=
  match get_document s "project" {["id" := pid]} with
  | None => HTTPException 404 "Project not found"
  | Some proj =>
      match Project_of proj with
      | Some p => Return p
      | None => Raised "ValidationError"
      end
  end.

End Handlers.

(** ** schemas.py, the records the other handlers build *)

(** An [Optional[str]] field in a [.dict()]. *)
Definition opt_field (o : option string) : value :=
  match o with
  | Some x => VStr x
  | None => VNone
  end.

Module User.

Record t : Type := {
  id : option string;
  email : string;
  name : option string;
  provider : string;
  hashed_password : option string;
  created_at : Z
}.

(** [user.dict()]. *)
Definition dict (u : t) : document :=
  <["id" := opt_field (id u)]>
  (<["email" := VStr (email u)]>
  (<["name" := opt_field (name u)]>
  (<["provider" := VStr (provider u)]>
  (<["hashed_password" := opt_field (hashed_password u)]>
  (<["created_at" := VDate (created_at u)]> ∅))))).

End User.

Module Project.

Record t : Type := {
  id : option string;
  owner_id : string;
  title : string;
  date : option string;
  location : option string;
  platform : option string;
  mood : option string;
  theme_id : option string;
  slides : list (list (string * value));
  collaborators : list string;
  created_at : Z;
  updated_at : Z
}.

(** [project.dict()]. *)
Definition dict (p : t) : document :=
  <["id" := opt_field (id p)]>
  (<["owner_id" := VStr (owner_id p)]>
  (<["title" := VStr (title p)]>
  (<["date" := opt_field (date p)]>
  (<["location" := opt_field (location p)]>
  (<["platform" := opt_field (platform p)]>
  (<["mood" := opt_field (mood p)]>
  (<["theme_id" := opt_field (theme_id p)]>
  (<["slides" := VList (VDict <$> slides p)]>
  (<["collaborators" := VList (VStr <$> collaborators p)]>
  (<["created_at" := VDate (created_at p)]>
  (<["updated_at" := VDate (updated_at p)]> ∅))))))))))).

(** [project.created_at = now] and [project.updated_at = now]. *)
Definition stamp_created (p : t) (now : Z) : t :=
  {| id := id p; owner_id := owner_id p; title := title p; date := date p;
     location := location p; platform := platform p; mood := mood p;
     theme_id := theme_id p; slides := slides p; collaborators := collaborators p;
     created_at := now; updated_at := now |}.

(** [project.updated_at = now]. *)
Definition stamp_updated (p : t) (now : Z) : t :=
  {| id := id p; owner_id := owner_id p; title := title p; date := date p;
     location := location p; platform := platform p; mood := mood p;
     theme_id := theme_id p; slides := slides p; collaborators := collaborators p;
     created_at := created_at p; updated_at := now |}.

End Project.

(** ** main.py, the other handlers *)

(** The body of [DELETE /projects/{project_id}]'s answer. *)
Record DeleteResult : Type := { success : bool }.

(** The token issued for a user record: [user["id"]] and [user["email"]]
    are looked up with indexing, which raises on a missing key. *)
Definition token_for (jwt_encode : document → string) (now : Z) (user : document)
  : outcome Token :=
  match user !! "id", user !! "email" with
  | Some i, Some e =>
      Return {| access_token :=
                  create_access_token jwt_encode now
                    (<["sub" := i]> (<["email" := e]> ∅)) None;
                token_type := "bearer" |}
  | _, _ => Raised "KeyError"
  end.

Section Accounts.

(** The credential collaborator: [pwd_context.hash] with the salt it
    draws, which answers with a digest or raises, and [jwt.encode]. *)
Variable pwd_hash : string → string → string + string.
Variable jwt_encode : document → string.

(** The validation an [EmailStr] field applies: the address as it is
    kept, or [None] when the string is rejected. *)
Variable EmailStr : string → option string.

(** [token_hex] is the draw of [secrets.token_hex(8)], [salt] the one of
    the hash, [t_user] the clock reading of the record's [created_at]
    and [t_token] the one of the token. *)
Definition register (s : Mongo.db) (payload : AuthPayload.t)
    (token_hex salt : string) (t_user t_token : Z) : Mongo.db * outcome Token :=
  match get_documents s "user" (Some {["email" := VStr (AuthPayload.email payload)]}) 1 with
  | _ :: _ => (s, HTTPException 400 "Email already registered")
  | [] =>
      let secret :=
        match AuthPayload.password payload with
        | Some pw => if bool_decide (pw = "") then token_hex else pw
        | None => token_hex
        end in
      match pwd_hash salt secret with
      | inl exn => (s, Raised exn)
      | inr hashed =>
          match EmailStr (AuthPayload.email payload) with
          | None => (s, Raised "ValidationError")
          | Some e =>
              let user :=
                {| User.id := None; User.email := e;
                   User.name := AuthPayload.name payload;
                   User.provider := "email";
                   User.hashed_password := Some hashed;
                   User.created_at := t_user |} in
              let '(s', doc) := create_document s "user" (User.dict user) in
              (s', token_for jwt_encode t_token doc)
          end
      end
  end.

Definition google_sso (s : Mongo.db) (id_token : string) (t_user t_token : Z)
  : Mongo.db * outcome Token :=
  let email := id_token in
  match get_documents s "user" (Some {["email" := VStr email]}) 1 with
  | user :: _ => (s, token_for jwt_encode t_token user)
  | [] =>
      match EmailStr email with
      | None => (s, Raised "ValidationError")
      | Some e =>
          let '(s', user) :=
            create_document s "user"
              (User.dict
                 {| User.id := None; User.email := e; User.name := None;
                    User.provider := "google"; User.hashed_password := None;
                    User.created_at := t_user |}) in
          (s', token_for jwt_encode t_token user)
      end
  end.

End Accounts.

Section Projects.

(** The schema constructors applied to the fields of a stored record, as
    in the handlers above: [None] is a validation error. *)
Variable ProjectT : Type.
Variable Project_of : document → option ProjectT.
Variable MediaAssetT : Type.
Variable MediaAsset_of : document → option MediaAssetT.

(** A list comprehension over a schema constructor: the first record
    that does not validate raises. *)
Definition validate_all {A : Type} (of_doc : document → option A)
    (docs : list document) : outcome (list A) :=
  match mapM of_doc docs with
  | Some l => Return l
  | None => Raised "ValidationError"
  end.

Definition create_project (s : Mongo.db) (project : Project.t) (now : Z)
  : Mongo.db * outcome ProjectT :=
  let '(s', doc) :=
    create_document s "project" (Project.dict (Project.stamp_created project now)) in
  (s', match Project_of doc with
       | Some p => Return p
       | None => Raised "ValidationError"
       end).

Definition list_projects (s : Mongo.db) (owner_id : option string)
  : outcome (list ProjectT) :=
  let filter_dict : Mongo.query :=
    match owner_id with
    | Some o => if bool_decide (o = "") then ∅ else {["owner_id" := VStr o]}
    | None => ∅
    end in
  validate_all Project_of (get_documents s "project" (Some filter_dict) default_limit).

Definition update_project (s : Mongo.db) (project_id : string) (project : Project.t)
    (now : Z) : Mongo.db * outcome ProjectT :=
  let '(s', updated) :=
    update_document s "project" {["id" := VStr project_id]}
      (Project.dict (Project.stamp_updated project now)) in
  (s', match updated with
       | None => HTTPException 404 "Project not found"
       | Some u =>
           match Project_of u with
           | Some p => Return p
           | None => Raised "ValidationError"
           end
       end).

Definition delete_project (s : Mongo.db) (project_id : string)
  : Mongo.db * DeleteResult :=
  let '(s', ok) := delete_document s "project" {["id" := VStr project_id]} in
  (s', {| success := ok |}).

Definition list_media (s : Mongo.db) (owner_id project_id : option string)
  : outcome (list MediaAssetT) :=
  let filt : Mongo.query := ∅ in
  let filt :=
    match owner_id with
    | Some o => if bool_decide (o = "") then filt else <["owner_id" := VStr o]> filt
    | None => filt
    end in
  let filt :=
    match project_id with
    | Some p => if bool_decide (p = "") then filt else <["project_id" := VStr p]> filt
    | None => filt
    end in
  validate_all MediaAsset_of (get_documents s "mediaasset" (Some filt) default_limit).

End Projects.

(** * Vocabulary of the properties *)

(** ** Records and slides *)

(** A record as a caller of the adapter may see it: a string under [id],
    nothing under [_id]. *)
Definition normalized (r : document) : Prop :=
  (∃ i : string, r !! "id" = Some (VStr i)) ∧ r !! "_id" = None.

(** The project's slide list is the list of dictionaries [ds]: what
    [proj.get("slides", [])] evaluates to for a record of the [Project]
    schema, whose [slides] field is a [List[dict]]. *)
Definition has_slides (proj : document) (ds : list (list (string * value))) : Prop :=
  default (VList []) (proj !! "slides") = VList (VDict <$> ds).

(** [slides or [{}]] on a list of dictionaries. *)
Definition slides_or_default (ds : list (list (string * value))) : list (list (string * value)) :=
  match ds with
  | [] => [[]]
  | _ => ds
  end.

Definition slide_name (n : nat) : string := "slide_" +:+ pretty n +:+ ".png".

Definition default_text (n : nat) : value := VStr ("Slide " +:+ pretty n).

(** The archive entry of the slide [d] rendered at position [n]. *)
Definition image_entry (n : nat) (d : list (string * value)) : string * Image :=
  (slide_name n,
   {| mode := "RGB"; size := (1080, 1920)%Z;
      color := dict_get d "bg" (VStr "#111827");
      drawn := [{| xy := (50, 50)%Z;
                   text := dict_get d "text" (default_text n);
                   fill := dict_get d "color" (VStr "#ffffff") |}] |}).

(** The page of the slide [d] rendered at position [n]. *)
Definition page_entry (n : nat) (d : list (string * value)) : deck_slide :=
  {| layout := 5; textbox := (1, 1, 8, 5)%Z;
     text_frame := dict_get d "text" (default_text n) |}.

(** The imaging library takes what the images loop hands it for the
    slide [d] at position [n]: its background, or the default one, as the
    colour of a new image; its text and text colour, or the defaults, as a
    text to draw. *)
Definition image_renders (lib : rendering) (n : nat) (d : list (string * value)) : Prop :=
  Image_new lib (dict_get d "bg" (VStr "#111827")) = None
  ∧ ImageDraw_text lib (dict_get d "text" (default_text n))
      (dict_get d "color" (VStr "#ffffff")) = None.

(** The slide-deck library takes the text of the slide [d] at position
    [n], or the default one, as the text of a text frame. *)
Definition page_renders (lib : rendering) (n : nat) (d : list (string * value)) : Prop :=
  text_frame_set lib (dict_get d "text" (default_text n)) = None.

(** The library takes each of the slides [ds], each at its position. *)
Definition images_accepted (lib : rendering) (ds : list (list (string * value))) : Prop :=
  ∀ i d, ds !! i = Some d → image_renders lib (S i) d.

Definition pages_accepted (lib : rendering) (ds : list (list (string * value))) : Prop :=
  ∀ i d, ds !! i = Some d → page_renders lib (S i) d.

(** Every slide that an export of the slide list [ds] renders is one the
    library takes. *)
Definition images_render (lib : rendering) (ds : list (list (string * value))) : Prop :=
  images_accepted lib (slides_or_default ds).

Definition pages_render (lib : rendering) (ds : list (list (string * value))) : Prop :=
  pages_accepted lib (slides_or_default ds).

(** The slides that an export of the record [proj] goes through are the
    dictionaries [ds]: the stored slide list when it is one of
    dictionaries and not empty, and the single empty slide when the
    [slides] field is missing, empty or otherwise falsy. *)
Definition exported_slides (proj : document) (ds : list (list (string * value))) : Prop :=
  let slides := default (VList []) (proj !! "slides") in
  if truthy slides then slides = VList (VDict <$> ds) else ds = [[]].

(** The password of the payload does not open the account [user]: none
    was sent, or an empty one, or the credential collaborator says it
    does not match the stored hash. *)
Definition password_rejected (pwd_verify : string → value → string + bool)
    (payload : AuthPayload.t) (user : document) : Prop :=
  match AuthPayload.password payload with
  | None => True
  | Some pw =>
      pw = "" ∨ pwd_verify pw (default (VStr "") (user !! "hashed_password")) = inr false
  end.

(** ** Stores *)

(** Every identifier in the store was handed out by it: identifiers are
    drawn from [next_oid] upwards, so a stored one lies below it. *)
Definition store_wf (s : Mongo.db) : Prop :=
  ∀ name d, d ∈ Mongo.collection s name → (Mongo._id d < Mongo.next_oid s)%N.

(** The query on one field that the handlers build for an optional
    parameter: nothing for a parameter that is absent or empty. *)
Definition optional_filter (k : string) (o : option string) : Mongo.query :=
  match o with
  | Some x => if bool_decide (x = "") then ∅ else {[k := VStr x]}
  | None => ∅
  end.

(** The stored document [d] passes an optional parameter on the field
    [k]: a parameter that is absent or empty lets every document pass, one
    that is given asks for that value in the field. *)
Definition passes_optional (k : string) (o : option string) (d : Mongo.stored) : bool :=
  match o with
  | Some x => if bool_decide (x = "") then true
              else Mongo.field_matches (VStr x) (Mongo.body d !! k)
  | None => true
  end.

(** ** Scenarios *)

(** What [create_project] hands to the adapter for a request body that
    names an owner and a title: the [.dict()] of the [Project], with the
    two timestamps set to the clock reading [now]. *)
Definition new_project_dict (owner_id title : string) (now : Z) : document :=
  <["id" := VNone]>
  (<["owner_id" := VStr owner_id]>
  (<["title" := VStr title]>
  (<["date" := VNone]>
  (<["location" := VNone]>
  (<["platform" := VNone]>
  (<["mood" := VNone]>
  (<["theme_id" := VNone]>
  (<["slides" := VList []]>
  (<["collaborators" := VList []]>
  (<["created_at" := VDate now]>
  (<["updated_at" := VDate now]> ∅))))))))))).

(** A store that holds one project whose stored [id] field is ["p1"]. *)
Definition store_with_p1 : Mongo.db :=
  {| Mongo.collections :=
       {["project" :=
           [{| Mongo._id := 7;
               Mongo.body :=
                 <["id" := VStr "p1"]>
                 (<["owner_id" := VStr "u1"]>
                 (<["title" := VStr "Old"]> ∅)) |}]]};
     Mongo.next_oid := 8 |}.

(** The scenario of the design document: project [p1] with the slides
    [{"text": "Welcome"}] and [{"bg": "#ff0000"}]. *)
Definition storyboard_p1 : Mongo.stored :=
  {| Mongo._id := 7;
     Mongo.body :=
       <["id" := VStr "p1"]>
       (<["owner_id" := VStr "u1"]>
       (<["title" := VStr "Launch"]>
       (<["slides" := VList [VDict [("text", VStr "Welcome")];
                             VDict [("bg", VStr "#ff0000")]]]> ∅))) |}.

Definition storyboard_store : Mongo.db :=
  {| Mongo.collections := {["project" := [storyboard_p1]]}; Mongo.next_oid := 8 |}.

(** Rendering libraries for the scenarios. A colour is what is written
    as [#] and six hexadecimal digits, or [None] (the image is left
    blank, the text gets the default fill), and a text is a string;
    anything else is turned away, a string that is no colour with the
    [ValueError] of the imaging library's colour parser. The libraries
    themselves take more than this (colour names, functional notation);
    no scenario uses it. *)
Definition is_hex_digit (c : Ascii.ascii) : bool :=
  let n := Ascii.nat_of_ascii c in
  ((48 <=? n) && (n <=? 57) || (65 <=? n) && (n <=? 70) || (97 <=? n) && (n <=? 102))%nat.

Definition hex_colour (v : value) : option string :=
  match v with
  | VStr c =>
      if (String.prefix "#" c && (String.length c =? 7)%nat
          && forallb is_hex_digit (String.list_ascii_of_string (String.substring 1 6 c)))%bool
      then None else Some "ValueError"
  | VNone => None
  | _ => Some "TypeError"
  end.

Definition scenario_rendering : rendering :=
  {| Image_new := hex_colour;
     ImageDraw_text := λ txt fg,
       match txt with
       | VStr _ => hex_colour fg
       | _ => Some "TypeError"
       end;
     text_frame_set := λ txt,
       match txt with
       | VStr _ => None
       | _ => Some "TypeError"
       end |}.

(** Three projects that an export does not get through: [p2] has a slide
    whose background is no colour, [p3] a slide that is a string, and
    [p4] a slide whose text is [None]. *)
Definition unrenderable_store : Mongo.db :=
  {| Mongo.collections :=
       {["project" :=
           [{| Mongo._id := 11;
               Mongo.body :=
                 <["id" := VStr "p2"]>
                 (<["slides" := VList [VDict [("bg", VStr "notacolor")]]]> ∅) |};
            {| Mongo._id := 12;
               Mongo.body :=
                 <["id" := VStr "p3"]>
                 (<["slides" := VList [VDict [("bg", VStr "#ff0000")];
                                       VStr "intro"]]> ∅) |};
            {| Mongo._id := 13;
               Mongo.body :=
                 <["id" := VStr "p4"]>
                 (<["slides" := VList [VDict [("text", VNone)]]]> ∅) |}]]};
     Mongo.next_oid := 14 |}.

(** A store with one registered user, and a credential collaborator that
    accepts a password when the stored hash is the password behind the
    prefix ["h:"]. *)
Definition store_with_user : Mongo.db :=
  {| Mongo.collections :=
       {["user" :=
           [{| Mongo._id := 3;
               Mongo.body :=
                 <["email" := VStr "ada@example.org"]>
                 (<["hashed_password" := VStr "h:correct horse"]> ∅) |}]]};
     Mongo.next_oid := 4 |}.

Definition prefix_verify (pw : string) (hash : value) : string + bool :=
  inr (value_eqb hash (VStr ("h:" +:+ pw))).

(** The digest that [prefix_verify] accepts, whatever the salt. *)
Definition prefix_hash (salt pw : string) : string + string := inr ("h:" +:+ pw).

(** The payload of a visitor who is not in [store_with_user]. *)
Definition bob_payload (password : option string) : AuthPayload.t :=
  {| AuthPayload.email := "bob@example.org";
     AuthPayload.password := password;
     AuthPayload.name := Some "Bob" |}.

(** What a handler answers when it ends in a schema constructor
    applied to the record [doc]. *)
Definition constructed {A : Type} (of_doc : document → option A) (doc : document)
  : outcome A :=
  match of_doc doc with
  | Some p => Return p
  | None => Raised "ValidationError"
  end.

(** The project [p] under the identifier [i]. *)
Definition Project_with_id (p : Project.t) (i : string) : Project.t :=
  {| Project.id := Some i; Project.owner_id := Project.owner_id p;
     Project.title := Project.title p; Project.date := Project.date p;
     Project.location := Project.location p; Project.platform := Project.platform p;
     Project.mood := Project.mood p; Project.theme_id := Project.theme_id p;
     Project.slides := Project.slides p;
     Project.collaborators := Project.collaborators p;
     Project.created_at := Project.created_at p;
     Project.updated_at := Project.updated_at p |}.

(** A request body for a project, as [PUT /projects/p1] may carry it. *)
Definition launch_project : Project.t :=
  {| Project.id := Some "p1"; Project.owner_id := "u2"; Project.title := "Relaunch";
     Project.date := None; Project.location := Some "Lisbon"; Project.platform := None;
     Project.mood := None; Project.theme_id := None;
     Project.slides := [[("text", VStr "Hello")]];
     Project.collaborators := ["u3"];
     Project.created_at := 40; Project.updated_at := 41 |}.

(** [storyboard_store] with a share link to project [p1]. *)
Definition shared_store : Mongo.db :=
  {| Mongo.collections :=
       {["project" := [storyboard_p1]]}
       ∪ {["sharelink" :=
             [{| Mongo._id := 9;
                 Mongo.body :=
                   <["project_id" := VStr "p1"]> (<["token" := VStr "Zq3kT0a9"]> ∅) |}]]};
     Mongo.next_oid := 10 |}.

(** Two accounts under one address, as two registrations racing each
    other can leave them. *)
Definition store_with_two_adas : Mongo.db :=
  {| Mongo.collections :=
       {["user" :=
           [{| Mongo._id := 3;
               Mongo.body :=
                 <["email" := VStr "ada@example.org"]>
                 (<["hashed_password" := VStr "h:correct horse"]> ∅) |};
            {| Mongo._id := 4;
               Mongo.body :=
                 <["email" := VStr "ada@example.org"]>
                 (<["hashed_password" := VStr "h:battery staple"]> ∅) |}]]};
     Mongo.next_oid := 5 |}.

(** * Properties *)

(** ** Values and queries *)

Lemma value_eqb_VStr (a b : string) : value_eqb (VStr a) (VStr b) = bool_decide (a = b).
Proof. reflexivity. Qed.

Lemma value_eqb_VOid (a b : N) : value_eqb (VOid a) (VOid b) = bool_decide (a = b).
Proof. reflexivity. Qed.

(** A query on one field looks at that field only. *)
Lemma matches_singleton (k : string) (operand : value) (d : document) :
  Mongo.matches {[k := operand]} d = Mongo.field_matches operand (d !! k).
Proof.
  unfold Mongo.matches. rewrite map_to_list_singleton. simpl.
  apply andb_true_r.
Qed.

Lemma matches_empty (d : document) : Mongo.matches ∅ d = true.
Proof. unfold Mongo.matches. by rewrite map_to_list_empty. Qed.

Lemma as_dict_id (d : Mongo.stored) : Mongo.as_dict d !! "_id" = Some (VOid (Mongo._id d)).
Proof. unfold Mongo.as_dict. apply lookup_insert_eq. Qed.

Lemma as_dict_field (d : Mongo.stored) (k : string) :
  k ≠ "_id" → Mongo.as_dict d !! k = Mongo.body d !! k.
Proof. intros Hk. unfold Mongo.as_dict. by rewrite lookup_insert_ne. Qed.

(** A document matches the query on its own identifier. *)
Lemma matches_own_id (d : Mongo.stored) :
  Mongo.matches {["_id" := VOid (Mongo._id d)]} (Mongo.as_dict d) = true.
Proof.
  rewrite matches_singleton, as_dict_id. simpl.
  by rewrite bool_decide_eq_true_2.
Qed.

(** ** The store *)

Lemma collection_insert_one (s : Mongo.db) (name : string) (data : document) :
  Mongo.collection (Mongo.insert_one s name data).1 name
  = Mongo.collection s name
      ++ [{| Mongo._id := Mongo.next_oid s; Mongo.body := data |}].
Proof. unfold Mongo.collection, Mongo.insert_one. simpl. by rewrite lookup_insert_eq. Qed.

Lemma collection_insert_one_other (s : Mongo.db) (name other : string) (data : document) :
  name ≠ other →
  Mongo.collection (Mongo.insert_one s name data).1 other = Mongo.collection s other.
Proof.
  intros Hne. unfold Mongo.collection, Mongo.insert_one. simpl.
  by rewrite lookup_insert_ne.
Qed.

Lemma collection_with_collection (s : Mongo.db) (name : string) (l : list Mongo.stored) :
  Mongo.collection (Mongo.with_collection s name l) name = l.
Proof. unfold Mongo.collection, Mongo.with_collection. simpl. by rewrite lookup_insert_eq. Qed.

Lemma find_insert_one (s : Mongo.db) (name : string) (data : document) (q : Mongo.query) :
  Mongo.find (Mongo.insert_one s name data).1 name q
  = Mongo.find s name q
      ++ List.filter (λ d, Mongo.matches q (Mongo.as_dict d))
           [{| Mongo._id := Mongo.next_oid s; Mongo.body := data |}].
Proof. unfold Mongo.find. rewrite collection_insert_one. apply List.filter_app. Qed.

(** The read that follows an insert finds a document. *)
Lemma find_one_inserted (s : Mongo.db) (name : string) (data : document) :
  is_Some (Mongo.find_one (Mongo.insert_one s name data).1 name
             {["_id" := VOid (Mongo.next_oid s)]}).
Proof.
  unfold Mongo.find_one. rewrite find_insert_one. simpl.
  pose proof (matches_own_id {| Mongo._id := Mongo.next_oid s; Mongo.body := data |}) as Hm.
  simpl in Hm. rewrite Hm.
  destruct (Mongo.find s name _); simpl; eauto.
Qed.

(** ** Normalised records *)

Lemma normalize_id (d : Mongo.stored) :
  normalize d !! "id" = Some (VStr (Mongo.ObjectId_str (Mongo._id d))).
Proof. unfold normalize. apply lookup_insert_eq. Qed.

Lemma normalize_no_internal_id (d : Mongo.stored) : normalize d !! "_id" = None.
Proof. unfold normalize. rewrite lookup_insert_ne by done. apply lookup_delete_eq. Qed.

(** Every other field is the stored one. *)
Lemma normalize_field (d : Mongo.stored) (k : string) :
  k ≠ "id" → k ≠ "_id" → normalize d !! k = Mongo.body d !! k.
Proof.
  intros Hid Hint. unfold normalize.
  rewrite lookup_insert_ne by done. rewrite lookup_delete_ne by done.
  by apply as_dict_field.
Qed.

Lemma normalize_normalized (d : Mongo.stored) : normalized (normalize d).
Proof. split; [eexists; apply normalize_id | apply normalize_no_internal_id]. Qed.

Lemma get_document_normalized (s : Mongo.db) (name : string) (q : Mongo.query) (r : document) :
  get_document s name q = Some r → normalized r.
Proof.
  unfold get_document. destruct (Mongo.find_one s name q); [|done].
  intros [= <-]. apply normalize_normalized.
Qed.

(** C6. Every record the adapter hands back is normalised: the record
    [create_document] re-reads after the insert, each record of
    [get_documents], the record of [get_document] and the record
    [update_document] returns all carry a string under [id] and nothing
    under the store's own [_id]. *)
Theorem adapter_records_normalized
    (s : Mongo.db) (name : string) (data : document)
    (filter_opt : option Mongo.query) (filter_dict : Mongo.query) (lim : Z) :
  normalized (create_document s name data).2
  ∧ Forall normalized (get_documents s name filter_opt lim)
  ∧ (∀ r, get_document s name filter_dict = Some r → normalized r)
  ∧ (∀ r, (update_document s name filter_dict data).2 = Some r → normalized r).
Proof.
  split; [|split; [|split]].
  - unfold create_document.
    destruct (find_one_inserted s name data) as [d Hd].
    unfold Mongo.insert_one in *. simpl in *. rewrite Hd.
    apply normalize_normalized.
  - unfold get_documents. apply Forall_fmap, Forall_forall.
    intros d _. apply normalize_normalized.
  - apply get_document_normalized.
  - unfold update_document. simpl. intros r Hr.
    by eapply get_document_normalized.
Qed.

(** ** Create, then fetch by the returned [id] *)

(** C1. On an empty store, the record created for a new project comes
    back under the identifier ["000000000000000000000000"], and fetching
    the project by that identifier, with the filter the project read path
    builds, finds nothing: [get_document] answers [None] and [get_project]
    raises 404. The same record is found by the store's own [_id], which is
    the filter [create_document] re-reads it with. *)
Theorem created_project_not_found_by_returned_id :
  let created := create_document Mongo.empty "project" (new_project_dict "u1" "Launch" 0) in
  created.2 !! "id" = Some (VStr "000000000000000000000000")
  ∧ get_document created.1 "project" {["id" := VStr "000000000000000000000000"]} = None
  ∧ (∀ (Project : Type) (Project_of : document → option Project),
       get_project Project Project_of created.1 "000000000000000000000000"
       = HTTPException 404 "Project not found")
  ∧ get_document created.1 "project" {["_id" := VOid 0]} = Some created.2.
Proof.
  assert (Hget : get_document
            (create_document Mongo.empty "project" (new_project_dict "u1" "Launch" 0)).1
            "project" {["id" := VStr "000000000000000000000000"]} = None)
    by (vm_compute; reflexivity).
  cbv zeta. split; [vm_compute; reflexivity|]. split; [exact Hget|].
  split; [|vm_compute; reflexivity].
  intros Project Project_of. unfold get_project. by rewrite Hget.
Qed.

(** ** Update, then re-read by the same filter *)

(** C7. [update_document] with the filter [{"id": "p1"}] and a partial
    record that sets [id] to [None] and [title] to ["New"], which is what
    [update_project] passes for a body without an [id]: the record that
    matched is updated in the store, and the call still answers [None],
    because the re-read uses the filter the update has just invalidated. *)
Theorem update_document_loses_updated_record :
  let data := <["id" := VNone]> (<["title" := VStr "New"]> (∅ : document)) in
  let updated := update_document store_with_p1 "project" {["id" := VStr "p1"]} data in
  is_Some (get_document store_with_p1 "project" {["id" := VStr "p1"]})
  ∧ Mongo.body <$> Mongo.collection updated.1 "project"
    = [<["id" := VNone]>
       (<["owner_id" := VStr "u1"]>
       (<["title" := VStr "New"]> ∅))]
  ∧ updated.2 = None.
Proof.
  cbv zeta. split; [|split].
  - vm_compute. eauto.
  - vm_compute. reflexivity.
  - vm_compute. reflexivity.
Qed.

(** ** Export *)

Lemma length_slides_or_default (ds : list (list (string * value))) :
  length (slides_or_default ds) = Nat.max 1 (length ds).
Proof. destruct ds as [|d ds]; [done|]. simpl. by destruct (length ds). Qed.

Lemma py_or_slides (ds : list (list (string * value))) :
  py_or (VList (VDict <$> ds)) (VList [VDict []])
  = VList (VDict <$> slides_or_default ds).
Proof. by destruct ds. Qed.

(** A dictionary that the imaging library takes gives its archive
    entry. *)
Lemma slide_image_dict (lib : rendering) (idx : nat) (d : list (string * value)) :
  image_renders lib idx d → slide_image lib idx (VDict d) = inr (image_entry idx d).
Proof.
  intros [Hbg Htxt]. unfold slide_image. cbn [py_get].
  unfold default_text in Htxt. by rewrite Hbg, Htxt.
Qed.

Lemma slide_page_dict (lib : rendering) (idx : nat) (d : list (string * value)) :
  page_renders lib idx d → slide_page lib idx (VDict d) = inr (page_entry idx d).
Proof.
  intros Htxt. unfold slide_page. cbn [py_get].
  unfold page_renders, default_text in Htxt. by rewrite Htxt.
Qed.

(** Whatever the library says, a slide that is no dictionary ends the
    iteration at its first [s.get]. *)
Lemma slide_image_not_dict (lib : rendering) (idx : nat) (v : value) :
  (∀ d, v ≠ VDict d) → slide_image lib idx v = inl "AttributeError".
Proof. intros Hv. destruct v; try done. by destruct (Hv d). Qed.

Lemma slide_page_not_dict (lib : rendering) (idx : nat) (v : value) :
  (∀ d, v ≠ VDict d) → slide_page lib idx v = inl "AttributeError".
Proof. intros Hv. destruct v; try done. by destruct (Hv d). Qed.

(** An entry that the loop body returns carries the name of its
    position, whatever the slide. *)
Lemma slide_image_name (lib : rendering) (idx : nat) (v : value) (e : string * Image) :
  slide_image lib idx v = inr e → e.1 = slide_name idx.
Proof.
  unfold slide_image.
  destruct (py_get v "bg" _) as [bg|]; [|done].
  destruct (Image_new lib bg); [done|].
  destruct (py_get v "text" _) as [txt|]; [|done].
  destruct (py_get v "color" _) as [fg|]; [|done].
  destruct (ImageDraw_text lib txt fg); [done|].
  by intros [= <-].
Qed.

Lemma images_loop_dicts (lib : rendering) (ds : list (list (string * value))) (idx : nat) :
  (∀ i d, ds !! i = Some d → image_renders lib (idx + i) d) →
  images_loop lib idx (VDict <$> ds) = inr (imap (λ i, image_entry (idx + i)) ds).
Proof.
  revert idx. induction ds as [|d ds IH]; intros idx Hds; [done|].
  rewrite fmap_cons. cbn [images_loop].
  rewrite slide_image_dict
    by (specialize (Hds 0%nat d eq_refl); by rewrite Nat.add_0_r in Hds).
  rewrite IH
    by (intros i x Hx; specialize (Hds (S i) x Hx); by rewrite Nat.add_succ_r in Hds).
  simpl. rewrite Nat.add_0_r. do 2 f_equal.
  apply imap_ext. intros i x _. simpl. by rewrite Nat.add_succ_r.
Qed.

Lemma pages_loop_dicts (lib : rendering) (ds : list (list (string * value))) (idx : nat) :
  (∀ i d, ds !! i = Some d → page_renders lib (idx + i) d) →
  pages_loop lib idx (VDict <$> ds) = inr (imap (λ i, page_entry (idx + i)) ds).
Proof.
  revert idx. induction ds as [|d ds IH]; intros idx Hds; [done|].
  rewrite fmap_cons. cbn [pages_loop].
  rewrite slide_page_dict
    by (specialize (Hds 0%nat d eq_refl); by rewrite Nat.add_0_r in Hds).
  rewrite IH
    by (intros i x Hx; specialize (Hds (S i) x Hx); by rewrite Nat.add_succ_r in Hds).
  simpl. rewrite Nat.add_0_r. do 2 f_equal.
  apply imap_ext. intros i x _. simpl. by rewrite Nat.add_succ_r.
Qed.

(** A loop that meets something other than a dictionary produces
    nothing: it raises there, unless it has raised before. *)
Lemma images_loop_raises (lib : rendering) (l1 l2 : list value) (v : value) (idx : nat) :
  (∀ d, v ≠ VDict d) → ∃ exn, images_loop lib idx (l1 ++ v :: l2) = inl exn.
Proof.
  intros Hv. revert idx. induction l1 as [|x l1 IH]; intros idx; simpl.
  - rewrite slide_image_not_dict by done. eauto.
  - destruct (slide_image lib idx x); [eauto|].
    destruct (IH (S idx)) as [exn ->]. eauto.
Qed.

Lemma pages_loop_raises (lib : rendering) (l1 l2 : list value) (v : value) (idx : nat) :
  (∀ d, v ≠ VDict d) → ∃ exn, pages_loop lib idx (l1 ++ v :: l2) = inl exn.
Proof.
  intros Hv. revert idx. induction l1 as [|x l1 IH]; intros idx; simpl.
  - rewrite slide_page_not_dict by done. eauto.
  - destruct (slide_page lib idx x); [eauto|].
    destruct (IH (S idx)) as [exn ->]. eauto.
Qed.

Lemma images_loop_not_dict (lib : rendering) (ds : list (list (string * value)))
    (l2 : list value) (v : value) (idx : nat) :
  (∀ d, v ≠ VDict d) →
  (∀ i d, ds !! i = Some d → image_renders lib (idx + i) d) →
  images_loop lib idx ((VDict <$> ds) ++ v :: l2) = inl "AttributeError".
Proof.
  intros Hv. revert idx. induction ds as [|d ds IH]; intros idx Hds.
  - simpl. by rewrite slide_image_not_dict.
  - rewrite fmap_cons. cbn [app images_loop].
    rewrite slide_image_dict
      by (specialize (Hds 0%nat d eq_refl); by rewrite Nat.add_0_r in Hds).
    by rewrite IH
      by (intros i x Hx; specialize (Hds (S i) x Hx); by rewrite Nat.add_succ_r in Hds).
Qed.

Lemma pages_loop_not_dict (lib : rendering) (ds : list (list (string * value)))
    (l2 : list value) (v : value) (idx : nat) :
  (∀ d, v ≠ VDict d) →
  (∀ i d, ds !! i = Some d → page_renders lib (idx + i) d) →
  pages_loop lib idx ((VDict <$> ds) ++ v :: l2) = inl "AttributeError".
Proof.
  intros Hv. revert idx. induction ds as [|d ds IH]; intros idx Hds.
  - simpl. by rewrite slide_page_not_dict.
  - rewrite fmap_cons. cbn [app pages_loop].
    rewrite slide_page_dict
      by (specialize (Hds 0%nat d eq_refl); by rewrite Nat.add_0_r in Hds).
    by rewrite IH
      by (intros i x Hx; specialize (Hds (S i) x Hx); by rewrite Nat.add_succ_r in Hds).
Qed.

(** The names in an archive that the loop returns are those of the
    positions it went through, whatever the slides. *)
Lemma images_loop_names (lib : rendering) (l : list value) (idx : nat)
    (entries : list (string * Image)) :
  images_loop lib idx l = inr entries →
  entries.*1 = slide_name <$> seq idx (length l).
Proof.
  revert idx entries. induction l as [|x l IH]; intros idx entries; simpl.
  - by intros [= <-].
  - destruct (slide_image lib idx x) as [exn|e] eqn:He; [done|].
    destruct (images_loop lib (S idx) l) as [exn|es] eqn:Hes; [done|].
    intros [= <-]. rewrite fmap_cons. f_equal.
    + by apply slide_image_name with lib x.
    + by apply IH.
Qed.

Section ExportHandler.

Variable lib : rendering.
Variable s : Mongo.db.
Variable pid : string.
Variable proj : document.
Variable ds : list (list (string * value)).
Hypothesis Hproj : get_document s "project" {["id" := VStr pid]} = Some proj.
Hypothesis Hslides : has_slides proj ds.

Let req (f : string) : SlideExportRequest.t :=
  {| SlideExportRequest.project_id := pid; SlideExportRequest.format := f |}.

Lemma export_images :
  images_render lib ds →
  export_storyboard lib s (req "images")
  = Return (zip_response (imap (λ i, image_entry (S i)) (slides_or_default ds))).
Proof.
  intros Hlib. unfold export_storyboard. simpl. rewrite Hproj.
  unfold has_slides in Hslides. rewrite Hslides.
  rewrite py_or_slides. simpl. by rewrite images_loop_dicts.
Qed.

Lemma export_pptx :
  pages_render lib ds →
  export_storyboard lib s (req "pptx")
  = Return (pptx_response (imap (λ i, page_entry (S i)) (slides_or_default ds))).
Proof.
  intros Hlib. unfold export_storyboard. simpl. rewrite Hproj.
  unfold has_slides in Hslides. rewrite Hslides.
  rewrite py_or_slides. simpl. by rewrite pages_loop_dicts.
Qed.

Lemma export_video :
  export_storyboard lib s (req "video")
  = HTTPException 501 "Video export not implemented in demo".
Proof.
  unfold export_storyboard. simpl. by rewrite Hproj.
Qed.

Lemma export_other (f : string) :
  f ∉ SlideExportRequest.formats →
  export_storyboard lib s (req f) = HTTPException 400 "Invalid format".
Proof.
  clear Hslides. intros Hf. unfold export_storyboard. simpl. rewrite Hproj.
  unfold SlideExportRequest.formats in Hf. rewrite !not_elem_of_cons in Hf.
  destruct Hf as (Himages & Hvideo & Hpptx & _).
  by rewrite !bool_decide_eq_false_2.
Qed.

End ExportHandler.

(** The loop bodies return only for a dictionary that the library
    takes. *)
Lemma slide_image_inv (lib : rendering) (idx : nat) (v : value) (e : string * Image) :
  slide_image lib idx v = inr e →
  ∃ d, v = VDict d ∧ image_renders lib idx d ∧ e = image_entry idx d.
Proof.
  destruct v as [| | | | |d]; try done.
  unfold slide_image. cbn [py_get].
  destruct (Image_new lib _) eqn:Hbg; [done|].
  destruct (ImageDraw_text lib _ _) eqn:Htxt; [done|].
  intros [= <-]. exists d. by repeat split.
Qed.

Lemma slide_page_inv (lib : rendering) (idx : nat) (v : value) (p : deck_slide) :
  slide_page lib idx v = inr p →
  ∃ d, v = VDict d ∧ page_renders lib idx d ∧ p = page_entry idx d.
Proof.
  destruct v as [| | | | |d]; try done.
  unfold slide_page. cbn [py_get].
  destruct (text_frame_set lib _) eqn:Htxt; [done|].
  intros [= <-]. exists d. by repeat split.
Qed.

Lemma images_loop_inv (lib : rendering) (l : list value) (idx : nat)
    (entries : list (string * Image)) :
  images_loop lib idx l = inr entries →
  ∃ ds, l = VDict <$> ds
        ∧ (∀ i d, ds !! i = Some d → image_renders lib (idx + i) d).
Proof.
  revert idx entries. induction l as [|x l IH]; intros idx entries; simpl.
  - intros _. exists []. by split.
  - destruct (slide_image lib idx x) as [exn|e] eqn:He; [done|].
    destruct (images_loop lib (S idx) l) as [exn|es] eqn:Hes; [done|].
    intros _. apply slide_image_inv in He as (d & -> & Hd & _).
    apply IH in Hes as (ds & -> & Hds).
    exists (d :: ds). split; [done|].
    intros [|i] d'; simpl.
    + intros [= <-]. by rewrite Nat.add_0_r.
    + intros Hi. rewrite Nat.add_succ_r. by apply Hds.
Qed.

Lemma pages_loop_inv (lib : rendering) (l : list value) (idx : nat)
    (pages : list deck_slide) :
  pages_loop lib idx l = inr pages →
  ∃ ds, l = VDict <$> ds
        ∧ (∀ i d, ds !! i = Some d → page_renders lib (idx + i) d).
Proof.
  revert idx pages. induction l as [|x l IH]; intros idx pages; simpl.
  - intros _. exists []. by split.
  - destruct (slide_page lib idx x) as [exn|p] eqn:Hp; [done|].
    destruct (pages_loop lib (S idx) l) as [exn|ps] eqn:Hps; [done|].
    intros _. apply slide_page_inv in Hp as (d & -> & Hd & _).
    apply IH in Hps as (ds & -> & Hds).
    exists (d :: ds). split; [done|].
    intros [|i] d'; simpl.
    + intros [= <-]. by rewrite Nat.add_0_r.
    + intros Hi. rewrite Nat.add_succ_r. by apply Hds.
Qed.

(** What the loops iterate over is a list of dictionaries only for the
    slides that [exported_slides] describes. *)
Lemma py_iter_exported_slides (proj : document) (ds : list (list (string * value))) :
  py_iter (py_or (default (VList []) (proj !! "slides")) (VList [VDict []]))
  = inr (VDict <$> ds) →
  exported_slides proj ds.
Proof.
  unfold exported_slides, py_or. cbn zeta.
  destruct (truthy (default (VList []) (proj !! "slides"))) eqn:Htruthy.
  - destruct (default (VList []) (proj !! "slides")) as [|s|oid|t|l|d]; simpl in *;
      try done.
    + destruct s as [|c s]; [done|]. by destruct ds.
    + by intros [= ->].
    + destruct d as [|kv d]; [done|]. by destruct ds.
  - simpl. destruct ds as [|d [|d' ds]]; try done.
    by intros [= <-].
Qed.

Lemma exported_slides_py_iter (proj : document) (ds : list (list (string * value))) :
  exported_slides proj ds →
  py_iter (py_or (default (VList []) (proj !! "slides")) (VList [VDict []]))
  = inr (VDict <$> ds).
Proof.
  unfold exported_slides, py_or. cbn zeta.
  destruct (truthy (default (VList []) (proj !! "slides"))).
  - by intros ->.
  - by intros ->.
Qed.

Lemma has_slides_exported (proj : document) (ds : list (list (string * value))) :
  has_slides proj ds → exported_slides proj (slides_or_default ds).
Proof.
  unfold has_slides, exported_slides. cbn zeta. intros ->.
  by destruct ds.
Qed.

Lemma exported_slides_unique (proj : document) (ds1 ds2 : list (list (string * value))) :
  exported_slides proj ds1 → exported_slides proj ds2 → ds1 = ds2.
Proof.
  unfold exported_slides. cbn zeta.
  destruct (truthy (default (VList []) (proj !! "slides"))).
  - intros -> [= H]. revert ds2 H.
    induction ds1 as [|d ds1 IH]; intros [|d' ds2]; simpl; try done.
    intros [= -> H]. f_equal. by apply IH.
  - by intros -> ->.
Qed.

Section ExportedSlides.

Variable lib : rendering.
Variable s : Mongo.db.
Variable pid : string.
Variable proj : document.
Hypothesis Hproj : get_document s "project" {["id" := VStr pid]} = Some proj.

Let req (f : string) : SlideExportRequest.t :=
  {| SlideExportRequest.project_id := pid; SlideExportRequest.format := f |}.

Lemma export_images_accepted (ds : list (list (string * value))) :
  exported_slides proj ds →
  images_accepted lib ds →
  export_storyboard lib s (req "images")
  = Return (zip_response (imap (λ i, image_entry (S i)) ds)).
Proof.
  intros Hds Hlib. unfold export_storyboard. simpl. rewrite Hproj.
  rewrite (exported_slides_py_iter proj ds Hds). by rewrite images_loop_dicts.
Qed.

Lemma export_pptx_accepted (ds : list (list (string * value))) :
  exported_slides proj ds →
  pages_accepted lib ds →
  export_storyboard lib s (req "pptx")
  = Return (pptx_response (imap (λ i, page_entry (S i)) ds)).
Proof.
  intros Hds Hlib. unfold export_storyboard. simpl. rewrite Hproj.
  rewrite (exported_slides_py_iter proj ds Hds). by rewrite pages_loop_dicts.
Qed.

Lemma export_images_returns (resp : StreamingResponse) :
  export_storyboard lib s (req "images") = Return resp →
  ∃ ds, exported_slides proj ds ∧ images_accepted lib ds.
Proof.
  unfold export_storyboard. simpl. rewrite Hproj.
  destruct (py_iter _) as [exn|l] eqn:Hiter; [done|].
  destruct (images_loop lib 1 l) as [exn|es] eqn:Hloop; [done|].
  intros _. apply images_loop_inv in Hloop as (ds & -> & Hds).
  exists ds. split; [by apply py_iter_exported_slides|exact Hds].
Qed.

Lemma export_pptx_returns (resp : StreamingResponse) :
  export_storyboard lib s (req "pptx") = Return resp →
  ∃ ds, exported_slides proj ds ∧ pages_accepted lib ds.
Proof.
  unfold export_storyboard. simpl. rewrite Hproj.
  destruct (py_iter _) as [exn|l] eqn:Hiter; [done|].
  destruct (pages_loop lib 1 l) as [exn|ps] eqn:Hloop; [done|].
  intros _. apply pages_loop_inv in Hloop as (ds & -> & Hds).
  exists ds. split; [by apply py_iter_exported_slides|exact Hds].
Qed.

End ExportedSlides.

Lemma dict_get_missing (d : list (string * value)) (k : string) (dflt : value) :
  dict_has d k = false → dict_get d k dflt = dflt.
Proof.
  unfold dict_has. induction d as [|[k' v] d IH]; simpl; [done|].
  destruct (bool_decide (k' = k)); simpl; [done|exact IH].
Qed.

Lemma image_entry_names (l : list (list (string * value))) (k : nat) :
  (imap (λ i, image_entry (k + i)) l).*1 = slide_name <$> seq k (length l).
Proof.
  revert k. induction l as [|d l IH]; intros k; [done|].
  simpl. rewrite Nat.add_0_r. f_equal. rewrite <- IH.
  f_equal. apply imap_ext. intros i x _. simpl. by rewrite Nat.add_succ_r.
Qed.

Lemma slides_or_default_lookup (ds : list (list (string * value))) (i : nat)
    (d : list (string * value)) :
  ds !! i = Some d → slides_or_default ds !! i = Some d.
Proof. by destruct ds. Qed.

Lemma validate_format (b : SlideExportRequest.body) (req : SlideExportRequest.t) :
  SlideExportRequest.validate b = Some req →
  SlideExportRequest.format req ∈ SlideExportRequest.formats.
Proof.
  unfold SlideExportRequest.validate.
  destruct (SlideExportRequest.body_project_id b) as [p|]; [|done].
  destruct (SlideExportRequest.body_format b) as [f|].
  - case_bool_decide as Hf; [|done]. by intros [= <-].
  - intros [= <-]. simpl. unfold SlideExportRequest.formats. set_solver.
Qed.

Lemma validate_project_id (b : SlideExportRequest.body) (req : SlideExportRequest.t) :
  SlideExportRequest.validate b = Some req →
  SlideExportRequest.body_project_id b = Some (SlideExportRequest.project_id req).
Proof.
  unfold SlideExportRequest.validate.
  destruct (SlideExportRequest.body_project_id b) as [p|]; [|done].
  destruct (SlideExportRequest.body_format b) as [f|].
  - case_bool_decide; [|done]. by intros [= <-].
  - by intros [= <-].
Qed.

Lemma validate_unknown_format (p : option string) (f : string) :
  f ∉ SlideExportRequest.formats →
  SlideExportRequest.validate
    {| SlideExportRequest.body_project_id := p;
       SlideExportRequest.body_format := Some f |} = None.
Proof.
  intros Hf. unfold SlideExportRequest.validate. simpl.
  destruct p; [|done]. by rewrite bool_decide_eq_false_2.
Qed.

(** The handler looks the project up before it looks at the format. *)
Lemma export_project_not_found (lib : rendering) (s : Mongo.db)
    (req : SlideExportRequest.t) :
  get_document s "project" {["id" := VStr (SlideExportRequest.project_id req)]} = None →
  export_storyboard lib s req = HTTPException 404 "Project not found".
Proof. intros H. unfold export_storyboard. by rewrite H. Qed.

(** The scenarios: project [p1] and what the scenario libraries make of
    its slides, and the three projects that do not render. *)
Lemma storyboard_p1_found :
  get_document storyboard_store "project" {["id" := VStr "p1"]}
  = Some (normalize storyboard_p1).
Proof. vm_compute. reflexivity. Defined.

Lemma storyboard_p1_slides :
  has_slides (normalize storyboard_p1)
    [[("text", VStr "Welcome")]; [("bg", VStr "#ff0000")]].
Proof. vm_compute. reflexivity. Defined.

Lemma storyboard_p1_images_render :
  images_render scenario_rendering
    [[("text", VStr "Welcome")]; [("bg", VStr "#ff0000")]].
Proof.
  intros i d. destruct i as [|[|i]]; simpl; intros [= <-]; split; reflexivity.
Defined.

Lemma storyboard_p1_pages_render :
  pages_render scenario_rendering
    [[("text", VStr "Welcome")]; [("bg", VStr "#ff0000")]].
Proof.
  intros i d. destruct i as [|[|i]]; simpl; intros [= <-]; reflexivity.
Defined.

Lemma export_bad_colour :
  ∃ proj,
    get_document unrenderable_store "project" {["id" := VStr "p2"]} = Some proj
    ∧ has_slides proj [[("bg", VStr "notacolor")]]
    ∧ export_storyboard scenario_rendering unrenderable_store
        {| SlideExportRequest.project_id := "p2"; SlideExportRequest.format := "images" |}
      = Raised "ValueError".
Proof. eexists. split; [by vm_compute|]. split; by vm_compute. Qed.

Lemma export_stray_slide :
  ∃ proj,
    get_document unrenderable_store "project" {["id" := VStr "p3"]} = Some proj
    ∧ proj !! "slides" = Some (VList [VDict [("bg", VStr "#ff0000")]; VStr "intro"])
    ∧ export_storyboard scenario_rendering unrenderable_store
        {| SlideExportRequest.project_id := "p3"; SlideExportRequest.format := "images" |}
      = Raised "AttributeError"
    ∧ export_storyboard scenario_rendering unrenderable_store
        {| SlideExportRequest.project_id := "p3"; SlideExportRequest.format := "pptx" |}
      = Raised "AttributeError".
Proof. eexists. split; [by vm_compute|]. repeat split; by vm_compute. Qed.

Lemma export_null_text :
  ∃ proj,
    get_document unrenderable_store "project" {["id" := VStr "p4"]} = Some proj
    ∧ has_slides proj [[("text", VNone)]]
    ∧ export_storyboard scenario_rendering unrenderable_store
        {| SlideExportRequest.project_id := "p4"; SlideExportRequest.format := "pptx" |}
      = Raised "TypeError".
Proof. eexists. split; [by vm_compute|]. split; by vm_compute. Qed.

(** C3, as stated, fails. Project [p2] has one slide, whose background
    is no colour: the imaging library raises on it and the images export
    produces no archive, so not one with one entry. Project [p3] has two
    slides, the second of them a string: the export raises at its
    [s.get] and produces no archive either. *)
Lemma images_export_raises_without_archive :
  (∃ proj,
     get_document unrenderable_store "project" {["id" := VStr "p2"]} = Some proj
     ∧ proj !! "slides" = Some (VList [VDict [("bg", VStr "notacolor")]])
     ∧ export_storyboard scenario_rendering unrenderable_store
         {| SlideExportRequest.project_id := "p2"; SlideExportRequest.format := "images" |}
       = Raised "ValueError")
  ∧ (∃ proj,
       get_document unrenderable_store "project" {["id" := VStr "p3"]} = Some proj
       ∧ proj !! "slides" = Some (VList [VDict [("bg", VStr "#ff0000")]; VStr "intro"])
       ∧ export_storyboard scenario_rendering unrenderable_store
           {| SlideExportRequest.project_id := "p3"; SlideExportRequest.format := "images" |}
         = Raised "AttributeError").
Proof.
  split.
  - eexists. split; [by vm_compute|]. split; by vm_compute.
  - eexists. split; [by vm_compute|]. split; by vm_compute.
Qed.

(** C3, amended. For a project whose slide list is [ds], a list of N
    dictionaries: if the imaging library takes them, the images export
    returns a response whose content is an archive with exactly N
    entries, or exactly one when N is 0; the entries are named
    [slide_1.png] to [slide_N.png] in that order, and the entry at
    position [i + 1] is the rendering of the project's slide at index
    [i]. The export returns an archive only if the library takes the
    slides. *)
Theorem images_export_one_entry_per_slide
    (lib : rendering) (s : Mongo.db) (pid : string) (proj : document)
    (ds : list (list (string * value))) :
  get_document s "project" {["id" := VStr pid]} = Some proj →
  has_slides proj ds →
  (images_render lib ds →
   ∃ (resp : StreamingResponse) (entries : list (string * Image)),
     export_storyboard lib s
       {| SlideExportRequest.project_id := pid; SlideExportRequest.format := "images" |}
     = Return resp
     ∧ content resp = ZipFile entries
     ∧ length entries = match length ds with O => 1%nat | S _ => length ds end
     ∧ entries.*1 = slide_name <$> seq 1 (length entries)
     ∧ (∀ i d, ds !! i = Some d → entries !! i = Some (image_entry (S i) d)))
  ∧ (∀ resp,
       export_storyboard lib s
         {| SlideExportRequest.project_id := pid; SlideExportRequest.format := "images" |}
       = Return resp →
       images_render lib ds).
Proof.
  intros Hproj Hslides. split.
  - intros Hlib.
    exists (zip_response (imap (λ i, image_entry (S i)) (slides_or_default ds))),
           (imap (λ i, image_entry (S i)) (slides_or_default ds)).
    split; [by apply export_images with proj|].
    split; [reflexivity|].
    split; [|split].
    + rewrite length_imap. by destruct ds.
    + rewrite length_imap. apply (image_entry_names _ 1).
    + intros i d Hd. rewrite list_lookup_imap.
      by rewrite (slides_or_default_lookup _ _ _ Hd).
  - intros resp Hresp.
    apply (export_images_returns lib s pid proj Hproj) in Hresp as (ds' & Hds' & Hlib).
    apply has_slides_exported in Hslides.
    rewrite <- (exported_slides_unique proj _ _ Hslides Hds') in Hlib.
    exact Hlib.
Qed.

Lemma images_export_one_entry_per_slide_witness :
  ∃ (resp : StreamingResponse) (entries : list (string * Image)),
    export_storyboard scenario_rendering storyboard_store
      {| SlideExportRequest.project_id := "p1"; SlideExportRequest.format := "images" |}
    = Return resp
    ∧ content resp = ZipFile entries
    ∧ length entries = 2%nat
    ∧ entries.*1 = slide_name <$> seq 1 (length entries)
    ∧ (∀ i d, [[("text", VStr "Welcome")]; [("bg", VStr "#ff0000")]] !! i = Some d →
              entries !! i = Some (image_entry (S i) d)).
Proof.
  exact (proj1 (images_export_one_entry_per_slide scenario_rendering storyboard_store
                  "p1" (normalize storyboard_p1)
                  [[("text", VStr "Welcome")]; [("bg", VStr "#ff0000")]]
                  storyboard_p1_found storyboard_p1_slides)
           storyboard_p1_images_render).
Defined.

(** C5, as stated, fails. The one slide of project [p2] has no [text]
    key, and the images path does not render it with ["Slide 1"]: the
    imaging library raises on its background and nothing is rendered.
    The first slide of project [p3] has no [text] key either, and
    neither path renders it: both meet the string that follows it and
    raise. *)
Lemma export_slide_defaults_not_rendered :
  (∃ proj,
     get_document unrenderable_store "project" {["id" := VStr "p2"]} = Some proj
     ∧ proj !! "slides" = Some (VList [VDict [("bg", VStr "notacolor")]])
     ∧ dict_has [("bg", VStr "notacolor")] "text" = false
     ∧ export_storyboard scenario_rendering unrenderable_store
         {| SlideExportRequest.project_id := "p2"; SlideExportRequest.format := "images" |}
       = Raised "ValueError")
  ∧ (∃ proj,
       get_document unrenderable_store "project" {["id" := VStr "p3"]} = Some proj
       ∧ proj !! "slides" = Some (VList [VDict [("bg", VStr "#ff0000")]; VStr "intro"])
       ∧ dict_has [("bg", VStr "#ff0000")] "text" = false
       ∧ export_storyboard scenario_rendering unrenderable_store
           {| SlideExportRequest.project_id := "p3"; SlideExportRequest.format := "images" |}
         = Raised "AttributeError"
       ∧ export_storyboard scenario_rendering unrenderable_store
           {| SlideExportRequest.project_id := "p3"; SlideExportRequest.format := "pptx" |}
         = Raised "AttributeError").
Proof.
  split.
  - eexists. split; [by vm_compute|]. repeat split; by vm_compute.
  - eexists. split; [by vm_compute|]. repeat split; by vm_compute.
Qed.

(** C5, amended. Take a project whose slides are dictionaries, and a
    rendered slide at position [i + 1] that has no [text] key; the
    rendered slides are the project's own, or the single empty slide of a
    project that has none. If the imaging library takes the project's
    slides, the images export returns an archive whose entry at that
    position is drawn with the text ["Slide "] followed by the position
    in decimal, on the background ["#111827"] if the slide has no [bg]
    and in the text colour ["#ffffff"] if it has no [color]. If the
    slide-deck library takes the project's slides, the pptx export
    returns a deck whose page at that position carries that same text. *)
Theorem export_slide_defaults
    (lib : rendering) (s : Mongo.db) (pid : string) (proj : document)
    (ds : list (list (string * value))) (i : nat) (d : list (string * value)) :
  get_document s "project" {["id" := VStr pid]} = Some proj →
  has_slides proj ds →
  slides_or_default ds !! i = Some d →
  dict_has d "text" = false →
  (images_render lib ds →
     ∃ (resp : StreamingResponse) (entries : list (string * Image))
       (img : Image) (call : text_call),
       export_storyboard lib s
         {| SlideExportRequest.project_id := pid; SlideExportRequest.format := "images" |}
       = Return resp
       ∧ content resp = ZipFile entries
       ∧ entries !! i = Some (slide_name (S i), img)
       ∧ drawn img = [call]
       ∧ text call = VStr ("Slide " +:+ pretty (S i))
       ∧ (dict_has d "bg" = false → color img = VStr "#111827")
       ∧ (dict_has d "color" = false → fill call = VStr "#ffffff"))
  ∧ (pages_render lib ds →
     ∃ (resp : StreamingResponse) (pages : list deck_slide) (page : deck_slide),
       export_storyboard lib s
         {| SlideExportRequest.project_id := pid; SlideExportRequest.format := "pptx" |}
       = Return resp
       ∧ content resp = Presentation pages
       ∧ pages !! i = Some page
       ∧ text_frame page = VStr ("Slide " +:+ pretty (S i))).
Proof.
  intros Hproj Hslides Hd Htext. split.
  - intros Hlib.
    exists (zip_response (imap (λ i, image_entry (S i)) (slides_or_default ds))),
           (imap (λ i, image_entry (S i)) (slides_or_default ds)),
           (image_entry (S i) d).2,
           {| xy := (50, 50)%Z; text := dict_get d "text" (default_text (S i));
              fill := dict_get d "color" (VStr "#ffffff") |}.
    split; [by apply export_images with proj|].
    split; [reflexivity|].
    split; [by rewrite list_lookup_imap, Hd|].
    split; [done|].
    split; [simpl; by rewrite dict_get_missing|].
    split; [intros Hbg; simpl; by rewrite dict_get_missing|].
    intros Hfg; simpl; by rewrite dict_get_missing.
  - intros Hlib.
    exists (pptx_response (imap (λ i, page_entry (S i)) (slides_or_default ds))),
           (imap (λ i, page_entry (S i)) (slides_or_default ds)),
           (page_entry (S i) d).
    split; [by apply export_pptx with proj|].
    split; [reflexivity|].
    split; [by rewrite list_lookup_imap, Hd|].
    simpl. by rewrite dict_get_missing.
Qed.

Lemma export_slide_defaults_witness :
  (∃ (resp : StreamingResponse) (entries : list (string * Image))
     (img : Image) (call : text_call),
     export_storyboard scenario_rendering storyboard_store
       {| SlideExportRequest.project_id := "p1"; SlideExportRequest.format := "images" |}
     = Return resp
     ∧ content resp = ZipFile entries
     ∧ entries !! 1%nat = Some (slide_name 2, img)
     ∧ drawn img = [call]
     ∧ text call = VStr ("Slide " +:+ pretty 2%nat)
     ∧ (dict_has [("bg", VStr "#ff0000")] "bg" = false → color img = VStr "#111827")
     ∧ (dict_has [("bg", VStr "#ff0000")] "color" = false → fill call = VStr "#ffffff"))
  ∧ (∃ (resp : StreamingResponse) (pages : list deck_slide) (page : deck_slide),
       export_storyboard scenario_rendering storyboard_store
         {| SlideExportRequest.project_id := "p1"; SlideExportRequest.format := "pptx" |}
       = Return resp
       ∧ content resp = Presentation pages
       ∧ pages !! 1%nat = Some page
       ∧ text_frame page = VStr ("Slide " +:+ pretty 2%nat)).
Proof.
  destruct (export_slide_defaults scenario_rendering storyboard_store "p1"
              (normalize storyboard_p1)
              [[("text", VStr "Welcome")]; [("bg", VStr "#ff0000")]] 1
              [("bg", VStr "#ff0000")]
              storyboard_p1_found storyboard_p1_slides eq_refl eq_refl)
    as [Himages Hpptx].
  split.
  - exact (Himages storyboard_p1_images_render).
  - exact (Hpptx storyboard_p1_pages_render).
Defined.

(** C2, as stated, fails in two of its parts. Project [p1] exists and
    ["gif"] is outside the enum, yet the caller does not get the
    handler's 400:
    the request is turned away by the validation of [SlideExportRequest]
    and no [HTTPException] of the handler is produced at all. Projects
    [p2], [p3] and [p4] exist, yet the format ['images'] on [p2] and on
    [p3] and the format ['pptx'] on [p4] do not succeed with an artifact:
    the imaging library raises on the background of [p2]'s slide, the
    handler on the slide of [p3] that is a string, and the slide-deck
    library on the text of [p4]'s slide. *)
Lemma export_format_dispatch_fails_as_stated :
  (is_Some (get_document storyboard_store "project" {["id" := VStr "p1"]})
   ∧ ("gif" ∉ SlideExportRequest.formats)
   ∧ post_export scenario_rendering storyboard_store
       {| SlideExportRequest.body_project_id := Some "p1";
          SlideExportRequest.body_format := Some "gif" |}
     = RequestValidationError
   ∧ (∀ status_code detail,
        post_export scenario_rendering storyboard_store
          {| SlideExportRequest.body_project_id := Some "p1";
             SlideExportRequest.body_format := Some "gif" |}
        ≠ Handled (HTTPException status_code detail)))
  ∧ (is_Some (get_document unrenderable_store "project" {["id" := VStr "p2"]})
     ∧ post_export scenario_rendering unrenderable_store
         {| SlideExportRequest.body_project_id := Some "p2";
            SlideExportRequest.body_format := Some "images" |}
       = Handled (Raised "ValueError"))
  ∧ (is_Some (get_document unrenderable_store "project" {["id" := VStr "p3"]})
     ∧ post_export scenario_rendering unrenderable_store
         {| SlideExportRequest.body_project_id := Some "p3";
            SlideExportRequest.body_format := Some "images" |}
       = Handled (Raised "AttributeError"))
  ∧ (is_Some (get_document unrenderable_store "project" {["id" := VStr "p4"]})
     ∧ ∃ exn,
         post_export scenario_rendering unrenderable_store
           {| SlideExportRequest.body_project_id := Some "p4";
              SlideExportRequest.body_format := Some "pptx" |}
         = Handled (Raised exn)).
Proof.
  split; [|split; [|split]].
  - split; [rewrite storyboard_p1_found; eauto|].
    split.
    { unfold SlideExportRequest.formats. rewrite !not_elem_of_cons.
      repeat split; [done..|apply not_elem_of_nil]. }
    split; [done|]. intros status_code detail. by vm_compute.
  - split; [|by vm_compute].
    destruct export_bad_colour as (proj & -> & _). eauto.
  - split; [|by vm_compute].
    destruct export_stray_slide as (proj & -> & _). eauto.
  - split; [destruct export_null_text as (proj & -> & _); eauto|].
    exists "TypeError". by vm_compute.
Qed.

(** C2, amended. For an export request on an existing project, let the
    slides that the export goes through be the dictionaries [ds]: the
    stored slide list, or the single empty slide when the project has
    none. If the imaging library takes them, the format ['images'] (also
    the default when the request names none) answers with a zip archive
    that has an entry for each; if the slide-deck library takes them, the
    format ['pptx'] answers with a presentation that has a page for each;
    and these are the only projects for which the two formats answer
    with an artifact. ['video'] fails with 501, and a format outside the
    enum is rejected by the request schema before the handler runs. The
    handler's own 400 is what it would answer if it were handed such a
    format. *)
Theorem export_format_dispatch
    (lib : rendering) (s : Mongo.db) (pid : string) (proj : document) :
  get_document s "project" {["id" := VStr pid]} = Some proj →
  let body f :=
    {| SlideExportRequest.body_project_id := Some pid;
       SlideExportRequest.body_format := f |} in
  (∀ ds, exported_slides proj ds → images_accepted lib ds →
     ∃ (resp : StreamingResponse) (entries : list (string * Image)),
       post_export lib s (body (Some "images")) = Handled (Return resp)
       ∧ post_export lib s (body None) = Handled (Return resp)
       ∧ content resp = ZipFile entries
       ∧ length entries = length ds
       ∧ media_type resp = "application/zip")
  ∧ (∀ ds, exported_slides proj ds → pages_accepted lib ds →
     ∃ (resp : StreamingResponse) (pages : list deck_slide),
       post_export lib s (body (Some "pptx")) = Handled (Return resp)
       ∧ content resp = Presentation pages
       ∧ length pages = length ds
       ∧ media_type resp
         = "application/vnd.openxmlformats-officedocument.presentationml.presentation")
  ∧ (∀ resp, post_export lib s (body (Some "images")) = Handled (Return resp) →
       ∃ ds, exported_slides proj ds ∧ images_accepted lib ds)
  ∧ (∀ resp, post_export lib s (body (Some "pptx")) = Handled (Return resp) →
       ∃ ds, exported_slides proj ds ∧ pages_accepted lib ds)
  ∧ post_export lib s (body (Some "video"))
    = Handled (HTTPException 501 "Video export not implemented in demo")
  ∧ (∀ f, f ∉ SlideExportRequest.formats →
       post_export lib s (body (Some f)) = RequestValidationError
       ∧ export_storyboard lib s
           {| SlideExportRequest.project_id := pid; SlideExportRequest.format := f |}
         = HTTPException 400 "Invalid format").
Proof.
  intros Hproj body. split; [|split; [|split; [|split; [|split]]]].
  - intros ds Hds Hlib. do 2 eexists. split; [|split; [|split; [|split]]].
    + unfold post_export, body. simpl. f_equal.
      apply (export_images_accepted lib s pid proj Hproj ds Hds Hlib).
    + unfold post_export, body. simpl. f_equal.
      apply (export_images_accepted lib s pid proj Hproj ds Hds Hlib).
    + reflexivity.
    + apply length_imap.
    + reflexivity.
  - intros ds Hds Hlib. do 2 eexists. split; [|split; [|split]].
    + unfold post_export, body. simpl. f_equal.
      apply (export_pptx_accepted lib s pid proj Hproj ds Hds Hlib).
    + reflexivity.
    + apply length_imap.
    + reflexivity.
  - intros resp. unfold post_export, body. simpl. intros [= Hresp].
    by apply (export_images_returns lib s pid proj Hproj resp).
  - intros resp. unfold post_export, body. simpl. intros [= Hresp].
    by apply (export_pptx_returns lib s pid proj Hproj resp).
  - unfold post_export, body. simpl. f_equal.
    apply (export_video lib s pid proj Hproj).
  - intros f Hf. split.
    + unfold post_export, body. by rewrite validate_unknown_format.
    + by apply (export_other lib s pid proj Hproj).
Qed.

Lemma export_format_dispatch_witness :
  let body f :=
    {| SlideExportRequest.body_project_id := Some "p1";
       SlideExportRequest.body_format := f |} in
  (∃ (resp : StreamingResponse) (entries : list (string * Image)),
     post_export scenario_rendering storyboard_store (body (Some "images"))
     = Handled (Return resp)
     ∧ post_export scenario_rendering storyboard_store (body None) = Handled (Return resp)
     ∧ content resp = ZipFile entries
     ∧ length entries = 2%nat
     ∧ media_type resp = "application/zip")
  ∧ (∃ (resp : StreamingResponse) (pages : list deck_slide),
       post_export scenario_rendering storyboard_store (body (Some "pptx"))
       = Handled (Return resp)
       ∧ content resp = Presentation pages
       ∧ length pages = 2%nat
       ∧ media_type resp
         = "application/vnd.openxmlformats-officedocument.presentationml.presentation")
  ∧ post_export scenario_rendering storyboard_store (body (Some "video"))
    = Handled (HTTPException 501 "Video export not implemented in demo")
  ∧ (∀ f, f ∉ SlideExportRequest.formats →
       post_export scenario_rendering storyboard_store (body (Some f))
       = RequestValidationError
       ∧ export_storyboard scenario_rendering storyboard_store
           {| SlideExportRequest.project_id := "p1"; SlideExportRequest.format := f |}
         = HTTPException 400 "Invalid format").
Proof.
  destruct (export_format_dispatch scenario_rendering storyboard_store "p1"
              (normalize storyboard_p1) storyboard_p1_found)
    as (Himages & Hpptx & _ & _ & Hvideo & Hother).
  split;
    [exact (Himages [[("text", VStr "Welcome")]; [("bg", VStr "#ff0000")]]
              eq_refl storyboard_p1_images_render)|].
  split;
    [exact (Hpptx [[("text", VStr "Welcome")]; [("bg", VStr "#ff0000")]]
              eq_refl storyboard_p1_pages_render)|].
  split; [exact Hvideo|exact Hother].
Defined.

(** C4, as stated, fails: no project has the identifier ["missing"], the
    format ["gif"] is invalid, and the caller gets the validation error of
    the request schema, not the 404 [NotFound]. *)
Lemma export_invalid_format_precedes_not_found :
  get_document storyboard_store "project" {["id" := VStr "missing"]} = None
  ∧ post_export scenario_rendering storyboard_store
      {| SlideExportRequest.body_project_id := Some "missing";
         SlideExportRequest.body_format := Some "gif" |}
    = RequestValidationError
  ∧ post_export scenario_rendering storyboard_store
      {| SlideExportRequest.body_project_id := Some "missing";
         SlideExportRequest.body_format := Some "gif" |}
    ≠ Handled (HTTPException 404 "Project not found").
Proof. split; [by vm_compute|]. split; [done|]. by vm_compute. Qed.

(** C4, amended. When the project id of an export request does not
    resolve: a request that passes the schema gets 404, whichever of the
    formats it names, and the handler itself answers 404 for any format
    value at all, because it looks the project up before it dispatches on
    the format. A request that does not pass the schema is rejected before
    the handler and gets the validation error instead. None of this
    depends on the rendering libraries. *)
Theorem export_unknown_project
    (lib : rendering) (s : Mongo.db) (pid : string) (b : SlideExportRequest.body) :
  SlideExportRequest.body_project_id b = Some pid →
  get_document s "project" {["id" := VStr pid]} = None →
  (is_Some (SlideExportRequest.validate b) →
     post_export lib s b = Handled (HTTPException 404 "Project not found"))
  ∧ (SlideExportRequest.validate b = None → post_export lib s b = RequestValidationError)
  ∧ (∀ f, export_storyboard lib s
            {| SlideExportRequest.project_id := pid; SlideExportRequest.format := f |}
          = HTTPException 404 "Project not found").
Proof.
  intros Hpid Hnone. split; [|split].
  - intros [req Hreq]. unfold post_export. rewrite Hreq. f_equal.
    apply export_project_not_found.
    apply validate_project_id in Hreq. rewrite Hpid in Hreq.
    injection Hreq as <-. exact Hnone.
  - intros Hreq. unfold post_export. by rewrite Hreq.
  - intros f. by apply export_project_not_found.
Qed.

Lemma export_unknown_project_witness :
  let b := {| SlideExportRequest.body_project_id := Some "missing";
              SlideExportRequest.body_format := Some "video" |} in
  (is_Some (SlideExportRequest.validate b) →
     post_export scenario_rendering storyboard_store b
     = Handled (HTTPException 404 "Project not found"))
  ∧ (SlideExportRequest.validate b = None →
     post_export scenario_rendering storyboard_store b = RequestValidationError)
  ∧ (∀ f, export_storyboard scenario_rendering storyboard_store
            {| SlideExportRequest.project_id := "missing";
               SlideExportRequest.format := f |}
          = HTTPException 404 "Project not found").
Proof.
  exact (export_unknown_project scenario_rendering storyboard_store "missing"
           {| SlideExportRequest.body_project_id := Some "missing";
              SlideExportRequest.body_format := Some "video" |}
           eq_refl eq_refl).
Defined.

(** Whatever the stored slides are and whatever the libraries do, a
    format of the enum never takes the handler to its last line. *)
Lemma export_enum_format_not_400 (lib : rendering) (s : Mongo.db)
    (req : SlideExportRequest.t) (detail : string) :
  SlideExportRequest.format req ∈ SlideExportRequest.formats →
  export_storyboard lib s req ≠ HTTPException 400 detail.
Proof.
  intros Hf. unfold SlideExportRequest.formats in Hf.
  rewrite !elem_of_cons, elem_of_nil in Hf.
  unfold export_storyboard.
  destruct (get_document s "project" _) as [proj|]; [|done].
  destruct Hf as [-> | [-> | [-> | []]]]; simpl; [| done |].
  - destruct (py_iter _) as [exn|l]; [done|]. by destruct (images_loop lib 1 l).
  - destruct (py_iter _) as [exn|l]; [done|]. by destruct (pages_loop lib 1 l).
Qed.

(** The ways a request with a format of the enum can end. *)
Lemma export_enum_format_ends (lib : rendering) (s : Mongo.db)
    (req : SlideExportRequest.t) :
  SlideExportRequest.format req ∈ SlideExportRequest.formats →
  (∃ resp, export_storyboard lib s req = Return resp
           ∧ ((∃ entries, content resp = ZipFile entries)
              ∨ (∃ pages, content resp = Presentation pages)))
  ∨ export_storyboard lib s req = HTTPException 404 "Project not found"
  ∨ export_storyboard lib s req
    = HTTPException 501 "Video export not implemented in demo"
  ∨ (∃ exn, export_storyboard lib s req = Raised exn).
Proof.
  intros Hf. unfold SlideExportRequest.formats in Hf.
  rewrite !elem_of_cons, elem_of_nil in Hf.
  unfold export_storyboard.
  destruct (get_document s "project" _) as [proj|]; [|by right; left].
  destruct Hf as [-> | [-> | [-> | []]]]; simpl.
  - destruct (py_iter _) as [exn|l]; [right; right; right; eauto|].
    destruct (images_loop lib 1 l) as [exn|entries]; [right; right; right; eauto|].
    left. eexists. split; [reflexivity|]. left. by eexists.
  - by right; right; left.
  - destruct (py_iter _) as [exn|l]; [right; right; right; eauto|].
    destruct (pages_loop lib 1 l) as [exn|pages]; [right; right; right; eauto|].
    left. eexists. split; [reflexivity|]. right. by eexists.
Qed.

(** C10, as stated, fails in its last clause. The request for the
    images of project [p2] passes the validation of [SlideExportRequest],
    and it ends in none of an artifact, the 404 and the 501: the imaging
    library raises on the background of the project's slide, and the
    handler lets the exception through. *)
Lemma schema_valid_export_raises :
  SlideExportRequest.validate
    {| SlideExportRequest.body_project_id := Some "p2";
       SlideExportRequest.body_format := Some "images" |}
  = Some {| SlideExportRequest.project_id := "p2"; SlideExportRequest.format := "images" |}
  ∧ post_export scenario_rendering unrenderable_store
      {| SlideExportRequest.body_project_id := Some "p2";
         SlideExportRequest.body_format := Some "images" |}
    = Handled (Raised "ValueError")
  ∧ (∀ resp,
       post_export scenario_rendering unrenderable_store
         {| SlideExportRequest.body_project_id := Some "p2";
            SlideExportRequest.body_format := Some "images" |}
       ≠ Handled (Return resp))
  ∧ (∀ status_code detail,
       post_export scenario_rendering unrenderable_store
         {| SlideExportRequest.body_project_id := Some "p2";
            SlideExportRequest.body_format := Some "images" |}
       ≠ Handled (HTTPException status_code detail)).
Proof.
  split; [by vm_compute|]. split; [by vm_compute|].
  split; [intros resp|intros status_code detail]; by vm_compute.
Qed.

(** C10, amended. A request that passes the validation of
    [SlideExportRequest] names one of ['images'], ['video'], ['pptx'],
    and the handler it reaches never raises the 400 of its last line. The
    request ends in an artifact (an archive or a presentation), in the
    404, in the 501, or in an exception that the rendering loop lets
    through. When the slides that the export goes through (those of the
    project it names, if there is one) are dictionaries that the
    libraries take, it ends in an artifact, in the 404 or in the 501. *)
Theorem schema_valid_export_never_400
    (lib : rendering) (s : Mongo.db) (b : SlideExportRequest.body)
    (req : SlideExportRequest.t) :
  SlideExportRequest.validate b = Some req →
  post_export lib s b = Handled (export_storyboard lib s req)
  ∧ SlideExportRequest.format req ∈ SlideExportRequest.formats
  ∧ (∀ detail, export_storyboard lib s req ≠ HTTPException 400 detail)
  ∧ ((∃ resp, export_storyboard lib s req = Return resp
              ∧ ((∃ entries, content resp = ZipFile entries)
                 ∨ (∃ pages, content resp = Presentation pages)))
     ∨ export_storyboard lib s req = HTTPException 404 "Project not found"
     ∨ export_storyboard lib s req
       = HTTPException 501 "Video export not implemented in demo"
     ∨ (∃ exn, export_storyboard lib s req = Raised exn))
  ∧ ((∀ proj,
        get_document s "project" {["id" := VStr (SlideExportRequest.project_id req)]}
        = Some proj →
        ∃ ds, exported_slides proj ds ∧ images_accepted lib ds
              ∧ pages_accepted lib ds) →
     (∃ resp, export_storyboard lib s req = Return resp
              ∧ ((∃ entries, content resp = ZipFile entries)
                 ∨ (∃ pages, content resp = Presentation pages)))
     ∨ export_storyboard lib s req = HTTPException 404 "Project not found"
     ∨ export_storyboard lib s req
       = HTTPException 501 "Video export not implemented in demo").
Proof.
  intros Hreq. pose proof (validate_format b req Hreq) as Hf.
  split; [unfold post_export; by rewrite Hreq|].
  split; [exact Hf|].
  split; [intros detail; by apply export_enum_format_not_400|].
  split; [by apply export_enum_format_ends|].
  intros Htyped.
  destruct (get_document s "project"
              {["id" := VStr (SlideExportRequest.project_id req)]}) as [proj|] eqn:Hproj.
  - destruct (Htyped proj eq_refl) as (ds & Hds & Himages & Hpages).
    destruct req as [pid f]. simpl in *.
    unfold SlideExportRequest.formats in Hf.
    rewrite !elem_of_cons, elem_of_nil in Hf.
    destruct Hf as [-> | [-> | [-> | []]]].
    + left. eexists.
      split; [apply (export_images_accepted lib s pid proj Hproj ds Hds Himages)|].
      left. by eexists.
    + right. right. apply (export_video lib s pid proj Hproj).
    + left. eexists.
      split; [apply (export_pptx_accepted lib s pid proj Hproj ds Hds Hpages)|].
      right. by eexists.
  - right. left. by apply export_project_not_found.
Qed.

Lemma schema_valid_export_never_400_witness :
  let b := {| SlideExportRequest.body_project_id := Some "p1";
              SlideExportRequest.body_format := Some "pptx" |} in
  let req := {| SlideExportRequest.project_id := "p1";
                SlideExportRequest.format := "pptx" |} in
  post_export scenario_rendering storyboard_store b
  = Handled (export_storyboard scenario_rendering storyboard_store req)
  ∧ SlideExportRequest.format req ∈ SlideExportRequest.formats
  ∧ (∀ detail,
       export_storyboard scenario_rendering storyboard_store req
       ≠ HTTPException 400 detail)
  ∧ ((∃ resp, export_storyboard scenario_rendering storyboard_store req = Return resp
              ∧ ((∃ entries, content resp = ZipFile entries)
                 ∨ (∃ pages, content resp = Presentation pages)))
     ∨ export_storyboard scenario_rendering storyboard_store req
       = HTTPException 404 "Project not found"
     ∨ export_storyboard scenario_rendering storyboard_store req
       = HTTPException 501 "Video export not implemented in demo").
Proof.
  destruct (schema_valid_export_never_400 scenario_rendering storyboard_store
              {| SlideExportRequest.body_project_id := Some "p1";
                 SlideExportRequest.body_format := Some "pptx" |}
              {| SlideExportRequest.project_id := "p1";
                 SlideExportRequest.format := "pptx" |}
              eq_refl) as (Hpost & Hformat & Hnot400 & _ & Hends).
  split; [exact Hpost|]. split; [exact Hformat|]. split; [exact Hnot400|].
  apply Hends. intros proj Hproj.
  exists [[("text", VStr "Welcome")]; [("bg", VStr "#ff0000")]].
  cbn [SlideExportRequest.project_id] in Hproj.
  rewrite storyboard_p1_found in Hproj. injection Hproj as <-.
  split; [reflexivity|].
  split; [exact storyboard_p1_images_render|exact storyboard_p1_pages_render].
Defined.

(** ** Queries over a collection *)

Lemma filter_nil_Forall {A : Type} (f : A → bool) (l : list A) :
  List.filter f l = [] → Forall (λ x, f x = false) l.
Proof.
  induction l as [|x l IH]; simpl; [constructor|].
  destruct (f x) eqn:Hx; [done|]. intros Hl. constructor; auto.
Qed.

Lemma filter_app_unmatched {A : Type} (f : A → bool) (l r : list A) :
  Forall (λ x, f x = false) l → List.filter f (l ++ r) = List.filter f r.
Proof.
  induction 1 as [|x l Hx _ IH]; simpl; [done|]. by rewrite Hx.
Qed.

Lemma set_first_unmatched (q : Mongo.query) (data : document) (l r : list Mongo.stored) :
  Forall (λ d, Mongo.matches q (Mongo.as_dict d) = false) l →
  Mongo.set_first q data (l ++ r) = l ++ Mongo.set_first q data r.
Proof.
  induction 1 as [|x l Hx _ IH]; simpl; [done|]. by rewrite Hx, IH.
Qed.

(** The reads of one collection depend on that collection only. *)
Lemma find_collection_ext (s1 s2 : Mongo.db) (name : string) (q : Mongo.query) :
  Mongo.collection s1 name = Mongo.collection s2 name →
  Mongo.find s1 name q = Mongo.find s2 name q.
Proof. unfold Mongo.find. by intros ->. Qed.

Lemma get_document_collection_ext (s1 s2 : Mongo.db) (name : string) (q : Mongo.query) :
  Mongo.collection s1 name = Mongo.collection s2 name →
  get_document s1 name q = get_document s2 name q.
Proof.
  intros H. unfold get_document, Mongo.find_one.
  by rewrite (find_collection_ext s1 s2 name q H).
Qed.

Lemma collection_update_one_other (s : Mongo.db) (name other : string)
    (q : Mongo.query) (data : document) :
  name ≠ other →
  Mongo.collection (Mongo.update_one s name q data) other = Mongo.collection s other.
Proof.
  intros Hne. unfold Mongo.update_one, Mongo.with_collection, Mongo.collection.
  simpl. by rewrite lookup_insert_ne.
Qed.

Lemma collection_update_one (s : Mongo.db) (name : string)
    (q : Mongo.query) (data : document) :
  Mongo.collection (Mongo.update_one s name q data) name
  = Mongo.set_first q data (Mongo.collection s name).
Proof. unfold Mongo.update_one. apply collection_with_collection. Qed.

(** ** Share links *)

Section ShareLinks.

Variable Project : Type.
Variable Project_of : document → option Project.
Variable ShareLink_of : document → option ShareLink.t.

(** The lookup reads the first link with the token, and of that link the
    [project_id] only. *)
Lemma get_shared_project_first_link
    (s : Mongo.db) (token : string) (l r : list Mongo.stored)
    (link : Mongo.stored) (pid : value) :
  Mongo.collection s "sharelink" = l ++ link :: r →
  Forall (λ d, Mongo.matches {["token" := VStr token]} (Mongo.as_dict d) = false) l →
  Mongo.body link !! "token" = Some (VStr token) →
  Mongo.body link !! "project_id" = Some pid →
  get_shared_project Project Project_of s token
  = shared_project_answer Project Project_of s pid.
Proof.
  intros Hcoll Hl Htok Hpid.
  unfold get_shared_project, get_documents, Mongo.find. simpl.
  rewrite Hcoll, (filter_app_unmatched _ l (link :: r) Hl). simpl.
  rewrite matches_singleton, as_dict_field, Htok by done. simpl.
  rewrite bool_decide_eq_true_2 by done. simpl.
  rewrite normalize_field, Hpid by done. reflexivity.
Qed.

End ShareLinks.

Lemma ShareLink_dict_fields (l : ShareLink.t) :
  ShareLink.dict l !! "project_id" = Some (VStr (ShareLink.project_id l))
  ∧ ShareLink.dict l !! "token" = Some (VStr (ShareLink.token l))
  ∧ ShareLink.dict l !! "created_at" = Some (VDate (ShareLink.created_at l))
  ∧ ShareLink.dict l !! "expires_at" = Some (ShareLink.opt_date (ShareLink.expires_at l)).
Proof. unfold ShareLink.dict. by simplify_map_eq. Qed.

Lemma create_share_link_store
    (ShareLink_of : document → option ShareLink.t) (s : Mongo.db)
    (project_id role token : string) (t_created t_now : Z) :
  role ∈ ShareLink.roles →
  (create_share_link ShareLink_of s project_id role token t_created t_now).1
  = (Mongo.insert_one s "sharelink"
       (ShareLink.dict
          {| ShareLink.id := None; ShareLink.project_id := project_id;
             ShareLink.token := token; ShareLink.role := role;
             ShareLink.created_at := t_created;
             ShareLink.expires_at := Some (t_now + days 14)%Z |})).1.
Proof.
  intros Hrole. unfold create_share_link.
  by rewrite bool_decide_eq_true_2.
Qed.

(** C8. A share link created for a project that the project read path
    resolves, under a token no stored link has yet: the stored link
    expires fourteen days after the clock reading taken at creation; the
    lookup by its token answers with that project; and the answer does not
    depend on [expires_at], since it is the same after the field has been
    overwritten with any value at all, a date long past included. The
    lookup takes no clock reading either, so no time of the request can
    change it. *)
Theorem share_link_lookup_ignores_expiry
    (Project : Type) (Project_of : document → option Project)
    (ShareLink_of : document → option ShareLink.t)
    (s : Mongo.db) (project_id role token : string) (t_created t_now : Z)
    (proj : document) :
  role ∈ ShareLink.roles →
  Mongo.find s "sharelink" {["token" := VStr token]} = [] →
  get_document s "project" {["id" := VStr project_id]} = Some proj →
  let created :=
    (create_share_link ShareLink_of s project_id role token t_created t_now).1 in
  let answer :=
    match Project_of proj with
    | Some p => Return p
    | None => Raised "ValidationError"
    end in
  (∃ link : Mongo.stored,
      Mongo.collection created "sharelink" = Mongo.collection s "sharelink" ++ [link]
      ∧ Mongo.body link !! "project_id" = Some (VStr project_id)
      ∧ Mongo.body link !! "token" = Some (VStr token)
      ∧ Mongo.body link !! "created_at" = Some (VDate t_created)
      ∧ Mongo.body link !! "expires_at"
        = Some (VDate (t_now + 14 * 24 * 60 * 60 * 1000)))
  ∧ get_shared_project Project Project_of created token = answer
  ∧ (∀ e : value,
       get_shared_project Project Project_of
         (Mongo.update_one created "sharelink"
            {["token" := VStr token]} {["expires_at" := e]})
         token
       = answer).
Proof.
  intros Hrole Hfresh Hproj created answer.
  set (link := {| ShareLink.id := None; ShareLink.project_id := project_id;
                  ShareLink.token := token; ShareLink.role := role;
                  ShareLink.created_at := t_created;
                  ShareLink.expires_at := Some (t_now + days 14)%Z |}).
  assert (Hcreated : created = (Mongo.insert_one s "sharelink" (ShareLink.dict link)).1)
    by (by apply create_share_link_store).
  destruct (ShareLink_dict_fields link) as (Hpid & Htok & Hcr & Hexp).
  pose proof (filter_nil_Forall _ _ Hfresh) as Hold.
  assert (Hcoll : Mongo.collection created "sharelink"
            = Mongo.collection s "sharelink"
                ++ [{| Mongo._id := Mongo.next_oid s; Mongo.body := ShareLink.dict link |}])
    by (rewrite Hcreated; apply collection_insert_one).
  assert (Hprojects : Mongo.collection created "project" = Mongo.collection s "project")
    by (rewrite Hcreated; by apply collection_insert_one_other).
  assert (Hanswer : ∀ s', Mongo.collection s' "project" = Mongo.collection s "project" →
            shared_project_answer Project Project_of s' (VStr project_id) = answer).
  { intros s' Hs'. unfold shared_project_answer.
    by rewrite (get_document_collection_ext s' s "project" _ Hs'), Hproj. }
  split; [|split].
  - eexists. split; [exact Hcoll|]. simpl. repeat split; try done.
  - rewrite (get_shared_project_first_link Project Project_of created token
               (Mongo.collection s "sharelink") []
               {| Mongo._id := Mongo.next_oid s; Mongo.body := ShareLink.dict link |}
               (VStr project_id)); auto.
  - intros e.
    rewrite (get_shared_project_first_link Project Project_of _ token
               (Mongo.collection s "sharelink") []
               {| Mongo._id := Mongo.next_oid s;
                  Mongo.body := {["expires_at" := e]} ∪ ShareLink.dict link |}
               (VStr project_id)).
    + apply Hanswer. rewrite collection_update_one_other by done. exact Hprojects.
    + rewrite collection_update_one, Hcoll, set_first_unmatched by exact Hold.
      simpl. rewrite matches_singleton, as_dict_field by done. simpl.
      rewrite Htok. simpl. by rewrite bool_decide_eq_true_2.
    + exact Hold.
    + simpl. rewrite lookup_union_r; [exact Htok|]. by apply lookup_singleton_ne.
    + simpl. rewrite lookup_union_r; [exact Hpid|]. by apply lookup_singleton_ne.
Qed.

Lemma viewer_is_a_role : "viewer" ∈ ShareLink.roles.
Proof. unfold ShareLink.roles. apply elem_of_cons. by left. Defined.

Lemma share_link_lookup_ignores_expiry_witness :
  let created :=
    (create_share_link (λ _, None) storyboard_store "p1" "viewer" "Zq3kT0a9" 1000 1001).1 in
  "viewer" ∈ ShareLink.roles
  ∧ Mongo.find storyboard_store "sharelink" {["token" := VStr "Zq3kT0a9"]} = []
  ∧ (∃ link : Mongo.stored,
        Mongo.collection created "sharelink"
        = Mongo.collection storyboard_store "sharelink" ++ [link]
        ∧ Mongo.body link !! "project_id" = Some (VStr "p1")
        ∧ Mongo.body link !! "token" = Some (VStr "Zq3kT0a9")
        ∧ Mongo.body link !! "created_at" = Some (VDate 1000)
        ∧ Mongo.body link !! "expires_at" = Some (VDate (1001 + 14 * 24 * 60 * 60 * 1000)))
  ∧ get_shared_project document Some created "Zq3kT0a9"
    = Return (normalize storyboard_p1)
  ∧ (∀ e : value,
       get_shared_project document Some
         (Mongo.update_one created "sharelink"
            {["token" := VStr "Zq3kT0a9"]} {["expires_at" := e]})
         "Zq3kT0a9"
       = Return (normalize storyboard_p1)).
Proof.
  split; [exact viewer_is_a_role|]. split; [reflexivity|].
  exact (share_link_lookup_ignores_expiry document Some (λ _, None)
           storyboard_store "p1" "viewer" "Zq3kT0a9" 1000 1001
           (normalize storyboard_p1)
           viewer_is_a_role eq_refl storyboard_p1_found).
Defined.

(** ** Login *)

(** C9. A login whose email matches no user and a login whose email
    matches a user but whose password is rejected end in the same
    exception, status 400 with the detail ["Invalid credentials"],
    whatever the store and the clock are at either request. *)
Theorem login_failures_indistinguishable
    (pwd_verify : string → value → string + bool) (jwt_encode : document → string)
    (s1 s2 : Mongo.db) (now1 now2 : Z) (unknown wrong : AuthPayload.t)
    (user : document) (others : list document) :
  get_documents s1 "user" (Some {["email" := VStr (AuthPayload.email unknown)]}) 1 = [] →
  get_documents s2 "user" (Some {["email" := VStr (AuthPayload.email wrong)]}) 1
  = user :: others →
  password_rejected pwd_verify wrong user →
  login pwd_verify jwt_encode s1 now1 unknown
  = login pwd_verify jwt_encode s2 now2 wrong
  ∧ login pwd_verify jwt_encode s1 now1 unknown
    = HTTPException 400 "Invalid credentials".
Proof.
  intros Hunknown Hknown Hrejected.
  assert (H1 : login pwd_verify jwt_encode s1 now1 unknown
               = HTTPException 400 "Invalid credentials").
  { unfold login. by rewrite Hunknown. }
  assert (H2 : login pwd_verify jwt_encode s2 now2 wrong
               = HTTPException 400 "Invalid credentials").
  { unfold login. rewrite Hknown. unfold password_rejected in Hrejected.
    destruct (AuthPayload.password wrong) as [pw|]; [|done].
    case_bool_decide as Hpw; [done|].
    destruct Hrejected as [Hempty|Hverify]; [done|]. by rewrite Hverify. }
  split; [by rewrite H1, H2 | exact H1].
Qed.

Lemma login_failures_indistinguishable_witness :
  let unknown := {| AuthPayload.email := "bob@example.org";
                    AuthPayload.password := Some "correct horse";
                    AuthPayload.name := None |} in
  let wrong := {| AuthPayload.email := "ada@example.org";
                  AuthPayload.password := Some "battery staple";
                  AuthPayload.name := None |} in
  login prefix_verify (λ _, "jwt") store_with_user 10 unknown
  = login prefix_verify (λ _, "jwt") store_with_user 20 wrong
  ∧ login prefix_verify (λ _, "jwt") store_with_user 10 unknown
    = HTTPException 400 "Invalid credentials".
Proof.
  exact (login_failures_indistinguishable prefix_verify (λ _, "jwt")
           store_with_user store_with_user 10 20
           {| AuthPayload.email := "bob@example.org";
              AuthPayload.password := Some "correct horse";
              AuthPayload.name := None |}
           {| AuthPayload.email := "ada@example.org";
              AuthPayload.password := Some "battery staple";
              AuthPayload.name := None |}
           (normalize {| Mongo._id := 3;
                         Mongo.body :=
                           <["email" := VStr "ada@example.org"]>
                           (<["hashed_password" := VStr "h:correct horse"]> ∅) |})
           [] eq_refl eq_refl (or_intror eq_refl)).
Defined.

(** ** Equality of values *)

Lemma value_eqb_true (v w : value) : value_eqb v w = true → v = w.
Proof.
  revert v w. fix IH 1.
  intros [|a|a|a|l|d] [|b|b|b|k|e]; simpl; try discriminate; try reflexivity.
  - intros H. apply bool_decide_eq_true_1 in H. by subst.
  - intros H. apply bool_decide_eq_true_1 in H. by subst.
  - intros H. apply bool_decide_eq_true_1 in H. by subst.
  - intros H. f_equal. revert k H.
    induction l as [|x l IHl]; intros [|y k]; try discriminate; [reflexivity|].
    intros H. apply andb_prop in H as [Hx Hl].
    f_equal; [by apply IH | by apply IHl].
  - intros H. f_equal. revert e H.
    induction d as [|[a x] d IHd]; intros [|[b y] e]; try discriminate; [reflexivity|].
    intros H. apply andb_prop in H as [Hax Hd]. apply andb_prop in Hax as [Ha Hx].
    apply bool_decide_eq_true_1 in Ha. subst.
    f_equal; [f_equal; by apply IH | by apply IHd].
Qed.

Lemma value_eqb_refl (v : value) : value_eqb v v = true.
Proof.
  revert v. fix IH 1.
  intros [|a|a|a|l|d]; simpl; try reflexivity; try (by apply bool_decide_eq_true_2).
  - induction l as [|x l IHl]; [reflexivity|]. by rewrite IH, IHl.
  - induction d as [|[a x] d IHd]; [reflexivity|].
    by rewrite bool_decide_eq_true_2, IH, IHd.
Qed.

Lemma value_eqb_eq (v w : value) : value_eqb v w = true ↔ v = w.
Proof. split; [apply value_eqb_true | intros ->; apply value_eqb_refl]. Qed.

(** ** What an update does to the store *)

Lemma set_first_no_match (q : Mongo.query) (data : document) (l : list Mongo.stored) :
  Forall (λ d, Mongo.matches q (Mongo.as_dict d) = false) l →
  Mongo.set_first q data l = l.
Proof. induction 1 as [|x l Hx _ IH]; simpl; [done|]. by rewrite Hx, IH. Qed.

Lemma find_one_matches (s : Mongo.db) (name : string) (q : Mongo.query) (d : Mongo.stored) :
  Mongo.find_one s name q = Some d → Mongo.matches q (Mongo.as_dict d) = true.
Proof.
  unfold Mongo.find_one, Mongo.find.
  induction (Mongo.collection s name) as [|x l IH]; simpl; [done|].
  destruct (Mongo.matches q (Mongo.as_dict x)) eqn:Hx; simpl; [|exact IH].
  by intros [= <-].
Qed.

(** X1. [update_document] merges the given fields into the first record
    that matches the filter and into that record only: the records before
    and after it stay as they are, a field the partial record names takes
    the new value, every other field of the record keeps its own. When the
    merged record still matches the filter, it is the record returned,
    normalised. *)
Theorem update_document_merges_into_first_match
    (s : Mongo.db) (name : string) (q : Mongo.query) (data : document)
    (before after : list Mongo.stored) (d : Mongo.stored) :
  Mongo.collection s name = before ++ d :: after →
  Forall (λ x, Mongo.matches q (Mongo.as_dict x) = false) before →
  Mongo.matches q (Mongo.as_dict d) = true →
  let merged := {| Mongo._id := Mongo._id d; Mongo.body := data ∪ Mongo.body d |} in
  Mongo.collection (update_document s name q data).1 name = before ++ merged :: after
  ∧ (∀ k v, data !! k = Some v → Mongo.body merged !! k = Some v)
  ∧ (∀ k, data !! k = None → Mongo.body merged !! k = Mongo.body d !! k)
  ∧ (Mongo.matches q (Mongo.as_dict merged) = true →
     (update_document s name q data).2 = Some (normalize merged)).
Proof.
  intros Hcoll Hbefore Hd merged.
  assert (Hnew : Mongo.collection (update_document s name q data).1 name
                 = before ++ merged :: after).
  { unfold update_document. simpl.
    rewrite collection_update_one, Hcoll, set_first_unmatched by done.
    simpl. by rewrite Hd. }
  split; [exact Hnew|]. split; [|split].
  - intros k v Hk. simpl. by apply lookup_union_Some_l.
  - intros k Hk. simpl. by apply lookup_union_r.
  - intros Hmerged. unfold update_document in *. simpl in *.
    unfold get_document, Mongo.find_one, Mongo.find.
    rewrite Hnew, (filter_app_unmatched _ before _ Hbefore). simpl.
    by rewrite Hmerged.
Qed.

Lemma update_document_merges_into_first_match_witness :
  let data := <["title" := VStr "New"]> (∅ : document) in
  let merged :=
    {| Mongo._id := 7;
       Mongo.body := data ∪ Mongo.body storyboard_p1 |} in
  Mongo.collection
    (update_document storyboard_store "project" {["id" := VStr "p1"]} data).1 "project"
  = [merged]
  ∧ (update_document storyboard_store "project" {["id" := VStr "p1"]} data).2
    = Some (normalize merged).
Proof.
  pose proof (update_document_merges_into_first_match storyboard_store "project"
                {["id" := VStr "p1"]} (<["title" := VStr "New"]> ∅)
                [] [] storyboard_p1 eq_refl (List.Forall_nil _) eq_refl) as H.
  split; [exact (proj1 H) | exact (proj2 (proj2 (proj2 H)) eq_refl)].
Defined.

(** X2. When no record matches the filter, [update_document] answers
    "not found" and the collection is what it was. *)
Theorem update_document_without_match
    (s : Mongo.db) (name : string) (q : Mongo.query) (data : document) :
  Mongo.find s name q = [] →
  (update_document s name q data).2 = None
  ∧ Mongo.collection (update_document s name q data).1 name = Mongo.collection s name.
Proof.
  intros Hnone. pose proof (filter_nil_Forall _ _ Hnone) as Hall.
  assert (Hsame : Mongo.collection (update_document s name q data).1 name
                  = Mongo.collection s name).
  { unfold update_document. simpl.
    by rewrite collection_update_one, set_first_no_match. }
  split; [|exact Hsame].
  unfold update_document in *. simpl in *.
  unfold get_document, Mongo.find_one, Mongo.find. rewrite Hsame.
  unfold Mongo.find in Hnone. by rewrite Hnone.
Qed.

Lemma update_document_without_match_witness :
  (update_document storyboard_store "project" {["id" := VStr "missing"]}
     (<["title" := VStr "New"]> ∅)).2 = None
  ∧ Mongo.collection
      (update_document storyboard_store "project" {["id" := VStr "missing"]}
         (<["title" := VStr "New"]> ∅)).1 "project"
    = Mongo.collection storyboard_store "project".
Proof.
  exact (update_document_without_match storyboard_store "project"
           {["id" := VStr "missing"]} (<["title" := VStr "New"]> ∅) eq_refl).
Defined.

(** X3. The record of a payload whose [id] is [None], created in a
    collection where no record carries the new identifier in its [id]
    field, is never found by the identifier [create_document] returned
    for it: the filter on [id] is matched against the stored field, which
    is still [None]. *)
Theorem created_record_missed_by_id_filter
    (s : Mongo.db) (name : string) (data : document) :
  data !! "id" = Some VNone →
  Forall (λ d, Mongo.field_matches
                 (VStr (Mongo.ObjectId_str (Mongo.next_oid s)))
                 (Mongo.body d !! "id") = false)
         (Mongo.collection s name) →
  get_document (create_document s name data).1 name
    {["id" := VStr (Mongo.ObjectId_str (Mongo.next_oid s))]} = None.
Proof.
  intros Hid Hold.
  unfold create_document, Mongo.insert_one. simpl.
  unfold get_document, Mongo.find_one, Mongo.find, Mongo.collection. simpl.
  rewrite lookup_insert_eq. simpl.
  rewrite filter_app_unmatched.
  - simpl. rewrite matches_singleton, as_dict_field by done. simpl.
    by rewrite Hid.
  - eapply Forall_impl; [exact Hold|]. intros d Hd. simpl in Hd.
    by rewrite matches_singleton, as_dict_field.
Qed.

Lemma created_record_missed_by_id_filter_witness :
  get_document
    (create_document storyboard_store "project" (new_project_dict "u1" "Launch" 0)).1
    "project" {["id" := VStr (Mongo.ObjectId_str 8)]} = None.
Proof.
  apply (created_record_missed_by_id_filter storyboard_store "project"
           (new_project_dict "u1" "Launch" 0)); [reflexivity|].
  change (Mongo.collection storyboard_store "project") with [storyboard_p1].
  constructor; [reflexivity|constructor].
Defined.

(** ** The scenarios of the design document, evaluated *)

(** Project [p1], format ['images'], with the scenario libraries:
    [slide_1.png] carries the text "Welcome" on the default colours,
    [slide_2.png] the default text "Slide 2" on a red background. *)
Example export_p1_images :
  ∃ resp,
    export_storyboard scenario_rendering storyboard_store
      {| SlideExportRequest.project_id := "p1"; SlideExportRequest.format := "images" |}
    = Return resp
    ∧ media_type resp = "application/zip"
    ∧ content resp
      = ZipFile
          [("slide_1.png",
            {| mode := "RGB"; size := (1080, 1920)%Z; color := VStr "#111827";
               drawn := [{| xy := (50, 50)%Z; text := VStr "Welcome";
                            fill := VStr "#ffffff" |}] |});
           ("slide_2.png",
            {| mode := "RGB"; size := (1080, 1920)%Z; color := VStr "#ff0000";
               drawn := [{| xy := (50, 50)%Z; text := VStr "Slide 2";
                            fill := VStr "#ffffff" |}] |})].
Proof. eexists. split; [by vm_compute|]. split; by vm_compute. Qed.

(** A project with an empty slide list, format ['pptx']: one page, with
    the text "Slide 1". *)
Example export_empty_project_pptx :
  ∃ resp,
    export_storyboard scenario_rendering store_with_p1
      {| SlideExportRequest.project_id := "p1"; SlideExportRequest.format := "pptx" |}
    = Return resp
    ∧ content resp
      = Presentation
          [{| layout := 5; textbox := (1, 1, 8, 5)%Z; text_frame := VStr "Slide 1" |}].
Proof. eexists. split; by vm_compute. Qed.

(** A background that is no colour stops the images export of project
    [p2]; its pptx export, which does not read the background, goes
    through. *)
Example export_bad_colour_pptx :
  ∃ resp,
    export_storyboard scenario_rendering unrenderable_store
      {| SlideExportRequest.project_id := "p2"; SlideExportRequest.format := "pptx" |}
    = Return resp
    ∧ content resp
      = Presentation
          [{| layout := 5; textbox := (1, 1, 8, 5)%Z; text_frame := VStr "Slide 1" |}].
Proof. eexists. split; by vm_compute. Qed.

(** The right password logs in: the token is the encoding of the claims
    [sub], [email] and [exp], one day after the clock reading. *)
Example login_accepts_the_password :
  login prefix_verify
    (λ claims, match claims !! "exp" with
               | Some (VDate t) =>
                   if bool_decide (t = 10 + 86400000)%Z then "signed" else "unsigned"
               | _ => "unsigned"
               end)
    store_with_user 10
    {| AuthPayload.email := "ada@example.org";
       AuthPayload.password := Some "correct horse";
       AuthPayload.name := None |}
  = Return {| access_token := "signed"; token_type := "bearer" |}.
Proof. vm_compute. reflexivity. Qed.

(** Deleting by the filter of the project read path removes the record
    whose stored [id] field matches, and reports it. *)
Example delete_project_p1 :
  let deleted := delete_document storyboard_store "project" {["id" := VStr "p1"]} in
  deleted.2 = true ∧ Mongo.collection deleted.1 "project" = [].
Proof. vm_compute. done. Qed.


(** * Further properties of the adapter and the handlers *)

(** ** Identifiers handed out by the store *)

Lemma store_wf_empty : store_wf Mongo.empty.
Proof. intros name d Hd. unfold Mongo.collection in Hd. simpl in Hd.
  rewrite lookup_empty in Hd. simpl in Hd. by apply elem_of_nil in Hd. Qed.

Lemma collection_insert_one_cases (s : Mongo.db) (name other : string) (data : document) :
  Mongo.collection (Mongo.insert_one s name data).1 other
  = if bool_decide (name = other)
    then Mongo.collection s name
           ++ [{| Mongo._id := Mongo.next_oid s; Mongo.body := data |}]
    else Mongo.collection s other.
Proof.
  case_bool_decide as Hn.
  - subst. apply collection_insert_one.
  - by apply collection_insert_one_other.
Qed.

Lemma store_wf_insert_one (s : Mongo.db) (name : string) (data : document) :
  store_wf s → store_wf (Mongo.insert_one s name data).1.
Proof.
  intros Hwf other d Hd. rewrite collection_insert_one_cases in Hd.
  change (Mongo.next_oid (Mongo.insert_one s name data).1) with (N.succ (Mongo.next_oid s)).
  case_bool_decide.
  - apply elem_of_app in Hd as [Hd|Hd].
    + specialize (Hwf _ _ Hd). lia.
    + apply list_elem_of_singleton in Hd. subst. simpl. lia.
  - specialize (Hwf _ _ Hd). lia.
Qed.

Lemma set_first_ids (q : Mongo.query) (data : document) (l : list Mongo.stored) :
  Mongo._id <$> Mongo.set_first q data l = Mongo._id <$> l.
Proof.
  induction l as [|d l IH]; [done|]. cbn [Mongo.set_first].
  destruct (Mongo.matches q (Mongo.as_dict d)); rewrite !fmap_cons; [done|].
  by rewrite IH.
Qed.

Lemma remove_first_sublist (q : Mongo.query) (l : list Mongo.stored) :
  (Mongo.remove_first q l).1 ⊆ l.
Proof.
  induction l as [|d l IH]; simpl; [done|].
  destruct (Mongo.matches q (Mongo.as_dict d)); simpl.
  - intros x Hx. by right.
  - destruct (Mongo.remove_first q l) as [r n]. simpl in *.
    intros x Hx. apply elem_of_cons in Hx as [->|Hx]; [by left|].
    right. by apply IH.
Qed.

Lemma filter_unmatched_nil {A : Type} (f : A → bool) (l : list A) :
  Forall (λ x, f x = false) l → List.filter f l = [].
Proof. induction 1 as [|x l Hx _ IH]; simpl; [done|]. by rewrite Hx. Qed.

Lemma collection_with_collection_other (s : Mongo.db) (name other : string)
    (l : list Mongo.stored) :
  name ≠ other →
  Mongo.collection (Mongo.with_collection s name l) other = Mongo.collection s other.
Proof.
  intros Hne. unfold Mongo.collection, Mongo.with_collection. simpl.
  by rewrite lookup_insert_ne.
Qed.

Lemma store_wf_update_one (s : Mongo.db) (name : string) (q : Mongo.query) (data : document) :
  store_wf s → store_wf (Mongo.update_one s name q data).
Proof.
  intros Hwf other d Hd. change (Mongo.next_oid (Mongo.update_one s name q data))
    with (Mongo.next_oid s).
  destruct (decide (name = other)) as [<-|Hne].
  - rewrite collection_update_one in Hd.
    assert (Hid : Mongo._id d ∈ Mongo._id <$> Mongo.collection s name).
    { rewrite <- (set_first_ids q data (Mongo.collection s name)).
      by apply list_elem_of_fmap_2. }
    apply list_elem_of_fmap in Hid as (d' & -> & Hd'). by apply (Hwf name).
  - rewrite collection_update_one_other in Hd by done. by apply (Hwf other).
Qed.

Lemma store_wf_delete_one (s : Mongo.db) (name : string) (q : Mongo.query) :
  store_wf s → store_wf (Mongo.delete_one s name q).1.
Proof.
  intros Hwf other d Hd. unfold Mongo.delete_one in *.
  pose proof (remove_first_sublist q (Mongo.collection s name)) as Hsub.
  destruct (Mongo.remove_first q (Mongo.collection s name)) as [l n]. simpl in *.
  destruct (decide (name = other)) as [<-|Hne].
  - rewrite collection_with_collection in Hd. apply (Hwf name). by apply Hsub.
  - rewrite collection_with_collection_other in Hd by done. by apply (Hwf other).
Qed.

Lemma matches_id_query (d : Mongo.stored) (oid : N) :
  Mongo.matches {["_id" := VOid oid]} (Mongo.as_dict d) = bool_decide (Mongo._id d = oid).
Proof.
  rewrite matches_singleton, as_dict_id. simpl. apply orb_false_r.
Qed.

(** On such a store the read that follows an insert finds the document
    just inserted and no other. *)
Lemma find_one_fresh (s : Mongo.db) (name : string) (data : document) :
  store_wf s →
  Mongo.find_one (Mongo.insert_one s name data).1 name {["_id" := VOid (Mongo.next_oid s)]}
  = Some {| Mongo._id := Mongo.next_oid s; Mongo.body := data |}.
Proof.
  intros Hwf. unfold Mongo.find_one. rewrite find_insert_one.
  unfold Mongo.find. rewrite filter_unmatched_nil.
  - simpl. rewrite matches_id_query. simpl. by rewrite bool_decide_eq_true_2.
  - apply Forall_forall. intros d Hd. rewrite matches_id_query.
    specialize (Hwf _ _ Hd). rewrite bool_decide_eq_false_2; [done|lia].
Qed.

Lemma normalize_inserted (oid : N) (data : document) :
  normalize {| Mongo._id := oid; Mongo.body := data |}
  = <["id" := VStr (Mongo.ObjectId_str oid)]> (delete "_id" data).
Proof. unfold normalize, Mongo.as_dict. simpl. by rewrite delete_insert_eq. Qed.

Lemma create_document_fresh (s : Mongo.db) (name : string) (data : document) :
  store_wf s →
  create_document s name data
  = ((Mongo.insert_one s name data).1,
     <["id" := VStr (Mongo.ObjectId_str (Mongo.next_oid s))]> (delete "_id" data)).
Proof.
  intros Hwf. unfold create_document.
  pose proof (find_one_fresh s name data Hwf) as Hfind.
  unfold Mongo.insert_one in *. simpl in *. rewrite Hfind.
  by rewrite normalize_inserted.
Qed.

Lemma store_wf_single (name : string) (l : list Mongo.stored) (n : N) :
  Forall (λ d, (Mongo._id d < n)%N) l →
  store_wf {| Mongo.collections := {[name := l]}; Mongo.next_oid := n |}.
Proof.
  intros Hl other d Hd. unfold Mongo.collection in Hd. simpl in *.
  destruct (decide (name = other)) as [<-|Hne].
  - rewrite lookup_singleton_eq in Hd. simpl in Hd.
    by apply (proj1 (Forall_forall _ _) Hl).
  - rewrite lookup_singleton_ne in Hd by done. simpl in Hd.
    by apply elem_of_nil in Hd.
Qed.

Lemma storyboard_store_wf : store_wf storyboard_store.
Proof. apply store_wf_single. constructor; [done|constructor]. Qed.

Lemma store_with_user_wf : store_wf store_with_user.
Proof. apply store_wf_single. constructor; [done|constructor]. Qed.

(** ** create_document *)

(** X4. On a store whose identifiers are its own, [create_document]
    returns the payload itself with [id] set to the string of the new
    identifier: every other field comes back as it was given. The store
    gains that one document at the end of the named collection, every
    other collection is untouched, and reading by the store's [_id]
    returns the very record that was returned. *)
Theorem create_document_returns_payload
    (s : Mongo.db) (name : string) (data : document) :
  store_wf s →
  data !! "_id" = None →
  let created := create_document s name data in
  created.2 = <["id" := VStr (Mongo.ObjectId_str (Mongo.next_oid s))]> data
  ∧ (∀ k, k ≠ "id" → created.2 !! k = data !! k)
  ∧ Mongo.collection created.1 name
    = Mongo.collection s name
        ++ [{| Mongo._id := Mongo.next_oid s; Mongo.body := data |}]
  ∧ (∀ other, other ≠ name → Mongo.collection created.1 other = Mongo.collection s other)
  ∧ get_document created.1 name {["_id" := VOid (Mongo.next_oid s)]} = Some created.2
  ∧ store_wf created.1.
Proof.
  intros Hwf Hnoid created.
  assert (Hc : created
               = ((Mongo.insert_one s name data).1,
                  <["id" := VStr (Mongo.ObjectId_str (Mongo.next_oid s))]> data)).
  { unfold created. rewrite create_document_fresh by done.
    by rewrite delete_id. }
  rewrite Hc. cbn [fst snd]. split; [done|]. split; [|split; [|split; [|split]]].
  - intros k Hk. by rewrite lookup_insert_ne.
  - apply collection_insert_one.
  - intros other Hne. by apply collection_insert_one_other.
  - unfold get_document. rewrite find_one_fresh by done.
    by rewrite normalize_inserted, delete_id.
  - by apply store_wf_insert_one.
Qed.

Lemma create_document_returns_payload_witness :
  let created :=
    create_document storyboard_store "project" (new_project_dict "u1" "Launch" 0) in
  created.2 = <["id" := VStr (Mongo.ObjectId_str 8)]> (new_project_dict "u1" "Launch" 0)
  ∧ get_document created.1 "project" {["_id" := VOid 8]} = Some created.2.
Proof.
  pose proof (create_document_returns_payload storyboard_store "project"
                (new_project_dict "u1" "Launch" 0) storyboard_store_wf eq_refl) as H.
  split; [exact (proj1 H) | exact (proj1 (proj2 (proj2 (proj2 (proj2 H)))))].
Defined.

(** ** get_documents and get_document *)

Lemma head_take {A : Type} (n : nat) (l : list A) : n ≠ 0%nat → head (take n l) = head l.
Proof. destruct n; [done|]. by destruct l. Qed.

Lemma head_fmap {A B : Type} (f : A → B) (l : list A) : head (f <$> l) = f <$> head l.
Proof. by destruct l. Qed.

Lemma get_document_find_one (s : Mongo.db) (name : string) (q : Mongo.query) :
  get_document s name q = normalize <$> Mongo.find_one s name q.
Proof. unfold get_document. by destruct (Mongo.find_one s name q). Qed.

(** X5. Listing and reading one record agree. A missing filter is the
    empty filter; with a limit other than 0 the list has at most that many
    records, and its first record, if any, is the record [get_document]
    returns for the same filter; a limited list is an initial part of the
    unlimited one, so the limit only cuts the end off. *)
Theorem get_documents_agrees_with_get_document
    (s : Mongo.db) (name : string) (q : Mongo.query)
    (filter_dict : option Mongo.query) (lim : Z) :
  get_documents s name None lim = get_documents s name (Some ∅) lim
  ∧ (lim ≠ 0%Z → (length (get_documents s name filter_dict lim) ≤ Z.abs_nat lim)%nat)
  ∧ (lim ≠ 0%Z → head (get_documents s name (Some q) lim) = get_document s name q)
  ∧ get_documents s name filter_dict lim `prefix_of` get_documents s name filter_dict 0.
Proof.
  split; [done|]. split; [|split].
  - intros Hlim. unfold get_documents, Mongo.limit.
    rewrite length_fmap, bool_decide_eq_false_2 by done.
    rewrite length_take. lia.
  - intros Hlim. rewrite get_document_find_one.
    unfold get_documents, Mongo.limit, Mongo.find_one. simpl.
    rewrite bool_decide_eq_false_2 by done.
    rewrite head_fmap, head_take; [done|lia].
  - unfold get_documents, Mongo.limit. simpl.
    case_bool_decide; [done|].
    set (l := Mongo.find s name (default ∅ filter_dict)).
    exists (normalize <$> drop (Z.abs_nat lim) l).
    by rewrite <- fmap_app, take_drop.
Qed.

Lemma matches_field (q : Mongo.query) (d : document) (k : string) (v : value) :
  Mongo.matches q d = true → q !! k = Some v → Mongo.field_matches v (d !! k) = true.
Proof.
  unfold Mongo.matches. intros Hall Hk.
  rewrite forallb_forall in Hall.
  apply elem_of_map_to_list, list_elem_of_In in Hk.
  exact (Hall (k, v) Hk).
Qed.

Lemma elem_of_limit {A : Type} (n : Z) (l : list A) (x : A) :
  x ∈ Mongo.limit n l → x ∈ l.
Proof.
  unfold Mongo.limit. case_bool_decide; [done|].
  intros Hx. rewrite <- (take_drop (Z.abs_nat n) l). apply elem_of_app. by left.
Qed.

(** X6. Every record [get_documents] returns is the normalised form of
    a stored document of the collection that matches the filter. On every
    field the filter names, other than [id], the returned record itself
    satisfies the filter; a filter on [id] was matched against the stored
    field of that name, not against the identifier the record is returned
    with. *)
Theorem get_documents_returns_matches
    (s : Mongo.db) (name : string) (q : Mongo.query) (lim : Z) (r : document) :
  r ∈ get_documents s name (Some q) lim →
  ∃ d : Mongo.stored,
    d ∈ Mongo.collection s name
    ∧ r = normalize d
    ∧ Mongo.matches q (Mongo.as_dict d) = true
    ∧ (∀ k v, q !! k = Some v → k ≠ "id" → k ≠ "_id" →
              Mongo.field_matches v (r !! k) = true)
    ∧ (∀ v, q !! "id" = Some v →
            Mongo.field_matches v (Mongo.body d !! "id") = true).
Proof.
  unfold get_documents. simpl. intros Hr.
  apply list_elem_of_fmap in Hr as (d & -> & Hd).
  apply elem_of_limit in Hd. unfold Mongo.find in Hd.
  apply list_elem_of_In, filter_In in Hd as [Hd Hm]. apply list_elem_of_In in Hd.
  exists d. split; [done|]. split; [done|]. split; [done|]. split.
  - intros k v Hk Hid Hint. rewrite normalize_field by done.
    rewrite <- as_dict_field by done. by apply matches_field with q.
  - intros v Hk. rewrite <- as_dict_field by done. by apply matches_field with q.
Qed.

Lemma get_documents_returns_matches_witness :
  ∃ d : Mongo.stored,
    d ∈ Mongo.collection storyboard_store "project"
    ∧ normalize storyboard_p1 = normalize d
    ∧ Mongo.matches {["owner_id" := VStr "u1"]} (Mongo.as_dict d) = true
    ∧ (∀ k v, ({["owner_id" := VStr "u1"]} : Mongo.query) !! k = Some v →
              k ≠ "id" → k ≠ "_id" →
              Mongo.field_matches v (normalize storyboard_p1 !! k) = true)
    ∧ (∀ v, ({["owner_id" := VStr "u1"]} : Mongo.query) !! "id" = Some v →
            Mongo.field_matches v (Mongo.body d !! "id") = true).
Proof.
  apply (get_documents_returns_matches storyboard_store "project"
           {["owner_id" := VStr "u1"]} 100 (normalize storyboard_p1)).
  change (get_documents storyboard_store "project" (Some {["owner_id" := VStr "u1"]}) 100)
    with [normalize storyboard_p1].
  by left.
Defined.

(** ** delete_document *)

Lemma remove_first_spec (q : Mongo.query) (l : list Mongo.stored) :
  List.filter (λ d, Mongo.matches q (Mongo.as_dict d)) (Mongo.remove_first q l).1
  = tail (List.filter (λ d, Mongo.matches q (Mongo.as_dict d)) l)
  ∧ List.filter (λ d, negb (Mongo.matches q (Mongo.as_dict d))) (Mongo.remove_first q l).1
    = List.filter (λ d, negb (Mongo.matches q (Mongo.as_dict d))) l
  ∧ (Mongo.remove_first q l).2
    = (if List.filter (λ d, Mongo.matches q (Mongo.as_dict d)) l is [] then 0 else 1)%Z
  ∧ (length (Mongo.remove_first q l).1 + Z.to_nat (Mongo.remove_first q l).2
     = length l)%nat.
Proof.
  induction l as [|d l (IH1 & IH2 & IH3 & IH4)]; [done|].
  cbn [Mongo.remove_first List.filter].
  destruct (Mongo.matches q (Mongo.as_dict d)) eqn:Hd; cbn [negb fst snd tail].
  - repeat split. simpl. lia.
  - destruct (Mongo.remove_first q l) as [r n]. cbn [fst snd] in *.
    cbn [List.filter]. rewrite Hd. cbn [negb]. rewrite IH1, IH2, IH3.
    repeat split. simpl. lia.
Qed.

Lemma remove_first_no_match (q : Mongo.query) (l : list Mongo.stored) :
  Forall (λ d, Mongo.matches q (Mongo.as_dict d) = false) l →
  (Mongo.remove_first q l).1 = l.
Proof.
  induction 1 as [|d l Hd _ IH]; [done|]. simpl. rewrite Hd.
  destruct (Mongo.remove_first q l) as [r n]. simpl in *. by rewrite IH.
Qed.

(** X7. [delete_document] removes the first record that matches the
    filter and nothing else: the matching records left are those that
    followed it, the records that do not match are all still there, and
    every other collection is untouched. It answers [True] exactly when
    [get_document] would have found a record, and then the collection is
    one record shorter; otherwise the collection is what it was. *)
Theorem delete_document_removes_first_match
    (s : Mongo.db) (name : string) (q : Mongo.query) :
  let deleted := delete_document s name q in
  Mongo.find deleted.1 name q = tail (Mongo.find s name q)
  ∧ List.filter (λ d, negb (Mongo.matches q (Mongo.as_dict d)))
      (Mongo.collection deleted.1 name)
    = List.filter (λ d, negb (Mongo.matches q (Mongo.as_dict d)))
        (Mongo.collection s name)
  ∧ (deleted.2 = true ↔ is_Some (get_document s name q))
  ∧ (length (Mongo.collection deleted.1 name) + (if deleted.2 then 1 else 0)
     = length (Mongo.collection s name))%nat
  ∧ (deleted.2 = false → Mongo.collection deleted.1 name = Mongo.collection s name)
  ∧ (∀ other, other ≠ name →
       Mongo.collection deleted.1 other = Mongo.collection s other).
Proof.
  intros deleted. unfold deleted, delete_document, Mongo.delete_one.
  destruct (remove_first_spec q (Mongo.collection s name)) as (H1 & H2 & H3 & H4).
  destruct (Mongo.remove_first q (Mongo.collection s name)) as [l n] eqn:Hrem.
  cbn [fst snd] in *.
  assert (Hfind : Mongo.find s name q
                  = List.filter (λ d, Mongo.matches q (Mongo.as_dict d))
                      (Mongo.collection s name)) by done.
  split; [|split; [|split; [|split; [|split]]]].
  - unfold Mongo.find at 1. by rewrite collection_with_collection.
  - by rewrite collection_with_collection.
  - rewrite get_document_find_one. unfold Mongo.find_one. rewrite Hfind, H3.
    destruct (List.filter _ (Mongo.collection s name)); simpl.
    + split; [done|]. by intros [? ?].
    + split; [eauto|done].
  - rewrite collection_with_collection, <- H4, H3.
    by destruct (List.filter _ (Mongo.collection s name)).
  - rewrite collection_with_collection. intros Hfalse.
    apply bool_decide_eq_false_1 in Hfalse.
    destruct (List.filter _ (Mongo.collection s name)) eqn:Hf; [|by subst n].
    pose proof (remove_first_no_match q _ (filter_nil_Forall _ _ Hf)) as Hsame.
    by rewrite Hrem in Hsame.
  - intros other Hne. by apply collection_with_collection_other.
Qed.

(** ** Accounts *)

Lemma User_dict_fields (u : User.t) :
  User.dict u !! "email" = Some (VStr (User.email u))
  ∧ User.dict u !! "hashed_password" = Some (opt_field (User.hashed_password u))
  ∧ User.dict u !! "provider" = Some (VStr (User.provider u))
  ∧ User.dict u !! "_id" = None.
Proof. unfold User.dict. by simplify_map_eq. Qed.

Lemma field_matches_same_string (x : string) :
  Mongo.field_matches (VStr x) (Some (VStr x)) = true.
Proof. simpl. by rewrite bool_decide_eq_true_2. Qed.

(** A collection in which nothing matched the query, after an insert
    that does: the new document is the one match. *)
Lemma find_inserted_only (s : Mongo.db) (name : string) (data : document) (q : Mongo.query) :
  Mongo.find s name q = [] →
  Mongo.matches q (Mongo.as_dict {| Mongo._id := Mongo.next_oid s; Mongo.body := data |})
  = true →
  Mongo.find (Mongo.insert_one s name data).1 name q
  = [{| Mongo._id := Mongo.next_oid s; Mongo.body := data |}].
Proof.
  intros Hnone Hm. rewrite find_insert_one, Hnone. simpl.
  simpl in Hm. by rewrite Hm.
Qed.

Lemma get_documents_found (s : Mongo.db) (name : string) (q : Mongo.query)
    (d : Mongo.stored) (rest : list Mongo.stored) :
  Mongo.find s name q = d :: rest →
  get_documents s name (Some q) 1 = [normalize d].
Proof. intros Hf. unfold get_documents, Mongo.limit. simpl. by rewrite Hf. Qed.

Lemma get_documents_none (s : Mongo.db) (name : string) (q : Mongo.query) (lim : Z) :
  Mongo.find s name q = [] → get_documents s name (Some q) lim = [].
Proof.
  intros Hf. unfold get_documents, Mongo.limit. simpl. rewrite Hf.
  case_bool_decide; [done|]. by rewrite take_nil.
Qed.

Section AccountProperties.

Variable pwd_hash : string → string → string + string.
Variable pwd_verify : string → value → string + bool.
Variable jwt_encode : document → string.
Variable EmailStr : string → option string.

(** The token whose claims are the identifier [oid] and [email], issued
    at [now]. *)
Let token_of (oid : N) (email : string) (now : Z) : Token :=
  {| access_token :=
       create_access_token jwt_encode now
         (<["sub" := VStr (Mongo.ObjectId_str oid)]> (<["email" := VStr email]> ∅)) None;
     token_type := "bearer" |}.

(** What [register] does on a well-formed store that has no user with
    the address, for a payload whose secret hashes to [hashed]. *)
Lemma register_fresh (s : Mongo.db) (payload : AuthPayload.t)
    (token_hex salt hashed : string) (t_user t_token : Z) :
  store_wf s →
  Mongo.find s "user" {["email" := VStr (AuthPayload.email payload)]} = [] →
  EmailStr (AuthPayload.email payload) = Some (AuthPayload.email payload) →
  pwd_hash salt
    (match AuthPayload.password payload with
     | Some pw => if bool_decide (pw = "") then token_hex else pw
     | None => token_hex
     end) = inr hashed →
  register pwd_hash jwt_encode EmailStr s payload token_hex salt t_user t_token
  = ((Mongo.insert_one s "user"
        (User.dict
           {| User.id := None; User.email := AuthPayload.email payload;
              User.name := AuthPayload.name payload; User.provider := "email";
              User.hashed_password := Some hashed; User.created_at := t_user |})).1,
     Return (token_of (Mongo.next_oid s) (AuthPayload.email payload) t_token)).
Proof.
  intros Hwf Hnone Hemail Hhash. unfold register.
  rewrite (get_documents_none _ _ _ _ Hnone), Hhash, Hemail.
  rewrite create_document_fresh by done. f_equal.
Qed.

(** X8. Register, then log in. On a well-formed store without a user of
    that address, registering with a non-empty password adds one user
    record and returns a token for the new identifier; logging in
    afterwards with the same address and password returns a token with
    the same [sub] and [email]; and registering the address a second
    time, whatever the rest of the payload, is refused with 400 and
    leaves the store as it is. The credential collaborator is assumed to
    verify the password against the digest it made of it. *)
Theorem register_then_login
    (s : Mongo.db) (payload : AuthPayload.t) (pw token_hex salt hashed : string)
    (t_user t_token t_login : Z) :
  store_wf s →
  Mongo.find s "user" {["email" := VStr (AuthPayload.email payload)]} = [] →
  EmailStr (AuthPayload.email payload) = Some (AuthPayload.email payload) →
  AuthPayload.password payload = Some pw →
  pw ≠ "" →
  pwd_hash salt pw = inr hashed →
  pwd_verify pw (VStr hashed) = inr true →
  let registered :=
    register pwd_hash jwt_encode EmailStr s payload token_hex salt t_user t_token in
  registered.2
  = Return (token_of (Mongo.next_oid s) (AuthPayload.email payload) t_token)
  ∧ length (Mongo.collection registered.1 "user")
    = S (length (Mongo.collection s "user"))
  ∧ login pwd_verify jwt_encode registered.1 t_login payload
    = Return (token_of (Mongo.next_oid s) (AuthPayload.email payload) t_login)
  ∧ (∀ (again : AuthPayload.t) (token_hex' salt' : string) (t1 t2 : Z),
       AuthPayload.email again = AuthPayload.email payload →
       register pwd_hash jwt_encode EmailStr registered.1 again token_hex' salt' t1 t2
       = (registered.1, HTTPException 400 "Email already registered")).
Proof.
  intros Hwf Hnone Hemail Hpw Hne Hhash Hverify registered.
  set (user := {| User.id := None; User.email := AuthPayload.email payload;
                  User.name := AuthPayload.name payload; User.provider := "email";
                  User.hashed_password := Some hashed; User.created_at := t_user |}).
  destruct (User_dict_fields user) as (Hmail & Hhashed & _ & _).
  assert (Hreg : registered
            = ((Mongo.insert_one s "user" (User.dict user)).1,
               Return (token_of (Mongo.next_oid s) (AuthPayload.email payload) t_token))).
  { apply register_fresh; try done.
    by rewrite Hpw, bool_decide_eq_false_2. }
  assert (Hfind : Mongo.find registered.1 "user"
                    {["email" := VStr (AuthPayload.email payload)]}
                  = [{| Mongo._id := Mongo.next_oid s; Mongo.body := User.dict user |}]).
  { rewrite Hreg. cbn [fst]. apply find_inserted_only; [done|].
    rewrite matches_singleton, as_dict_field by done. cbn [Mongo.body].
    rewrite Hmail. apply field_matches_same_string. }
  split; [by rewrite Hreg|]. split; [|split].
  - rewrite Hreg. cbn [fst]. rewrite collection_insert_one, length_app. simpl. lia.
  - unfold login. rewrite (get_documents_found _ _ _ _ _ Hfind).
    rewrite Hpw, bool_decide_eq_false_2 by done.
    set (record := normalize {| Mongo._id := Mongo.next_oid s;
                                Mongo.body := User.dict user |}).
    assert (Hrh : record !! "hashed_password" = Some (VStr hashed))
      by (unfold record; rewrite normalize_field by done; exact Hhashed).
    assert (Hre : record !! "email" = Some (VStr (AuthPayload.email payload)))
      by (unfold record; rewrite normalize_field by done; exact Hmail).
    assert (Hri : record !! "id" = Some (VStr (Mongo.ObjectId_str (Mongo.next_oid s))))
      by apply normalize_id.
    rewrite Hrh. cbn [default from_option id]. by rewrite Hverify, Hri, Hre.
  - intros again token_hex' salt' t1 t2 Hsame. unfold register.
    by rewrite Hsame, (get_documents_found _ _ _ _ _ Hfind).
Qed.

(** X9. An account registered without a password, or with an empty one,
    is given the digest of a random secret, and the login of the same
    payload is refused with 400: such an account cannot be entered
    through [login]. *)
Theorem register_without_password_cannot_login
    (s : Mongo.db) (payload : AuthPayload.t) (token_hex salt hashed : string)
    (t_user t_token t_login : Z) :
  store_wf s →
  Mongo.find s "user" {["email" := VStr (AuthPayload.email payload)]} = [] →
  EmailStr (AuthPayload.email payload) = Some (AuthPayload.email payload) →
  AuthPayload.password payload = None ∨ AuthPayload.password payload = Some "" →
  pwd_hash salt token_hex = inr hashed →
  let registered :=
    register pwd_hash jwt_encode EmailStr s payload token_hex salt t_user t_token in
  registered.2
  = Return (token_of (Mongo.next_oid s) (AuthPayload.email payload) t_token)
  ∧ (∃ d, Mongo.find registered.1 "user" {["email" := VStr (AuthPayload.email payload)]}
          = [d]
          ∧ Mongo.body d !! "hashed_password" = Some (VStr hashed))
  ∧ login pwd_verify jwt_encode registered.1 t_login payload
    = HTTPException 400 "Invalid credentials".
Proof.
  intros Hwf Hnone Hemail Hpw Hhash registered.
  set (user := {| User.id := None; User.email := AuthPayload.email payload;
                  User.name := AuthPayload.name payload; User.provider := "email";
                  User.hashed_password := Some hashed; User.created_at := t_user |}).
  destruct (User_dict_fields user) as (Hmail & Hhashed & _ & _).
  assert (Hreg : registered
            = ((Mongo.insert_one s "user" (User.dict user)).1,
               Return (token_of (Mongo.next_oid s) (AuthPayload.email payload) t_token))).
  { apply register_fresh; try done. by destruct Hpw as [-> | ->]. }
  assert (Hfind : Mongo.find registered.1 "user"
                    {["email" := VStr (AuthPayload.email payload)]}
                  = [{| Mongo._id := Mongo.next_oid s; Mongo.body := User.dict user |}]).
  { rewrite Hreg. cbn [fst]. apply find_inserted_only; [done|].
    rewrite matches_singleton, as_dict_field by done. cbn [Mongo.body].
    rewrite Hmail. apply field_matches_same_string. }
  split; [by rewrite Hreg|]. split.
  - eexists. split; [exact Hfind|]. exact Hhashed.
  - unfold login. rewrite (get_documents_found _ _ _ _ _ Hfind).
    by destruct Hpw as [-> | ->].
Qed.

(** X10. [google_sso] asks for no credential: whenever a login with some
    password succeeds, the exchange of the bare address for a token
    succeeds too, at the same clock reading with the very same token, and
    it leaves the store as it is. *)
Theorem google_sso_needs_no_password
    (s : Mongo.db) (payload : AuthPayload.t) (tok : Token) (t_user now : Z) :
  login pwd_verify jwt_encode s now payload = Return tok →
  google_sso jwt_encode EmailStr s (AuthPayload.email payload) t_user now
  = (s, Return tok).
Proof.
  unfold login, google_sso. simpl.
  destruct (get_documents s "user" _ 1) as [|user others]; [done|].
  intros Hlogin. f_equal. unfold token_for.
  destruct (AuthPayload.password payload) as [pw|]; [|done].
  case_bool_decide; [done|].
  destruct (pwd_verify pw _) as [exn|[|]]; try done.
Qed.

(** X11. [google_sso] gets or creates. For an address no user has yet
    and that the schema keeps as it is, the first exchange adds one user,
    with provider ["google"] and no password digest, and returns a token
    for it; every later exchange of the same address finds that user,
    returns a token with the same [sub] and changes nothing. *)
Theorem google_sso_creates_once
    (s : Mongo.db) (id_token : string) (t_user t_token : Z) :
  store_wf s →
  Mongo.find s "user" {["email" := VStr id_token]} = [] →
  EmailStr id_token = Some id_token →
  let first := google_sso jwt_encode EmailStr s id_token t_user t_token in
  first.2 = Return (token_of (Mongo.next_oid s) id_token t_token)
  ∧ Mongo.collection first.1 "user"
    = Mongo.collection s "user"
        ++ [{| Mongo._id := Mongo.next_oid s;
               Mongo.body :=
                 User.dict
                   {| User.id := None; User.email := id_token; User.name := None;
                      User.provider := "google"; User.hashed_password := None;
                      User.created_at := t_user |} |}]
  ∧ (∀ t_user' t_token' : Z,
       google_sso jwt_encode EmailStr first.1 id_token t_user' t_token'
       = (first.1, Return (token_of (Mongo.next_oid s) id_token t_token'))).
Proof.
  intros Hwf Hnone Hemail first.
  set (user := {| User.id := None; User.email := id_token; User.name := None;
                  User.provider := "google"; User.hashed_password := None;
                  User.created_at := t_user |}).
  destruct (User_dict_fields user) as (Hmail & _ & _ & _).
  assert (Hfirst : first
            = ((Mongo.insert_one s "user" (User.dict user)).1,
               Return (token_of (Mongo.next_oid s) id_token t_token))).
  { unfold first, google_sso. cbn zeta.
    rewrite (get_documents_none _ _ _ _ Hnone), Hemail.
    rewrite create_document_fresh by done. f_equal. }
  assert (Hfind : Mongo.find first.1 "user" {["email" := VStr id_token]}
                  = [{| Mongo._id := Mongo.next_oid s; Mongo.body := User.dict user |}]).
  { rewrite Hfirst. cbn [fst]. apply find_inserted_only; [done|].
    rewrite matches_singleton, as_dict_field by done. cbn [Mongo.body].
    rewrite Hmail. apply field_matches_same_string. }
  split; [by rewrite Hfirst|]. split.
  - rewrite Hfirst. cbn [fst]. apply collection_insert_one.
  - intros t_user' t_token'. unfold google_sso. cbn zeta.
    rewrite (get_documents_found _ _ _ _ _ Hfind). f_equal.
Qed.

End AccountProperties.

Lemma register_then_login_witness :
  let registered :=
    register prefix_hash (λ _, "jwt") Some store_with_user
      (bob_payload (Some "tr0ub4dor")) "9f2c" "salt" 5 6 in
  length (Mongo.collection registered.1 "user") = 2%nat
  ∧ login prefix_verify (λ _, "jwt") registered.1 7 (bob_payload (Some "tr0ub4dor"))
    = Return {| access_token := "jwt"; token_type := "bearer" |}.
Proof.
  pose proof (register_then_login prefix_hash prefix_verify (λ _, "jwt") Some
                store_with_user (bob_payload (Some "tr0ub4dor"))
                "tr0ub4dor" "9f2c" "salt" "h:tr0ub4dor" 5 6 7
                store_with_user_wf eq_refl eq_refl eq_refl
                ltac:(discriminate) eq_refl eq_refl) as H.
  split; [exact (proj1 (proj2 H)) | exact (proj1 (proj2 (proj2 H)))].
Defined.

Lemma register_without_password_cannot_login_witness :
  login prefix_verify (λ _, "jwt")
    (register prefix_hash (λ _, "jwt") Some store_with_user
       (bob_payload None) "9f2c" "salt" 5 6).1
    7 (bob_payload None)
  = HTTPException 400 "Invalid credentials".
Proof.
  exact (proj2 (proj2
           (register_without_password_cannot_login prefix_hash prefix_verify
              (λ _, "jwt") Some store_with_user (bob_payload None)
              "9f2c" "salt" "h:9f2c" 5 6 7
              store_with_user_wf eq_refl eq_refl (or_introl eq_refl) eq_refl))).
Defined.

Lemma google_sso_needs_no_password_witness :
  google_sso (λ _, "jwt") Some store_with_user "ada@example.org" 5 10
  = (store_with_user, Return {| access_token := "jwt"; token_type := "bearer" |}).
Proof.
  exact (google_sso_needs_no_password prefix_verify (λ _, "jwt") Some
           store_with_user
           {| AuthPayload.email := "ada@example.org";
              AuthPayload.password := Some "correct horse";
              AuthPayload.name := None |}
           {| access_token := "jwt"; token_type := "bearer" |} 5 10 eq_refl).
Defined.

Lemma google_sso_creates_once_witness :
  let first := google_sso (λ _, "jwt") Some store_with_user "bob@example.org" 5 6 in
  length (Mongo.collection first.1 "user") = 2%nat
  ∧ google_sso (λ _, "jwt") Some first.1 "bob@example.org" 8 9
    = (first.1, Return {| access_token := "jwt"; token_type := "bearer" |}).
Proof.
  pose proof (google_sso_creates_once (λ _, "jwt") Some store_with_user
                "bob@example.org" 5 6 store_with_user_wf eq_refl eq_refl) as H.
  cbv zeta in H. destruct H as (_ & Hcollection & Hagain).
  split; [by rewrite Hcollection | exact (Hagain 8%Z 9%Z)].
Defined.

(** ** Projects *)

Lemma Project_dict_fields (p : Project.t) :
  Project.dict p !! "id" = Some (opt_field (Project.id p))
  ∧ Project.dict p !! "owner_id" = Some (VStr (Project.owner_id p))
  ∧ Project.dict p !! "created_at" = Some (VDate (Project.created_at p))
  ∧ Project.dict p !! "updated_at" = Some (VDate (Project.updated_at p))
  ∧ Project.dict p !! "_id" = None.
Proof. unfold Project.dict. by simplify_map_eq. Qed.

Lemma Project_dict_with_id (p : Project.t) (i : string) :
  <["id" := VStr i]> (Project.dict p) = Project.dict (Project_with_id p i).
Proof. unfold Project.dict. simpl. apply insert_insert_eq. Qed.

Lemma find_all (s : Mongo.db) (name : string) :
  Mongo.find s name ∅ = Mongo.collection s name.
Proof.
  unfold Mongo.find. induction (Mongo.collection s name) as [|d l IH]; [done|].
  simpl. by rewrite matches_empty, IH.
Qed.

Lemma length_limit {A : Type} (n : Z) (l : list A) :
  n ≠ 0%Z → (length (Mongo.limit n l) ≤ Z.abs_nat n)%nat.
Proof.
  intros Hn. unfold Mongo.limit. rewrite bool_decide_eq_false_2 by done.
  rewrite length_take. lia.
Qed.

Lemma optional_filter_owner (o : option string) (x : string) :
  o = Some x → x ≠ "" → optional_filter "owner_id" o = {["owner_id" := VStr x]}.
Proof. intros -> Hx. unfold optional_filter. by rewrite bool_decide_eq_false_2. Qed.

Section ProjectProperties.

Variable ProjectT : Type.
Variable Project_of : document → option ProjectT.
Variable MediaAssetT : Type.
Variable MediaAsset_of : document → option MediaAssetT.

(** X12. [create_project] stores the body with both timestamps set to
    the clock reading, whatever the body carried, and with the [id] field
    the body came with; what it hands to the [Project] constructor, and so
    what it answers with, is that record under the identifier the store
    assigned. One record is appended to the projects and the store stays
    well formed. *)
Theorem create_project_stamps_and_identifies
    (s : Mongo.db) (project : Project.t) (now : Z) :
  store_wf s →
  let created := create_project ProjectT Project_of s project now in
  let stamped := Project.stamp_created project now in
  created.2
  = constructed Project_of
      (Project.dict (Project_with_id stamped (Mongo.ObjectId_str (Mongo.next_oid s))))
  ∧ Mongo.collection created.1 "project"
    = Mongo.collection s "project"
        ++ [{| Mongo._id := Mongo.next_oid s; Mongo.body := Project.dict stamped |}]
  ∧ Project.dict stamped !! "id" = Some (opt_field (Project.id project))
  ∧ Project.dict stamped !! "created_at" = Some (VDate now)
  ∧ Project.dict stamped !! "updated_at" = Some (VDate now)
  ∧ store_wf created.1.
Proof.
  intros Hwf created stamped.
  destruct (Project_dict_fields stamped) as (Hid & _ & Hc & Hu & Hint).
  assert (Hcreated : created
            = ((Mongo.insert_one s "project" (Project.dict stamped)).1,
               constructed Project_of
                 (Project.dict
                    (Project_with_id stamped (Mongo.ObjectId_str (Mongo.next_oid s)))))).
  { unfold created, create_project. fold stamped.
    rewrite create_document_fresh by done.
    by rewrite delete_id, Project_dict_with_id. }
  rewrite Hcreated. cbn [fst snd].
  split; [done|]. split; [apply collection_insert_one|].
  split; [done|]. split; [done|]. split; [done|].
  by apply store_wf_insert_one.
Qed.

(** X13. [list_projects] builds its answer from at most a hundred
    stored projects. With an owner these are records whose [owner_id]
    satisfies the filter; without one, or with the empty string, they are
    the first hundred projects in insertion order. The answer has one
    entry per record, and a single record that the schema rejects fails
    the whole listing. *)
Theorem list_projects_reads_at_most_hundred (s : Mongo.db) (owner_id : option string) :
  ∃ docs : list document,
    list_projects ProjectT Project_of s owner_id = validate_all Project_of docs
    ∧ (length docs ≤ 100)%nat
    ∧ (∀ o, owner_id = Some o → o ≠ "" →
         Forall (λ r, Mongo.field_matches (VStr o) (r !! "owner_id") = true) docs)
    ∧ (owner_id = None ∨ owner_id = Some "" →
         docs = normalize <$> take 100 (Mongo.collection s "project"))
    ∧ (∀ l, list_projects ProjectT Project_of s owner_id = Return l →
         length l = length docs)
    ∧ (Exists (λ r, Project_of r = None) docs →
         list_projects ProjectT Project_of s owner_id = Raised "ValidationError").
Proof.
  exists (get_documents s "project" (Some (optional_filter "owner_id" owner_id))
            default_limit).
  assert (Hlist : list_projects ProjectT Project_of s owner_id
                  = validate_all Project_of
                      (get_documents s "project"
                         (Some (optional_filter "owner_id" owner_id)) default_limit))
    by done.
  split; [exact Hlist|]. split; [|split; [|split; [|split]]].
  - unfold get_documents. rewrite length_fmap.
    apply (length_limit default_limit). done.
  - intros o -> Ho. apply Forall_forall. intros r Hr.
    rewrite (optional_filter_owner _ o eq_refl Ho) in Hr.
    unfold get_documents in Hr. simpl in Hr.
    apply list_elem_of_fmap in Hr as (d & -> & Hd).
    apply elem_of_limit in Hd. unfold Mongo.find in Hd.
    apply list_elem_of_In, filter_In in Hd as [_ Hm].
    rewrite matches_singleton, as_dict_field in Hm by done.
    by rewrite normalize_field.
  - intros Hnone.
    assert (Hq : optional_filter "owner_id" owner_id = ∅)
      by (by destruct Hnone as [-> | ->]).
    rewrite Hq. unfold get_documents. simpl. by rewrite find_all.
  - intros l. rewrite Hlist. unfold validate_all.
    destruct (mapM Project_of _) as [k|] eqn:Hk; [|done].
    intros [= <-]. symmetry. by apply length_mapM with Project_of.
  - intros Hbad. rewrite Hlist. unfold validate_all.
    by rewrite (mapM_None_2 _ _ Hbad).
Qed.

End ProjectProperties.

Lemma get_documents_field (s : Mongo.db) (name : string) (q : Mongo.query) (lim : Z)
    (r : document) (k : string) (v : value) :
  r ∈ get_documents s name (Some q) lim →
  q !! k = Some v → k ≠ "id" → k ≠ "_id" →
  Mongo.field_matches v (r !! k) = true.
Proof.
  unfold get_documents. simpl. intros Hr Hk Hid Hint.
  apply list_elem_of_fmap in Hr as (d & -> & Hd).
  apply elem_of_limit in Hd. unfold Mongo.find in Hd.
  apply list_elem_of_In, filter_In in Hd as [_ Hm].
  rewrite normalize_field by done. rewrite <- as_dict_field by done.
  by apply matches_field with q.
Qed.

(** Every [project.dict()] has the same keys. *)
Lemma Project_dict_dom (p p' : Project.t) : dom (Project.dict p) = dom (Project.dict p').
Proof. unfold Project.dict. by rewrite !dom_insert_L. Qed.

Lemma update_document_first_match
    (s : Mongo.db) (name : string) (q : Mongo.query) (data : document)
    (before after : list Mongo.stored) (d : Mongo.stored) :
  Mongo.collection s name = before ++ d :: after →
  Forall (λ x, Mongo.matches q (Mongo.as_dict x) = false) before →
  Mongo.matches q (Mongo.as_dict d) = true →
  Mongo.matches q
    (Mongo.as_dict {| Mongo._id := Mongo._id d; Mongo.body := data ∪ Mongo.body d |})
  = true →
  Mongo.collection (update_document s name q data).1 name
  = before ++ {| Mongo._id := Mongo._id d; Mongo.body := data ∪ Mongo.body d |} :: after
  ∧ (update_document s name q data).2
    = Some (normalize {| Mongo._id := Mongo._id d; Mongo.body := data ∪ Mongo.body d |}).
Proof.
  intros Hcoll Hbefore Hd Hmerged.
  assert (Hnew : Mongo.collection (update_document s name q data).1 name
                 = before
                     ++ {| Mongo._id := Mongo._id d; Mongo.body := data ∪ Mongo.body d |}
                     :: after).
  { unfold update_document. cbn [fst].
    rewrite collection_update_one, Hcoll, set_first_unmatched by done.
    simpl. by rewrite Hd. }
  split; [exact Hnew|].
  unfold update_document in *. cbn [fst snd] in *.
  unfold get_document, Mongo.find_one, Mongo.find.
  rewrite Hnew, (filter_app_unmatched _ before _ Hbefore).
  cbn [List.filter]. rewrite Hmerged. done.
Qed.

(** X14. [update_project] is a replacement, not a partial update. When
    the body carries the identifier of the path and a project with that
    stored [id] exists, the first such record takes every field of the
    body: owner, creation time and the rest are overwritten with the
    body's, [updated_at] is the clock reading, and only fields outside the
    schema survive from the stored record. The answer is the merged record
    under the identifier of the store. *)
Theorem update_project_replaces_fields
    (ProjectT : Type) (Project_of : document → option ProjectT)
    (s : Mongo.db) (project_id : string) (project : Project.t) (now : Z)
    (before after : list Mongo.stored) (d : Mongo.stored) :
  Mongo.collection s "project" = before ++ d :: after →
  Forall (λ x, Mongo.matches {["id" := VStr project_id]} (Mongo.as_dict x) = false) before →
  Mongo.body d !! "id" = Some (VStr project_id) →
  Project.id project = Some project_id →
  let updated := update_project ProjectT Project_of s project_id project now in
  let merged :=
    {| Mongo._id := Mongo._id d;
       Mongo.body := Project.dict (Project.stamp_updated project now) ∪ Mongo.body d |} in
  Mongo.collection updated.1 "project" = before ++ merged :: after
  ∧ updated.2 = constructed Project_of (normalize merged)
  ∧ normalize merged !! "id" = Some (VStr (Mongo.ObjectId_str (Mongo._id d)))
  ∧ normalize merged !! "updated_at" = Some (VDate now)
  ∧ normalize merged !! "created_at" = Some (VDate (Project.created_at project))
  ∧ normalize merged !! "owner_id" = Some (VStr (Project.owner_id project))
  ∧ (∀ k, Project.dict project !! k = None → k ≠ "_id" →
          normalize merged !! k = Mongo.body d !! k).
Proof.
  intros Hcoll Hbefore Hid Hbody updated merged.
  set (stamped := Project.stamp_updated project now) in *.
  destruct (Project_dict_fields stamped) as (Hsid & Hso & Hsc & Hsu & _).
  assert (Hd : Mongo.matches {["id" := VStr project_id]} (Mongo.as_dict d) = true).
  { rewrite matches_singleton, as_dict_field, Hid by done.
    apply field_matches_same_string. }
  assert (Hm : Mongo.matches {["id" := VStr project_id]} (Mongo.as_dict merged) = true).
  { rewrite matches_singleton, as_dict_field by done. cbn [merged Mongo.body].
    rewrite (lookup_union_Some_l _ _ _ _ Hsid). cbn [stamped Project.stamp_updated Project.id].
    rewrite Hbody. apply field_matches_same_string. }
  destruct (update_document_first_match s "project" {["id" := VStr project_id]}
              (Project.dict stamped) before after d Hcoll Hbefore Hd Hm) as [Hnew Hret].
  assert (Hupdated : updated
            = ((update_document s "project" {["id" := VStr project_id]}
                  (Project.dict stamped)).1,
               constructed Project_of (normalize merged))).
  { unfold updated, update_project. fold stamped.
    destruct (update_document s "project" _ (Project.dict stamped)) as [s' r].
    cbn [fst snd] in *. by rewrite Hret. }
  rewrite Hupdated. cbn [fst snd].
  split; [exact Hnew|]. split; [done|]. split; [exact (normalize_id merged)|].
  split; [|split; [|split]].
  - rewrite normalize_field by done. cbn [merged Mongo.body].
    by rewrite (lookup_union_Some_l _ _ _ _ Hsu).
  - rewrite normalize_field by done. cbn [merged Mongo.body].
    by rewrite (lookup_union_Some_l _ _ _ _ Hsc).
  - rewrite normalize_field by done. cbn [merged Mongo.body].
    by rewrite (lookup_union_Some_l _ _ _ _ Hso).
  - intros k Hk Hint.
    assert (Hkid : k ≠ "id").
    { intros ->. destruct (Project_dict_fields project) as (Hpid & _). by rewrite Hpid in Hk. }
    rewrite normalize_field by done. cbn [merged Mongo.body].
    apply lookup_union_r. apply not_elem_of_dom.
    rewrite (Project_dict_dom stamped project). by apply not_elem_of_dom.
Qed.

Lemma delete_document_effect (s : Mongo.db) (name : string) (q : Mongo.query) :
  Mongo.find (delete_document s name q).1 name q = tail (Mongo.find s name q)
  ∧ (delete_document s name q).2
    = (if Mongo.find s name q is [] then false else true)
  ∧ (∀ other, other ≠ name →
       Mongo.collection (delete_document s name q).1 other = Mongo.collection s other).
Proof.
  unfold delete_document, Mongo.delete_one.
  destruct (remove_first_spec q (Mongo.collection s name)) as (H1 & _ & H3 & _).
  destruct (Mongo.remove_first q (Mongo.collection s name)) as [l n].
  cbn [fst snd] in *. split; [|split].
  - unfold Mongo.find at 1. by rewrite collection_with_collection.
  - subst n. unfold Mongo.find.
    by destruct (List.filter _ (Mongo.collection s name)).
  - intros other Hne. by apply collection_with_collection_other.
Qed.

(** X15. Deleting a project does not cascade. When exactly one project
    carries the identifier in its [id] field, [delete_project] reports
    success and removes it, and every other collection, the share links
    among them, is left as it was: a link that resolved to the project
    before is still found by its token afterwards, and its lookup now ends
    in 404 "Project not found". *)
Theorem delete_project_leaves_links_dangling
    (ProjectT : Type) (Project_of : document → option ProjectT)
    (s : Mongo.db) (project_id token : string) (d link : Mongo.stored)
    (earlier later : list Mongo.stored) :
  Mongo.find s "project" {["id" := VStr project_id]} = [d] →
  Mongo.collection s "sharelink" = earlier ++ link :: later →
  Forall (λ x, Mongo.matches {["token" := VStr token]} (Mongo.as_dict x) = false) earlier →
  Mongo.body link !! "token" = Some (VStr token) →
  Mongo.body link !! "project_id" = Some (VStr project_id) →
  let deleted := delete_project s project_id in
  success deleted.2 = true
  ∧ (∀ other, other ≠ "project" →
       Mongo.collection deleted.1 other = Mongo.collection s other)
  ∧ get_shared_project ProjectT Project_of s token
    = constructed Project_of (normalize d)
  ∧ get_project ProjectT Project_of deleted.1 project_id
    = HTTPException 404 "Project not found"
  ∧ get_shared_project ProjectT Project_of deleted.1 token
    = HTTPException 404 "Project not found".
Proof.
  intros Hone Hlinks Hearlier Htoken Hpid deleted.
  destruct (delete_document_effect s "project" {["id" := VStr project_id]})
    as (Hfind & Hflag & Hframe).
  assert (Hdel : deleted
            = ((delete_document s "project" {["id" := VStr project_id]}).1,
               {| success := (delete_document s "project" {["id" := VStr project_id]}).2 |})).
  { unfold deleted, delete_project. by destruct (delete_document s "project" _). }
  rewrite Hone in Hfind, Hflag. cbn [tail] in Hfind.
  assert (Hgone : get_document deleted.1 "project" {["id" := VStr project_id]} = None).
  { rewrite Hdel. cbn [fst]. unfold get_document, Mongo.find_one. by rewrite Hfind. }
  rewrite Hdel. cbn [fst snd success].
  split; [exact Hflag|]. split; [exact Hframe|]. split; [|split].
  - rewrite (get_shared_project_first_link ProjectT Project_of s token earlier later
               link (VStr project_id)) by done.
    unfold shared_project_answer, get_document, Mongo.find_one. by rewrite Hone.
  - rewrite Hdel in Hgone. cbn [fst] in Hgone. unfold get_project. by rewrite Hgone.
  - rewrite (get_shared_project_first_link ProjectT Project_of _ token earlier later
               link (VStr project_id)); try done.
    + rewrite Hdel in Hgone. cbn [fst] in Hgone.
      unfold shared_project_answer. by rewrite Hgone.
    + by rewrite Hframe.
Qed.

Lemma delete_project_leaves_links_dangling_witness :
  get_shared_project document Some shared_store "Zq3kT0a9"
  = Return (normalize storyboard_p1)
  ∧ Mongo.collection (delete_project shared_store "p1").1 "sharelink"
    = Mongo.collection shared_store "sharelink"
  ∧ get_shared_project document Some (delete_project shared_store "p1").1 "Zq3kT0a9"
    = HTTPException 404 "Project not found".
Proof.
  pose proof (delete_project_leaves_links_dangling document Some shared_store
                "p1" "Zq3kT0a9" storyboard_p1
                {| Mongo._id := 9;
                   Mongo.body :=
                     <["project_id" := VStr "p1"]> (<["token" := VStr "Zq3kT0a9"]> ∅) |}
                [] [] eq_refl eq_refl (List.Forall_nil _) eq_refl eq_refl) as H.
  cbv zeta in H. destruct H as (_ & Hframe & Hbefore & _ & Hafter).
  split; [exact Hbefore|]. split; [|exact Hafter].
  apply Hframe. discriminate.
Defined.

Lemma create_project_stamps_and_identifies_witness :
  let created := create_project document Some storyboard_store launch_project 50 in
  created.2
  = Return (Project.dict
              (Project_with_id (Project.stamp_created launch_project 50)
                 (Mongo.ObjectId_str 8)))
  ∧ length (Mongo.collection created.1 "project") = 2%nat.
Proof.
  pose proof (create_project_stamps_and_identifies document Some storyboard_store
                launch_project 50 storyboard_store_wf) as H.
  cbv zeta in H. destruct H as (Hanswer & Hcollection & _).
  split; [exact Hanswer | by rewrite Hcollection].
Defined.

Lemma update_project_replaces_fields_witness :
  let updated := update_project document Some storyboard_store "p1" launch_project 60 in
  let merged :=
    {| Mongo._id := 7;
       Mongo.body :=
         Project.dict (Project.stamp_updated launch_project 60)
         ∪ Mongo.body storyboard_p1 |} in
  Mongo.collection updated.1 "project" = [merged]
  ∧ updated.2 = Return (normalize merged)
  ∧ normalize merged !! "created_at" = Some (VDate 40)
  ∧ normalize merged !! "owner_id" = Some (VStr "u2").
Proof.
  pose proof (update_project_replaces_fields document Some storyboard_store "p1"
                launch_project 60 [] [] storyboard_p1
                eq_refl (List.Forall_nil _) eq_refl eq_refl) as H.
  cbv zeta in H. destruct H as (Hcollection & Hanswer & _ & _ & Hcreated & Howner & _).
  split; [exact Hcollection|]. split; [exact Hanswer|].
  split; [exact Hcreated | exact Howner].
Defined.

Lemma matches_spec (q : Mongo.query) (d : document) :
  Mongo.matches q d = true
  ↔ ∀ k v, q !! k = Some v → Mongo.field_matches v (d !! k) = true.
Proof.
  unfold Mongo.matches. rewrite forallb_forall. split.
  - intros Hall k v Hk. apply elem_of_map_to_list, list_elem_of_In in Hk.
    exact (Hall (k, v) Hk).
  - intros Hall [k v] Hk. apply list_elem_of_In, elem_of_map_to_list in Hk.
    exact (Hall k v Hk).
Qed.

(** A query with one more field asks for that field and for the rest. *)
Lemma matches_insert (q : Mongo.query) (k : string) (operand : value) (d : document) :
  q !! k = None →
  Mongo.matches (<[k := operand]> q) d
  = Mongo.field_matches operand (d !! k) && Mongo.matches q d.
Proof.
  intros Hk. apply Bool.eq_true_iff_eq.
  rewrite andb_true_iff, !matches_spec. split.
  - intros Hall. split.
    + apply Hall. apply lookup_insert_eq.
    + intros k' v Hk'. apply Hall. rewrite lookup_insert_ne; [done|].
      intros <-. by rewrite Hk in Hk'.
  - intros [Hone Hall] k' v Hk'. apply lookup_insert_Some in Hk' as [[<- <-]|[_ Hk']].
    + exact Hone.
    + by apply Hall.
Qed.

(** X16. [list_media] applies exactly the filters it is given. The
    answer is built from the first hundred, in insertion order, of the
    stored assets that pass both optional parameters: an owner or a
    project that is absent or empty adds no condition, and each one that
    is given must be the value of the asset's field. So every record the
    answer is built from satisfies each given filter, and with no filter
    given it is built from the first hundred assets. *)
Theorem list_media_applies_given_filters
    (MediaAssetT : Type) (MediaAsset_of : document → option MediaAssetT)
    (s : Mongo.db) (owner_id project_id : option string) :
  ∃ docs : list document,
    list_media MediaAssetT MediaAsset_of s owner_id project_id
    = validate_all MediaAsset_of docs
    ∧ docs
      = normalize
        <$> take 100
              (List.filter
                 (λ d, passes_optional "owner_id" owner_id d
                       && passes_optional "project_id" project_id d)
                 (Mongo.collection s "mediaasset"))
    ∧ (length docs ≤ 100)%nat
    ∧ (∀ o, owner_id = Some o → o ≠ "" →
         Forall (λ r, Mongo.field_matches (VStr o) (r !! "owner_id") = true) docs)
    ∧ (∀ p, project_id = Some p → p ≠ "" →
         Forall (λ r, Mongo.field_matches (VStr p) (r !! "project_id") = true) docs)
    ∧ ((owner_id = None ∨ owner_id = Some "") →
       (project_id = None ∨ project_id = Some "") →
       docs = normalize <$> take 100 (Mongo.collection s "mediaasset")).
Proof.
  unfold list_media.
  set (q := match project_id with
            | Some p => if bool_decide (p = "") then _ else _
            | None => _
            end).
  exists (get_documents s "mediaasset" (Some q) default_limit).
  split; [done|]. split; [|split; [|split; [|split]]].
  - unfold get_documents, Mongo.limit, Mongo.find. simpl. f_equal. f_equal.
    apply List.filter_ext. intros d. unfold q, passes_optional.
    destruct owner_id as [o|], project_id as [p|];
      repeat case_bool_decide;
      rewrite ?matches_insert, ?matches_empty, ?as_dict_field, ?andb_true_r
        by (by simplify_map_eq);
      try done.
    apply andb_comm.
  - unfold get_documents. rewrite length_fmap.
    apply (length_limit default_limit). done.
  - intros o -> Ho. apply Forall_forall. intros r Hr.
    apply (get_documents_field _ _ _ _ _ "owner_id" (VStr o)) in Hr; [done| |done|done].
    unfold q. rewrite bool_decide_eq_false_2 by done.
    destruct project_id as [p|]; [case_bool_decide|]; by simplify_map_eq.
  - intros p -> Hp. apply Forall_forall. intros r Hr.
    apply (get_documents_field _ _ _ _ _ "project_id" (VStr p)) in Hr; [done| |done|done].
    unfold q. rewrite bool_decide_eq_false_2 by done. by simplify_map_eq.
  - intros Ho Hp.
    assert (Hq : q = ∅).
    { unfold q. by destruct Ho as [-> | ->], Hp as [-> | ->]. }
    rewrite Hq. unfold get_documents. simpl. by rewrite find_all.
Qed.

(** ** Share links *)

(** X17. [create_share_link] with a role that is neither ['viewer'] nor
    ['editor'] raises a validation error and stores nothing. With a valid
    role, on a well-formed store, it appends one link and answers with the
    link it built under the identifier the store assigned. *)
Theorem create_share_link_validates_role
    (ShareLink_of : document → option ShareLink.t)
    (s : Mongo.db) (project_id role token : string) (t_created t_now : Z) :
  store_wf s →
  let created := create_share_link ShareLink_of s project_id role token t_created t_now in
  let link (i : option string) :=
    {| ShareLink.id := i; ShareLink.project_id := project_id;
       ShareLink.token := token; ShareLink.role := role;
       ShareLink.created_at := t_created;
       ShareLink.expires_at := Some (t_now + days 14)%Z |} in
  (role ∉ ShareLink.roles → created = (s, Raised "ValidationError"))
  ∧ (role ∈ ShareLink.roles →
     created.2
     = constructed ShareLink_of
         (ShareLink.dict (link (Some (Mongo.ObjectId_str (Mongo.next_oid s)))))
     ∧ Mongo.collection created.1 "sharelink"
       = Mongo.collection s "sharelink"
           ++ [{| Mongo._id := Mongo.next_oid s;
                  Mongo.body := ShareLink.dict (link None) |}]).
Proof.
  intros Hwf created link. split.
  - intros Hrole. unfold created, create_share_link.
    by rewrite bool_decide_eq_false_2.
  - intros Hrole. unfold created, create_share_link.
    rewrite bool_decide_eq_true_2 by done.
    rewrite create_document_fresh by done. cbn [fst snd]. split.
    + reflexivity.
    + apply collection_insert_one.
Qed.

Lemma create_share_link_validates_role_witness :
  create_share_link (λ _, None) storyboard_store "p1" "owner" "Zq3kT0a9" 1000 1001
  = (storyboard_store, Raised "ValidationError").
Proof.
  apply (create_share_link_validates_role (λ _, None) storyboard_store
           "p1" "owner" "Zq3kT0a9" 1000 1001 storyboard_store_wf).
  unfold ShareLink.roles. rewrite !not_elem_of_cons.
  repeat split; [discriminate..|apply not_elem_of_nil].
Defined.

(** ** More on export *)

Lemma string_length_app (s t : string) :
  String.length (s +:+ t) = (String.length s + String.length t)%nat.
Proof. induction s as [|a s IH]; simpl; [done|]. by rewrite IH. Qed.

Lemma string_app_inj_r (s1 s2 t : string) : s1 +:+ t = s2 +:+ t → s1 = s2.
Proof.
  revert s2. induction s1 as [|a s1 IH]; intros [|b s2] H.
  - done.
  - apply (f_equal String.length) in H.
    rewrite (string_length_app "" t), (string_length_app (String b s2) t) in H.
    simpl in H. lia.
  - apply (f_equal String.length) in H.
    rewrite (string_length_app "" t), (string_length_app (String a s1) t) in H.
    simpl in H. lia.
  - injection H as -> H. f_equal. by apply IH.
Qed.

Lemma slide_name_inj : Inj eq eq slide_name.
Proof.
  intros n m H. unfold slide_name in H.
  apply String.app_inj, string_app_inj_r in H. by apply pretty_nat_inj in H.
Qed.

(** What the loops iterate over is never empty: the stored slides when
    they are truthy, the single empty slide otherwise. *)
Lemma py_iter_slides_nonempty (v : value) (l : list value) :
  py_iter (py_or v (VList [VDict []])) = inr l → l ≠ [].
Proof.
  unfold py_or. destruct (truthy v) eqn:Hv; [|by intros [= <-]].
  destruct v as [|s|oid|t|vs|d]; simpl in *; try done.
  - intros [= <-]. by destruct s.
  - intros [= <-]. by destruct vs.
  - intros [= <-]. by destruct d.
Qed.

Lemma images_loop_length (lib : rendering) (l : list value) (idx : nat)
    (entries : list (string * Image)) :
  images_loop lib idx l = inr entries → length entries = length l.
Proof.
  intros H. apply images_loop_names in H.
  apply (f_equal length) in H. by rewrite !length_fmap, length_seq in H.
Qed.

(** X18. The slide-deck export of a project whose slides are
    dictionaries that the slide-deck library takes has one page per
    slide, in the order of the project's slide list: the page at position
    [i + 1] carries the text of the slide at index [i], or "Slide" and
    the position when the slide has none; a project without slides gets
    exactly one page, with the text "Slide 1". *)
Theorem pptx_export_one_page_per_slide
    (lib : rendering) (s : Mongo.db) (pid : string) (proj : document)
    (ds : list (list (string * value))) :
  get_document s "project" {["id" := VStr pid]} = Some proj →
  has_slides proj ds →
  pages_render lib ds →
  ∃ (resp : StreamingResponse) (pages : list deck_slide),
    export_storyboard lib s
      {| SlideExportRequest.project_id := pid; SlideExportRequest.format := "pptx" |}
    = Return resp
    ∧ content resp = Presentation pages
    ∧ length pages = match length ds with O => 1%nat | S _ => length ds end
    ∧ (∀ i d, ds !! i = Some d →
         pages !! i
         = Some {| layout := 5; textbox := (1, 1, 8, 5)%Z;
                   text_frame :=
                     dict_get d "text" (VStr ("Slide " +:+ pretty (S i))) |})
    ∧ (ds = [] →
       pages = [{| layout := 5; textbox := (1, 1, 8, 5)%Z;
                   text_frame := VStr "Slide 1" |}]).
Proof.
  intros Hproj Hslides Hlib.
  exists (pptx_response (imap (λ i, page_entry (S i)) (slides_or_default ds))),
         (imap (λ i, page_entry (S i)) (slides_or_default ds)).
  split; [apply (export_pptx lib s pid proj ds Hproj Hslides Hlib)|].
  split; [reflexivity|].
  split; [|split].
  - rewrite length_imap. by destruct ds.
  - intros i d Hd. rewrite list_lookup_imap.
    by rewrite (slides_or_default_lookup _ _ _ Hd).
  - by intros ->.
Qed.

Lemma pptx_export_one_page_per_slide_witness :
  ∃ (resp : StreamingResponse) (pages : list deck_slide),
    export_storyboard scenario_rendering storyboard_store
      {| SlideExportRequest.project_id := "p1"; SlideExportRequest.format := "pptx" |}
    = Return resp
    ∧ content resp = Presentation pages
    ∧ length pages = 2%nat.
Proof.
  destruct (pptx_export_one_page_per_slide scenario_rendering storyboard_store "p1"
              (normalize storyboard_p1)
              [[("text", VStr "Welcome")]; [("bg", VStr "#ff0000")]]
              storyboard_p1_found storyboard_p1_slides storyboard_p1_pages_render)
    as (resp & pages & Hexport & Hcontent & Hlength & _).
  exists resp, pages. by repeat split.
Defined.

(** X19. Whenever the images export returns, whatever the stored slides
    are and whatever the imaging library takes, the archive it returns is
    not empty and its entries are named [slide_1.png], [slide_2.png] and
    so on in order; the names are pairwise distinct, so no slide's image
    is shadowed by another's in the archive. *)
Theorem images_export_names_distinct
    (lib : rendering) (s : Mongo.db) (pid : string)
    (resp : StreamingResponse) (entries : list (string * Image)) :
  export_storyboard lib s
    {| SlideExportRequest.project_id := pid; SlideExportRequest.format := "images" |}
  = Return resp →
  content resp = ZipFile entries →
  entries ≠ []
  ∧ entries.*1 = slide_name <$> seq 1 (length entries)
  ∧ NoDup entries.*1.
Proof.
  unfold export_storyboard. cbn [SlideExportRequest.project_id SlideExportRequest.format].
  destruct (get_document s "project" _) as [proj|]; [|done].
  cbn zeta. rewrite bool_decide_eq_true_2 by done.
  destruct (py_iter _) as [exn|l] eqn:Hiter; [done|].
  destruct (images_loop lib 1 l) as [exn|es] eqn:Hloop; [done|].
  intros [= <-]. cbn [content zip_response]. intros [= <-].
  pose proof (images_loop_length _ _ _ _ Hloop) as Hlen.
  pose proof (images_loop_names _ _ _ _ Hloop) as Hnames.
  apply py_iter_slides_nonempty in Hiter.
  split; [|split].
  - intros ->. by destruct l.
  - by rewrite Hlen.
  - rewrite Hnames.
    apply (NoDup_fmap_2 _ (Inj0 := slide_name_inj)), NoDup_seq.
Qed.

Lemma images_export_names_distinct_witness :
  ∃ (resp : StreamingResponse) (entries : list (string * Image)),
    export_storyboard scenario_rendering storyboard_store
      {| SlideExportRequest.project_id := "p1"; SlideExportRequest.format := "images" |}
    = Return resp
    ∧ content resp = ZipFile entries
    ∧ entries ≠ []
    ∧ entries.*1 = slide_name <$> seq 1 (length entries)
    ∧ NoDup entries.*1.
Proof.
  pose (entries := imap (λ i, image_entry (S i))
                    [[("text", VStr "Welcome")]; [("bg", VStr "#ff0000")]]).
  assert (Hexport :
    export_storyboard scenario_rendering storyboard_store
      {| SlideExportRequest.project_id := "p1"; SlideExportRequest.format := "images" |}
    = Return (zip_response entries)) by (vm_compute; reflexivity).
  exists (zip_response entries), entries.
  split; [exact Hexport|]. split; [reflexivity|].
  exact (images_export_names_distinct scenario_rendering storyboard_store "p1"
           (zip_response entries) entries Hexport eq_refl).
Defined.

(** X20. A stored slide list with an element that is not a dictionary
    fails the export on both paths, wherever the element stands and
    whatever the libraries take: the loop raises and no artifact, not
    even a partial one, is returned. When the slides before that element
    are dictionaries that the library of the path takes, they are
    rendered in vain and the exception is the [AttributeError] of the
    element's missing [get]; otherwise it is the one an earlier slide
    raised. *)
Theorem export_raises_on_slide_that_is_no_dict
    (lib : rendering) (s : Mongo.db) (pid : string) (proj : document)
    (l1 l2 : list value) (v : value) :
  get_document s "project" {["id" := VStr pid]} = Some proj →
  proj !! "slides" = Some (VList (l1 ++ v :: l2)) →
  (∀ d, v ≠ VDict d) →
  (∃ exn,
     export_storyboard lib s
       {| SlideExportRequest.project_id := pid; SlideExportRequest.format := "images" |}
     = Raised exn)
  ∧ (∃ exn,
       export_storyboard lib s
         {| SlideExportRequest.project_id := pid; SlideExportRequest.format := "pptx" |}
       = Raised exn)
  ∧ (∀ ds, l1 = VDict <$> ds →
       ((∀ i d, ds !! i = Some d → image_renders lib (S i) d) →
        export_storyboard lib s
          {| SlideExportRequest.project_id := pid; SlideExportRequest.format := "images" |}
        = Raised "AttributeError")
       ∧ ((∀ i d, ds !! i = Some d → page_renders lib (S i) d) →
          export_storyboard lib s
            {| SlideExportRequest.project_id := pid; SlideExportRequest.format := "pptx" |}
          = Raised "AttributeError")).
Proof.
  intros Hproj Hslides Hv.
  assert (Hor : py_or (VList (l1 ++ v :: l2)) (VList [VDict []]) = VList (l1 ++ v :: l2)).
  { unfold py_or. simpl. rewrite length_app. simpl.
    rewrite bool_decide_eq_false_2; [done|lia]. }
  unfold export_storyboard. cbn [SlideExportRequest.project_id SlideExportRequest.format].
  rewrite Hproj, Hslides. cbn [default from_option id]. rewrite Hor. simpl.
  split; [|split].
  - destruct (images_loop_raises lib l1 l2 v 1 Hv) as [exn ->]. eauto.
  - destruct (pages_loop_raises lib l1 l2 v 1 Hv) as [exn ->]. eauto.
  - intros ds ->. split; intros Hlib.
    + by rewrite images_loop_not_dict.
    + by rewrite pages_loop_not_dict.
Qed.

Lemma export_raises_on_slide_that_is_no_dict_witness :
  export_storyboard scenario_rendering unrenderable_store
    {| SlideExportRequest.project_id := "p3"; SlideExportRequest.format := "images" |}
  = Raised "AttributeError"
  ∧ export_storyboard scenario_rendering unrenderable_store
      {| SlideExportRequest.project_id := "p3"; SlideExportRequest.format := "pptx" |}
    = Raised "AttributeError".
Proof.
  destruct (export_raises_on_slide_that_is_no_dict scenario_rendering
              unrenderable_store "p3"
              (normalize
                 {| Mongo._id := 12;
                    Mongo.body :=
                      <["id" := VStr "p3"]>
                      (<["slides" := VList [VDict [("bg", VStr "#ff0000")];
                                            VStr "intro"]]> ∅) |})
              [VDict [("bg", VStr "#ff0000")]] [] (VStr "intro"))
    as (_ & _ & Hattr); [reflexivity|reflexivity|discriminate|].
  destruct (Hattr [[("bg", VStr "#ff0000")]] eq_refl) as [Himages Hpptx].
  split.
  - apply Himages. intros i d. destruct i as [|i]; simpl; intros [= <-].
    split; reflexivity.
  - apply Hpptx. intros i d. destruct i as [|i]; simpl; intros [= <-].
    reflexivity.
Defined.

(** X21. A project whose [slides] field is missing, [None], or an empty
    string, list or dictionary is exported as one default slide on both
    paths, given that the libraries take the defaults: the archive has
    the single entry [slide_1.png], a dark background with the white text
    "Slide 1", and the presentation a single page with the text
    "Slide 1". *)
Theorem export_without_slides_renders_one_default
    (lib : rendering) (s : Mongo.db) (pid : string) (proj : document) :
  get_document s "project" {["id" := VStr pid]} = Some proj →
  truthy (default (VList []) (proj !! "slides")) = false →
  (Image_new lib (VStr "#111827") = None →
   ImageDraw_text lib (VStr "Slide 1") (VStr "#ffffff") = None →
   ∃ resp,
     export_storyboard lib s
       {| SlideExportRequest.project_id := pid; SlideExportRequest.format := "images" |}
     = Return resp
     ∧ content resp
       = ZipFile
           [("slide_1.png",
             {| mode := "RGB"; size := (1080, 1920)%Z; color := VStr "#111827";
                drawn := [{| xy := (50, 50)%Z; text := VStr "Slide 1";
                             fill := VStr "#ffffff" |}] |})])
  ∧ (text_frame_set lib (VStr "Slide 1") = None →
     ∃ resp,
       export_storyboard lib s
         {| SlideExportRequest.project_id := pid; SlideExportRequest.format := "pptx" |}
       = Return resp
       ∧ content resp
         = Presentation
             [{| layout := 5; textbox := (1, 1, 8, 5)%Z; text_frame := VStr "Slide 1" |}]).
Proof.
  intros Hproj Hfalsy.
  unfold export_storyboard. cbn [SlideExportRequest.project_id SlideExportRequest.format].
  rewrite Hproj. cbn zeta. unfold py_or. rewrite Hfalsy.
  rewrite bool_decide_eq_true_2 by done.
  rewrite (bool_decide_eq_false_2 ("pptx" = "images")) by done.
  rewrite bool_decide_eq_true_2 by done.
  cbn [py_iter images_loop pages_loop]. split.
  - intros Himg Htxt.
    rewrite (slide_image_dict lib 1 []) by (split; [exact Himg|exact Htxt]).
    eexists. split; reflexivity.
  - intros Htxt.
    rewrite (slide_page_dict lib 1 []) by exact Htxt.
    eexists. split; reflexivity.
Qed.

Lemma export_without_slides_renders_one_default_witness :
  (∃ resp,
     export_storyboard scenario_rendering store_with_p1
       {| SlideExportRequest.project_id := "p1"; SlideExportRequest.format := "images" |}
     = Return resp
     ∧ content resp
       = ZipFile
           [("slide_1.png",
             {| mode := "RGB"; size := (1080, 1920)%Z; color := VStr "#111827";
                drawn := [{| xy := (50, 50)%Z; text := VStr "Slide 1";
                             fill := VStr "#ffffff" |}] |})])
  ∧ (∃ resp,
       export_storyboard scenario_rendering store_with_p1
         {| SlideExportRequest.project_id := "p1"; SlideExportRequest.format := "pptx" |}
       = Return resp
       ∧ content resp
         = Presentation
             [{| layout := 5; textbox := (1, 1, 8, 5)%Z; text_frame := VStr "Slide 1" |}]).
Proof.
  destruct (export_without_slides_renders_one_default scenario_rendering
              store_with_p1 "p1"
              (normalize
                 {| Mongo._id := 7;
                    Mongo.body :=
                      <["id" := VStr "p1"]>
                      (<["owner_id" := VStr "u1"]>
                      (<["title" := VStr "Old"]> ∅)) |})
              eq_refl eq_refl) as [Himages Hpptx].
  split.
  - exact (Himages eq_refl eq_refl).
  - exact (Hpptx eq_refl).
Defined.

(** ** Login reads one user *)

(** X22. [login] looks at the first stored user with the address and at
    no other: its outcome is the one it would have if that user were the
    only one in the collection. When two accounts share an address, the
    password of the later one does not log in. *)
Theorem login_checks_first_user_only
    (pwd_verify : string → value → string + bool) (jwt_encode : document → string)
    (s : Mongo.db) (now : Z) (payload : AuthPayload.t)
    (before after : list Mongo.stored) (u : Mongo.stored) :
  Mongo.collection s "user" = before ++ u :: after →
  Forall (λ x, Mongo.matches {["email" := VStr (AuthPayload.email payload)]}
                 (Mongo.as_dict x) = false) before →
  Mongo.matches {["email" := VStr (AuthPayload.email payload)]} (Mongo.as_dict u) = true →
  login pwd_verify jwt_encode s now payload
  = login pwd_verify jwt_encode (Mongo.with_collection s "user" [u]) now payload
  ∧ (password_rejected pwd_verify payload (normalize u) →
     login pwd_verify jwt_encode s now payload
     = HTTPException 400 "Invalid credentials").
Proof.
  intros Hcoll Hbefore Hu.
  assert (Hs : get_documents s "user"
                 (Some {["email" := VStr (AuthPayload.email payload)]}) 1
               = [normalize u]).
  { unfold get_documents, Mongo.limit, Mongo.find. simpl.
    rewrite Hcoll, (filter_app_unmatched _ before _ Hbefore). simpl. by rewrite Hu. }
  assert (Hone : get_documents (Mongo.with_collection s "user" [u]) "user"
                   (Some {["email" := VStr (AuthPayload.email payload)]}) 1
                 = [normalize u]).
  { unfold get_documents, Mongo.limit, Mongo.find. simpl.
    rewrite collection_with_collection. simpl. by rewrite Hu. }
  split.
  - unfold login. by rewrite Hs, Hone.
  - intros Hrejected. unfold login. rewrite Hs.
    clear Hs Hone Hcoll Hbefore Hu.
    unfold password_rejected in Hrejected.
    destruct (AuthPayload.password payload) as [pw|]; [|reflexivity].
    case_bool_decide as Hpw; [reflexivity|].
    destruct Hrejected as [Hempty|Hverify]; [by destruct Hpw|].
    rewrite Hverify. reflexivity.
Qed.

Lemma login_checks_first_user_only_witness :
  login prefix_verify (λ _, "jwt") store_with_two_adas 10
    {| AuthPayload.email := "ada@example.org";
       AuthPayload.password := Some "battery staple";
       AuthPayload.name := None |}
  = HTTPException 400 "Invalid credentials".
Proof.
  apply (login_checks_first_user_only prefix_verify (λ _, "jwt") store_with_two_adas 10
           {| AuthPayload.email := "ada@example.org";
              AuthPayload.password := Some "battery staple";
              AuthPayload.name := None |}
           []
           [{| Mongo._id := 4;
               Mongo.body :=
                 <["email" := VStr "ada@example.org"]>
                 (<["hashed_password" := VStr "h:battery staple"]> ∅) |}]
           {| Mongo._id := 3;
              Mongo.body :=
                <["email" := VStr "ada@example.org"]>
                (<["hashed_password" := VStr "h:correct horse"]> ∅) |}
           eq_refl (List.Forall_nil _) eq_refl).
  right. reflexivity.
Defined.
